(** * pyPheWAS core (pyPhewasCorev2.py): a shallow embedding and its properties

    The development follows the three parts of the core module: the
    multiple-comparison threshold calculators ([get_bon_thresh],
    [get_fdr_thresh], [get_bhy_thresh]), the feature-matrix builder
    ([get_icd_codes], [generate_feature_matrix]) and the per-phenotype
    regression loop ([calculate_odds_ratio], [run_phewas]).

    Conventions of the embedding.
    - A Python float is an exact rational or one of the three non-finite
      values ([pyfloat]); rounding is outside the model.
    - A raised exception is a value of [exn], carried by [result]; a loop
      that can be left by an exception keeps it in its state.
    - Text written by [print] is collected, in order, in a list of lines;
      the progress bars ([tqdm]) are left out.
    - A data frame is the list of its rows; subject ids are integers.
      [sort_values] is a stable sort here, pandas promises no order among
      rows of equal [id]; the matrix does not depend on that order.
    - The module-level code tables, the statsmodels fits and the real
      logarithm are parameters of the functions that use them. *)

From Stdlib Require Import QArith ZArith List String Ascii.
From stdpp Require Import base option list sorting gmap strings pretty.

Local Open Scope Z_scope.
Local Open Scope string_scope.
Local Open Scope list_scope.

(** ** Exceptions and results *)

Inductive exn : Type :=
| ValueError (msg : string)
| KeyError (msg : string)
| IndexError (msg : string)
| UnboundLocalError (msg : string)
| ZeroDivisionError (msg : string)
| OtherError (cls msg : string).

Inductive result (A : Type) : Type :=
| Ok (a : A)
| Raise (e : exn).
Arguments Ok {A} a.
Arguments Raise {A} e.

#[global] Instance result_ret : MRet result := fun A a => Ok a.
#[global] Instance result_bind : MBind result := fun A B k r =>
  match r with
  | Ok a => k a
  | Raise e => Raise e
  end.

(** [isinstance(e, ValueError)] *)
Definition is_ValueError (e : exn) : bool :=
  match e with ValueError _ => true | _ => false end.

(** [str(e)] *)
Definition exn_str (e : exn) : string :=
  match e with
  | ValueError m | KeyError m | IndexError m | UnboundLocalError m
  | ZeroDivisionError m | OtherError _ m => m
  end.

(** ** Floats *)

(** [x < y] on the rationals is decidable. *)
#[global] Instance Qlt_decision (x y : Q) : Decision (x < y)%Q.
Proof.
  destruct (Qlt_le_dec x y) as [H|H]; [left; exact H|right].
  intros Hlt. exact (Qlt_not_le _ _ Hlt H).
Defined.

Inductive pyfloat : Type :=
| Fin (q : Q)
| PInf
| NInf
| NaN.

Definition nan : pyfloat := NaN.

(** [np.isfinite] *)
Definition np_isfinite (x : pyfloat) : bool :=
  match x with Fin _ => true | _ => false end.

(** [pd.isna] on a float *)
Definition isna (x : pyfloat) : bool :=
  match x with NaN => true | _ => false end.

(** [x <= y] on floats: every comparison with NaN is false. *)
Definition py_le (x y : pyfloat) : bool :=
  match x, y with
  | NaN, _ | _, NaN => false
  | NInf, _ => true
  | _, PInf => true
  | Fin a, Fin b => Qle_bool a b
  | _, _ => false
  end.

(** The order [np.sort] puts a float array in: ascending, NaN last. *)
Definition sort_le (x y : pyfloat) : bool :=
  match x, y with
  | _, NaN => true
  | NaN, _ => false
  | _, _ => py_le x y
  end.

Section InsertionSort.
Context {A : Type} (le : A -> A -> bool).

Fixpoint insert_sorted (x : A) (l : list A) : list A :=
  match l with
  | [] => [x]
  | y :: l' => if le x y then x :: l else y :: insert_sorted x l'
  end.

(** Stable: an element stays behind the equal ones already placed. *)
Fixpoint sort_by (l : list A) : list A :=
  match l with
  | [] => []
  | x :: l' => insert_sorted x (sort_by l')
  end.
End InsertionSort.

(** [np.sort(p_values)] *)
Definition np_sort (a : list pyfloat) : list pyfloat :=
  sort_by sort_le a.

(** ** Multiple-comparison thresholds *)

(** Python's builtin [sum] over a numpy boolean array starts from the
    Python integer [0]; adding a [np.bool_] to it yields a [np.int64]. *)
Inductive pyint : Type :=
| PyInt (n : Z)
| NpInt64 (n : Z).

Definition pyint_val (n : pyint) : Z :=
  match n with PyInt z | NpInt64 z => z end.

Definition py_sum_step (acc : pyint) (b : bool) : pyint :=
  NpInt64 (pyint_val acc + (if b then 1 else 0)).

Definition py_sum (bs : list bool) : pyint :=
  fold_left py_sum_step bs (PyInt 0).

(** [alpha / n] for a Python float [alpha]: a Python integer zero raises,
    a numpy integer zero follows IEEE division. *)
Definition truediv (alpha : Q) (n : pyint) : result pyfloat :=
  match n with
  | PyInt 0 => Raise (ZeroDivisionError "float division by zero")
  | NpInt64 0 =>
      Ok (match Qcompare alpha 0 with Gt => PInf | Lt => NInf | Eq => NaN end)
  | _ => Ok (Fin (alpha / inject_Z (pyint_val n)))
  end.

Definition get_bon_thresh (p_values : list pyfloat) (alpha : Q) : result pyfloat :=
  truediv alpha (py_sum (map np_isfinite p_values)).

(** The loop [for i in range(n): if test(i): continue else: break].
    The result is the binding of [i] when the loop is left: [None] when
    the body never ran. *)
Fixpoint for_continue_break (test : nat -> bool) (range : list nat) (i : option nat)
  : option nat :=
  match range with
  | [] => i
  | j :: range' =>
      if test j then for_continue_break test range' (Some j) else Some j
  end.

(** [sn[i]] after the loop, [i] possibly unbound. *)
Definition index_after_loop (sn : list pyfloat) (i : option nat) : result pyfloat :=
  match i with
  | None => Raise (UnboundLocalError "local variable 'i' referenced before assignment")
  | Some i =>
      match sn !! i with
      | Some x => Ok x
      | None => Raise (IndexError "index out of bounds")
      end
  end.

Definition float_of_nat (n : nat) : Q := inject_Z (Z.of_nat n).

(** [sn[i] <= p_crit]; the index is in range inside the loop. *)
Definition le_crit (sn : list pyfloat) (i : nat) (p_crit : Q) : bool :=
  match sn !! i with
  | Some x => py_le x (Fin p_crit)
  | None => false
  end.

Definition fdr_p_crit (alpha : Q) (i len_sn : nat) : Q :=
  (alpha * float_of_nat (i + 1) / float_of_nat len_sn)%Q.

Definition get_fdr_thresh (p_values : list pyfloat) (alpha : Q) : result pyfloat :=
  let sn := np_sort p_values in
  let sn := filter (fun x => np_isfinite x = true) sn in
  let i := for_continue_break
             (fun i => le_crit sn i (fdr_p_crit alpha i (length sn)))
             (seq 0 (length sn)) None in
  index_after_loop sn i.

Definition bhy_p_crit (alpha : Q) (i len_sn : nat) : Q :=
  (alpha * float_of_nat (i + 1) / ((81 # 10) * float_of_nat len_sn))%Q.

Definition get_bhy_thresh (p_values : list pyfloat) (alpha : Q) : result pyfloat :=
  let sn := np_sort p_values in
  let sn := filter (fun x => np_isfinite x = true) sn in
  let i := for_continue_break
             (fun i => le_crit sn i (bhy_p_crit alpha i (length sn)))
             (seq 0 (length sn)) None in
  index_after_loop sn i.

(** The step-up rule in the words of the specification: walk the ranks
    upward, stop at the first rank whose sorted value exceeds its critical
    value, and report the value at the last rank that stayed at or under
    its critical value ([None] when no rank did). *)
Fixpoint spec_last_passing (crit : nat -> Q) (sn : list pyfloat) (i : nat)
    (last : option pyfloat) : option pyfloat :=
  match sn with
  | [] => last
  | x :: sn' =>
      if py_le x (Fin (crit i)) then spec_last_passing crit sn' (S i) (Some x)
      else last
  end.

Definition spec_step_up (crit : Q -> nat -> nat -> Q) (p_values : list pyfloat)
    (alpha : Q) : option pyfloat :=
  let sn := filter (fun x => np_isfinite x = true) (np_sort p_values) in
  spec_last_passing (fun i => crit alpha i (length sn)) sn 0%nat None.

(** ** Data model of the feature-matrix builder *)

(** A row of the group file: the columns [id], [genotype] and
    [MaxAgeAtVisit], and the further covariate columns by name. *)
Record subject : Type := {
  subj_id : Z;
  genotype : Z;
  MaxAgeAtVisit : Q;
  covariate_fields : list (string * Q)
}.

(** A row of the phenotype file after the merge with the code map. *)
Record icd_row : Type := {
  row_id : Z;
  PheCode : string;
  AgeAtICD : Q
}.

(** A row of the frame [get_icd_codes] returns: the merged row with the
    columns [MaxAgeAtICD] and, when [reg_type = 2], [duration]. *)
Record event : Type := {
  ev_id : Z;
  ev_code : string;
  ev_age : Q;
  duration : option Q;
  MaxAgeAtICD : Q
}.

Inductive code_kind : Type := ICD | CPT.

Abbreviation matrix := (list (list Q)).

(** The array [feature_matrix] of shape (3, N, P), one field per layer. *)
Record feature_matrix : Type := {
  fm0 : matrix;
  fm1 : matrix;
  fm2 : matrix
}.

(** [np.zeros((N, P))] *)
Definition zeros (N P : nat) : matrix := replicate N (replicate P 0%Q).

(** [m[i] = v]: a scalar assigned to a whole row. *)
Definition set_row (m : matrix) (i : nat) (P : nat) (v : Q) : matrix :=
  <[i := replicate P v]> m.

(** [m[i][j] = v] *)
Definition set_cell (m : matrix) (i j : nat) (v : Q) : matrix :=
  alter (fun row => <[j := v]> row) i m.

(** [m[i][j] += v] *)
Definition add_cell (m : matrix) (i j : nat) (v : Q) : matrix :=
  alter (fun row => alter (fun x => (x + v)%Q) j row) i m.

Definition cell (m : matrix) (i j : nat) : option Q :=
  m !! i ≫= fun row => row !! j.

(** ** [get_icd_codes]: the group-wise columns *)

Definition same_group (r r' : icd_row) : Prop :=
  row_id r' = row_id r /\ PheCode r' = PheCode r.

#[global] Instance same_group_dec r r' : Decision (same_group r r').
Proof. unfold same_group. apply _. Defined.

Definition Qmax' (a b : Q) : Q := if Qle_bool a b then b else a.
Definition Qmin' (a b : Q) : Q := if Qle_bool b a then b else a.

(** [phenotypes.groupby(['id','PheCode'])['AgeAtICD'].transform(f)] at row [r] *)
Definition group_ages (phenotypes : list icd_row) (r : icd_row) : list Q :=
  AgeAtICD <$> filter (same_group r) phenotypes.

(** The reduction of a group; a group is never empty. *)
Definition reduce (f : Q -> Q -> Q) (ages : list Q) : Q :=
  match ages with
  | [] => 0%Q
  | a :: ages' => fold_left f ages' a
  end.

Definition transform_max (phenotypes : list icd_row) (r : icd_row) : Q :=
  reduce Qmax' (group_ages phenotypes r).

Definition transform_min (phenotypes : list icd_row) (r : icd_row) : Q :=
  reduce Qmin' (group_ages phenotypes r).

(** The part of [get_icd_codes] after the merge: [phenotypes] is the merged
    frame. *)
Definition get_icd_codes (phenotypes : list icd_row) (reg_type : Z) : list event :=
  (fun r =>
     {| ev_id := row_id r;
        ev_code := PheCode r;
        ev_age := AgeAtICD r;
        duration :=
          if decide (reg_type = 2)
          then Some (transform_max phenotypes r - transform_min phenotypes r + 1)%Q
          else None;
        MaxAgeAtICD := transform_max phenotypes r |}) <$> phenotypes.

(** ** [generate_feature_matrix] *)

(** [df.sort_values(by='id')] *)
Definition sort_subjects (df : list subject) : list subject :=
  sort_by (fun a b => (subj_id a <=? subj_id b)%Z) df.

Definition sort_events (df : list event) : list event :=
  sort_by (fun a b => (ev_id a <=? ev_id b)%Z) df.

(** [Series.to_dict()]: a later entry overwrites an earlier one. *)
Definition to_dict `{Countable K} {V} (kvs : list (K * V)) : gmap K V :=
  list_to_map (reverse kvs).

(** [genotypes_df.set_index('id').to_dict('index')] *)
Definition to_dict_index (genotypes_df : list subject) : result (gmap Z subject) :=
  if decide (NoDup (subj_id <$> genotypes_df))
  then Ok (to_dict ((fun s => (subj_id s, s)) <$> genotypes_df))
  else Raise (ValueError "DataFrame index must be unique for orient='index'.").

Definition excluded_msg (curr_id : Z) : string :=
  pretty curr_id +:+ " has records in phenotype file but is not in group file - excluding from study".

(** The variables of the event loop, the lines printed so far and the
    exception that ended the run, if any. *)
Record builder_state : Type := {
  st_fm : feature_matrix;
  exclude : list Z;
  last_id : option Z;
  count : Z;
  stdout : list string;
  raised : option exn
}.

Definition raise_in (st : builder_state) (e : exn) : builder_state :=
  {| st_fm := st_fm st; exclude := exclude st; last_id := last_id st;
     count := count st; stdout := stdout st; raised := Some e |}.

Section GenerateFeatureMatrix.
Variable genotypes_df : list subject.
Variable genotypes : gmap Z subject.
Variable np_index : gmap string nat.
Variables (reg_type : Z) (pheno_cov : option string).
Variable P : nat.

(** [while curr_id != genotypes_df.loc[count,'id']: ...], on the rows of
    [genotypes_df] from [count] on; [.loc] raises past the last row. *)
Fixpoint skip_subjects (rows : list subject) (curr_id : Z) (count : Z) (m1 : matrix)
  : result (Z * matrix) :=
  match rows with
  | [] => Raise (KeyError (pretty count))
  | row :: rows' =>
      if decide (curr_id ≠ subj_id row) then
        let empty_id := subj_id row in
        match genotypes !! empty_id with
        | Some g =>
            skip_subjects rows' curr_id (count + 1)
              (set_row m1 (Z.to_nat count) P (MaxAgeAtVisit g))
        | None => Raise (KeyError (pretty empty_id))
        end
      else Ok (count, m1)
  end.

(** The check for a new subject. *)
Definition new_subject (st : builder_state) (curr_id : Z) (g : subject)
  : result (Z * matrix * option Z) :=
  if decide (last_id st ≠ Some curr_id) then
    let count := count st + 1 in
    '(count, m1) ← skip_subjects (drop (Z.to_nat count) genotypes_df) curr_id count
                     (fm1 (st_fm st));
    Ok (count, set_row m1 (Z.to_nat count) P (MaxAgeAtVisit g), Some curr_id)
  else Ok (count st, fm1 (st_fm st), last_id st).

(** The aggregate layer, by [reg_type]. *)
Definition aggregate (m0 : matrix) (count phecode_ix : nat) (event : event)
  : result matrix :=
  if decide (reg_type = 0) then Ok (set_cell m0 count phecode_ix 1%Q)
  else if decide (reg_type = 1) then Ok (add_cell m0 count phecode_ix 1%Q)
  else match duration event with
       | Some d => Ok (set_cell m0 count phecode_ix d)
       | None => Raise (KeyError "duration")
       end.

(** One turn of the loop over the rows of [phenotype]. *)
Definition process_event (st : builder_state) (event : event) : builder_state :=
  match raised st with
  | Some _ => st
  | None =>
      let curr_id := ev_id event in
      match genotypes !! curr_id with
      | None =>
          if decide (curr_id ∈ exclude st) then st
          else {| st_fm := st_fm st; exclude := exclude st ++ [curr_id];
                  last_id := last_id st; count := count st;
                  stdout := stdout st ++ [excluded_msg curr_id];
                  raised := None |}
      | Some g =>
          let body :=
            '(count, m1, last_id) ← new_subject st curr_id g;
            phecode_ix ← match np_index !! ev_code event with
                         | Some ix => Ok ix
                         | None => Raise (KeyError (ev_code event))
                         end;
            let m1 := set_cell m1 (Z.to_nat count) phecode_ix (MaxAgeAtICD event) in
            let m2 :=
              if decide (pheno_cov = Some (ev_code event))
              then set_row (fm2 (st_fm st)) (Z.to_nat count) P 1%Q
              else fm2 (st_fm st) in
            m0 ← aggregate (fm0 (st_fm st)) (Z.to_nat count) phecode_ix event;
            Ok {| st_fm := {| fm0 := m0; fm1 := m1; fm2 := m2 |};
                  exclude := exclude st; last_id := last_id; count := count;
                  stdout := stdout st; raised := None |} in
          match body with
          | Ok st' => st'
          | Raise e => raise_in st e
          end
      end
  end.
End GenerateFeatureMatrix.

(** [phewas_codes] and [prowas_codes] are the module-level code tables, a
    row being the code and its description ([PheCode] and [Phenotype],
    [prowas_code] and [prowas_desc]). *)
Definition generate_feature_matrix (phewas_codes prowas_codes : list (string * string))
    (genotypes_df : list subject) (phenotype : list event) (reg_type : Z)
    (code_type : code_kind) (pheno_cov : option string)
  : list string * result (feature_matrix * list string) :=
  let out := ["Sorting phenotype data..."] in
  let phenotype := sort_events phenotype in
  let out := out ++ ["Sorting group data..."] in
  let genotypes_df := sort_subjects genotypes_df in
  let empty_phewas_df :=
    match code_type with CPT => prowas_codes | ICD => phewas_codes end in
  let empty_phewas_df := sort_by String.leb (fst <$> empty_phewas_df) in
  let np_index := to_dict (zip empty_phewas_df (seq 0 (length empty_phewas_df))) in
  let N := length genotypes_df in
  let P := length empty_phewas_df in
  match to_dict_index genotypes_df with
  | Raise e => (out, Raise e)
  | Ok genotypes =>
      let st :=
        fold_left (process_event genotypes_df genotypes np_index reg_type pheno_cov P)
          phenotype
          {| st_fm := {| fm0 := zeros N P; fm1 := zeros N P; fm2 := zeros N P |};
             exclude := []; last_id := None; count := -1;
             stdout := out; raised := None |} in
      (stdout st,
       match raised st with
       | Some e => Raise e
       | None => Ok (st_fm st, empty_phewas_df)
       end)
  end.


(** ** Strings *)

(** [s.split(sep)] for a non-empty [sep]: [skip] counts the characters of a
    matched separator still to be passed over. *)
Fixpoint split_from (sep : string) (skip : nat) (s : string) : list string :=
  match s with
  | EmptyString => [""]
  | String c s' =>
      match skip with
      | S k => split_from sep k s'
      | O =>
          if String.prefix sep s
          then "" :: split_from sep (String.length sep - 1) s'
          else match split_from sep 0 s' with
               | h :: t => String c h :: t
               | [] => [String c ""]
               end
      end
  end.

Definition py_split (sep s : string) : list string := split_from sep 0 s.

(** [sep] occurs somewhere in [s]. *)
Fixpoint occurs (sep s : string) : bool :=
  match s with
  | EmptyString => String.prefix sep ""
  | String _ s' => String.prefix sep s || occurs sep s'
  end.

(** [s.replace(" ", "")] *)
Fixpoint remove_spaces (s : string) : string :=
  match s with
  | EmptyString => ""
  | String c s' => if Ascii.eqb c " " then remove_spaces s' else String c (remove_spaces s')
  end.

(** The ASCII characters [str.strip()] removes. *)
Definition is_space (c : ascii) : bool :=
  let n := nat_of_ascii c in
  ((9 <=? n) && (n <=? 13) || (28 <=? n) && (n <=? 32))%nat.

Fixpoint lstrip (s : string) : string :=
  match s with
  | EmptyString => ""
  | String c s' => if is_space c then lstrip s' else s
  end.

Fixpoint rstrip (s : string) : string :=
  match s with
  | EmptyString => ""
  | String c s' =>
      let r := rstrip s' in
      if is_space c && String.eqb r "" then "" else String c r
  end.

Definition py_strip (s : string) : string := rstrip (lstrip s).

(** The last character of [s] is a space. *)
Fixpoint ends_with_space (s : string) : bool :=
  match s with
  | EmptyString => false
  | String c EmptyString => Ascii.eqb c " "
  | String _ s' => ends_with_space s'
  end.

(** ['% d' % lr] *)
Definition fmt_space_d (lr : Z) : string :=
  if (lr <? 0)%Z then pretty lr else " " +:+ pretty lr.

(** ** The group frame as the regression sees it *)

(** The frame [genotypes]: the rows of the group file and the columns
    assigned by name since ([y], [MaxAgeAtICD], [phe]). *)
Record DataFrame : Type := {
  df_rows : list subject;
  df_assigned : list (string * list Q)
}.

Fixpoint assoc_set {V} (k : string) (v : V) (l : list (string * V)) : list (string * V) :=
  match l with
  | [] => [(k, v)]
  | (k', v') :: l' => if String.eqb k k' then (k, v) :: l' else (k', v') :: assoc_set k v l'
  end.

Fixpoint assoc_get {V} (k : string) (l : list (string * V)) : option V :=
  match l with
  | [] => None
  | (k', v') :: l' => if String.eqb k k' then Some v' else assoc_get k l'
  end.

(** [data[name] = values] *)
Definition df_setitem (data : DataFrame) (name : string) (values : list Q)
  : result DataFrame :=
  if decide (length values = length (df_rows data))
  then Ok {| df_rows := df_rows data;
             df_assigned := assoc_set name values (df_assigned data) |}
  else Raise (ValueError "Length of values does not match length of index").

(** [data[name]] *)
Definition df_getitem (data : DataFrame) (name : string) : result (list Q) :=
  match assoc_get name (df_assigned data) with
  | Some col => Ok col
  | None =>
      if String.eqb name "id" then Ok ((fun s => inject_Z (subj_id s)) <$> df_rows data)
      else if String.eqb name "genotype"
           then Ok ((fun s => inject_Z (genotype s)) <$> df_rows data)
      else if String.eqb name "MaxAgeAtVisit" then Ok (MaxAgeAtVisit <$> df_rows data)
      else match mapM (fun s => assoc_get name (covariate_fields s)) (df_rows data) with
           | Some col => Ok col
           | None => Raise (KeyError name)
           end
  end.

(** [data[names]] for a list of names *)
Fixpoint df_getitems (data : DataFrame) (names : list string)
  : result (list (string * list Q)) :=
  match names with
  | [] => Ok []
  | name :: names' =>
      col ← df_getitem data name;
      cols ← df_getitems data names';
      Ok ((name, col) :: cols)
  end.

(** ** [calculate_odds_ratio] *)

(** What the code reads off a fitted model: [pvalues.y], [params.y],
    [bse.y] and the row [y] of [conf_int()]. *)
Record fit_result : Type := {
  pvalues_y : pyfloat;
  params_y : pyfloat;
  bse_y : pyfloat;
  conf_int_y : pyfloat * pyfloat
}.

(** The cell [Conf-interval beta]: ['[%s,%s]' % (lo, hi)] or NaN. *)
Inductive conf_cell : Type :=
| ConfNaN
| ConfInterval (lo hi : pyfloat).

(** The list [od]: [-log10(p)], [p], beta, the interval, the standard error. *)
Record od_row : Type := {
  od_neg_log_p : pyfloat;
  od_p : pyfloat;
  od_beta : pyfloat;
  od_conf : conf_cell;
  od_stderr : pyfloat
}.

(** The tuple [(odds, p, od, stderr)]. *)
Definition regression_res : Type := (Z * pyfloat * od_row * pyfloat)%type.

(** [odds = 0; p = np.nan; stderr = np.nan; od = [np.nan, p, np.nan, np.nan, stderr]] *)
Definition sentinel_res : regression_res :=
  (0, nan,
   {| od_neg_log_p := nan; od_p := nan; od_beta := nan; od_conf := ConfNaN;
      od_stderr := nan |},
   nan).

Definition float_neg (x : pyfloat) : pyfloat :=
  match x with
  | Fin q => Fin (- q)
  | PInf => NInf
  | NInf => PInf
  | NaN => NaN
  end.

Definition nonzero (x : Q) : bool := negb (Qeq_bool x 0).

(** [v.any()] *)
Definition np_any (v : list Q) : bool := existsb nonzero v.

Section Regression.
(** The statsmodels calls.  [smf_logit_fit method f data] stands for
    [smf.logit(f, data).fit(disp=False)], with [method='bfgs'] when
    [method] is given; [sm_Logit_fit_regularized endog exog alpha] for
    [sm.Logit(endog, exog).fit_regularized(method='l1', alpha=alpha,
    disp=0, trim_mode='size', qc_verbose=0)].  Either returns what the
    code reads off the fitted model, or raises. *)
Variable smf_logit_fit : option string -> string -> DataFrame -> result fit_result.
Variable sm_Logit_fit_regularized :
  list Q -> list (string * list Q) -> Q -> result fit_result.

(** The real function [log10] on the positive rationals. *)
Variable log10 : Q -> Q.

(** [math.log10] *)
Definition math_log10 (x : pyfloat) : result pyfloat :=
  match x with
  | NaN => Ok NaN
  | PInf => Ok PInf
  | NInf => Raise (ValueError "math domain error")
  | Fin q =>
      if Qle_bool q 0 then Raise (ValueError "math domain error")
      else Ok (Fin (log10 q))
  end.

(** [od = [-math.log10(p), p, params.y, '[%s,%s]' % (conf[0]['y'], conf[1]['y']), stderr]] *)
Definition od_of_fit (fit : fit_result) : result regression_res :=
  let p := pvalues_y fit in
  let odds := 0 in
  let conf := conf_int_y fit in
  let stderr := bse_y fit in
  l ← math_log10 p;
  Ok (odds, p,
      {| od_neg_log_p := float_neg l; od_p := p; od_beta := params_y fit;
         od_conf := ConfInterval (fst conf) (snd conf); od_stderr := stderr |},
      stderr).

(** The formula [f] and the frame with the scratch columns set. *)
Definition build_formula (genotypes : DataFrame) (phen_vector1 phen_vector2 : list Q)
    (covariates : string) (response : string) (phen_vector3 : list Q)
  : result (DataFrame * string) :=
  let data := genotypes in
  data ← df_setitem data "y" phen_vector1;
  data ← df_setitem data "MaxAgeAtICD" phen_vector2;
  let covariates := if String.eqb covariates "" then covariates else "+" +:+ covariates in
  if negb (String.eqb response "") then
    let f := response +:+ "~ y + genotype" +:+ covariates in
    if np_any phen_vector3 then
      data ← df_setitem data "phe" phen_vector3;
      Ok (data, response +:+ "~ y + phe + genotype" +:+ covariates)
    else Ok (data, f)
  else
    let f := "genotype ~ y" +:+ covariates in
    if np_any phen_vector3 then
      data ← df_setitem data "phe" phen_vector3;
      Ok (data, "genotype ~ y + phe" +:+ covariates)
    else Ok (data, f).

(** The body of the [try] statement. *)
Definition try_fit (f : string) (data : DataFrame) (lr : Z) : result regression_res :=
  if decide (lr = 0) then
    logreg ← smf_logit_fit None f data;
    od_of_fit logreg
  else if decide (lr = 1) then
    let f1 := py_split " ~ " f in
    f1_1 ← match f1 !! 1%nat with
           | Some s => Ok (remove_spaces s)
           | None => Raise (IndexError "list index out of range")
           end;
    f1_0 ← match f1 !! 0%nat with
           | Some s => Ok s
           | None => Raise (IndexError "list index out of range")
           end;
    endog ← df_getitem data (py_strip f1_0);
    exog ← df_getitems data (py_split "+" f1_1);
    lf ← sm_Logit_fit_regularized endog exog (1 # 10);
    od_of_fit lf
  else
    linreg ← smf_logit_fit (Some "bfgs") f data;
    od_of_fit linreg.

(** The lines printed, and the frame (shared with the caller) together
    with the tuple returned, unless an assignment outside the [try]
    raised. *)
Definition calculate_odds_ratio (genotypes : DataFrame)
    (phen_vector1 phen_vector2 : list Q) (covariates : string) (lr : Z)
    (response : string) (phen_vector3 : list Q)
  : list string * result (DataFrame * regression_res) :=
  match build_formula genotypes phen_vector1 phen_vector2 covariates response
          phen_vector3 with
  | Raise e => ([], Raise e)
  | Ok (data, f) =>
      match try_fit f data lr with
      | Ok res => ([], Ok (data, res))
      | Raise e =>
          if is_ValueError e
          then ([exn_str e; "lr = " +:+ fmt_space_d lr], Ok (data, sentinel_res))
          else ([exn_str e], Ok (data, sentinel_res))
      end
  end.
End Regression.

(** ** [run_phewas] *)

(** A row of the frame [regressions]. *)
Record regression_row : Type := {
  reg_code : string;
  reg_name : string;
  reg_od : od_row;
  reg_icd9 : string;
  reg_icd10 : string
}.

(** [m[:, j]]; inside the loop [j] is a column of the array. *)
Definition column (m : matrix) (j : nat) : list Q :=
  (fun row => default 0%Q (row !! j)) <$> m.

(** [m[mask, :]] for a boolean mask over the rows. *)
Definition mask_rows (m : matrix) (mask : list bool) : result matrix :=
  if decide (length mask = length m)
  then Ok (fst <$> filter (fun rb => snd rb = true) (zip m mask))
  else Raise (IndexError "boolean index did not match indexed array along dimension 0").

(** [m.any(axis=0)] for an array with [P] columns *)
Definition any_axis0 (m : matrix) (P : nat) : list bool :=
  (fun j => np_any (column m j)) <$> seq 0 P.

(** [(c & ~d) | (~c & d)] *)
Definition only_one (c d : bool) : bool := (c && negb d) || (negb c && d).

(** [np.where(mask)[0]] *)
Definition np_where (mask : list bool) : list nat :=
  fst <$> filter (fun ib => snd ib = true) (zip (seq 0 (length mask)) mask).

(** [np.where(v > 0)[0].shape[0]] *)
Definition count_positive (v : list Q) : nat :=
  length (np_where ((fun x => negb (Qle_bool x 0)) <$> v)).

(** The variables of the regression loop. *)
Record phewas_state : Type := {
  ps_data : DataFrame;
  regressions : list regression_row;
  ps_stdout : list string;
  ps_raised : option exn
}.

Section RunPhewas.
Variable smf_logit_fit : option string -> string -> DataFrame -> result fit_result.
Variable sm_Logit_fit_regularized :
  list Q -> list (string * list Q) -> Q -> result fit_result.
Variable log10 : Q -> Q.

(** The module-level tables: [phewas_codes] with the columns [PheCode]
    and [Phenotype]; [icd9_codes] and [icd10_codes] with the columns
    [ICD_CODE] and [PheCode]. *)
Variable phewas_codes : list (string * string).
Variables icd9_codes icd10_codes : list (string * string).

(** The list of four strings returned is a 4-tuple here. *)
Definition get_phewas_info (p_index : nat)
  : result (string * string * string * string) :=
  match phewas_codes !! p_index with
  | None => Raise (KeyError (pretty p_index))
  | Some (p_code, p_name) =>
      let p_icd9_rollup :=
        String.concat "/" (fst <$> filter (fun r => snd r = p_code) icd9_codes) in
      let p_icd10_rollup :=
        String.concat "/" (fst <$> filter (fun r => snd r = p_code) icd10_codes) in
      Ok (p_code, p_name, p_icd9_rollup, p_icd10_rollup)
  end.

(** The tuple [res] of one turn of the loop, with the lines the turn
    prints and the frame it leaves. *)
Definition regression_at (fm : feature_matrix) (genotypes : DataFrame)
    (inds : list nat) (covariates response : string) (index : nat)
  : list string * result (DataFrame * regression_res) :=
  let phen_vector1 := column (fm0 fm) index in
  let phen_vector2 := column (fm1 fm) index in
  let phen_vector3 := column (fm2 fm) index in
  if (5 <? count_positive phen_vector1)%nat then
    if decide (index ∈ inds) then
      calculate_odds_ratio smf_logit_fit sm_Logit_fit_regularized log10
        genotypes phen_vector1 phen_vector2 covariates 1 response phen_vector3
    else
      calculate_odds_ratio smf_logit_fit sm_Logit_fit_regularized log10
        genotypes phen_vector1 phen_vector2 covariates 0 response phen_vector3
  else ([], Ok (genotypes, sentinel_res)).

(** One turn of the loop over the phenotype columns. *)
Definition regress_index (fm : feature_matrix) (inds : list nat)
    (covariates response : string) (st : phewas_state) (index : nat) : phewas_state :=
  match ps_raised st with
  | Some _ => st
  | None =>
      let '(out, r) := regression_at fm (ps_data st) inds covariates response index in
      let out := ps_stdout st ++ out in
      match r with
      | Raise e =>
          {| ps_data := ps_data st; regressions := regressions st;
             ps_stdout := out; ps_raised := Some e |}
      | Ok (data, res) =>
          match get_phewas_info index with
          | Ok (p_code, p_name, p_icd9, p_icd10) =>
              let stat_info := snd (fst res) in
              {| ps_data := data;
                 regressions := regressions st ++
                   [{| reg_code := p_code; reg_name := p_name; reg_od := stat_info;
                       reg_icd9 := p_icd9; reg_icd10 := p_icd10 |}];
                 ps_stdout := out; ps_raised := None |}
          | Raise e =>
              {| ps_data := data; regressions := regressions st;
                 ps_stdout := out; ps_raised := Some e |}
          end
      end
  end.

(** The index set [inds] of the phenotypes present in one group only. *)
Definition separated_indices (fm : feature_matrix) (genotypes : list subject)
    (num_phecodes : nat) : result (list nat) :=
  control ← mask_rows (fm0 fm) ((fun s => bool_decide (genotype s = 0)) <$> genotypes);
  disease ← mask_rows (fm0 fm) ((fun s => bool_decide (genotype s = 1)) <$> genotypes);
  Ok (np_where (zip_with only_one (any_axis0 control num_phecodes)
                                  (any_axis0 disease num_phecodes))).

(** [regressions.dropna(subset=['p-val']).sort_values(by='PheWAS Code')] *)
Definition dropna_sorted (regressions : list regression_row) : list regression_row :=
  sort_by (fun a b => String.leb (reg_code a) (reg_code b))
    (filter (fun r => isna (od_p (reg_od r)) = false) regressions).

Definition run_phewas (fm : feature_matrix) (genotypes : list subject)
    (covariates : string) (reg_type : Z) (response : string) (phewas_cov : string)
  : list string * result (list regression_row) :=
  let out := ["Sorting group data..."] in
  let genotypes := sort_subjects genotypes in
  match
    (num_phecodes ← match fm0 fm with
                    | row :: _ => Ok (length row)
                    | [] => Raise (IndexError "index 0 is out of bounds for axis 0 with size 0")
                    end;
     inds ← separated_indices fm genotypes num_phecodes;
     Ok (num_phecodes, inds))
  with
  | Raise e => (out, Raise e)
  | Ok (num_phecodes, inds) =>
      let st :=
        fold_left (regress_index fm inds covariates response) (seq 0 num_phecodes)
          {| ps_data := {| df_rows := genotypes; df_assigned := [] |};
             regressions := []; ps_stdout := out; ps_raised := None |} in
      (ps_stdout st,
       match ps_raised st with
       | Some e => Raise e
       | None => Ok (dropna_sorted (regressions st))
       end)
  end.
End RunPhewas.

(** ** Sample inputs *)

Module Sample.
(** A group frame of two subjects with a covariate column [resp]. *)
Definition frame : DataFrame :=
  {| df_rows :=
       [ {| subj_id := 1; genotype := 1; MaxAgeAtVisit := 50;
            covariate_fields := [("resp", 1%Q)] |};
         {| subj_id := 2; genotype := 0; MaxAgeAtVisit := 60;
            covariate_fields := [("resp", 0%Q)] |} ];
     df_assigned := [] |}.

(** A group frame with a column of an odd name. *)
Definition odd_frame : DataFrame :=
  {| df_rows :=
       [ {| subj_id := 1; genotype := 1; MaxAgeAtVisit := 50;
            covariate_fields := [("resp~ y + genotype+a", 1%Q)] |};
         {| subj_id := 2; genotype := 0; MaxAgeAtVisit := 60;
            covariate_fields := [("resp~ y + genotype+a", 0%Q)] |} ];
     df_assigned := [] |}.

Definition a_fit : fit_result :=
  {| pvalues_y := Fin (1 # 10); params_y := Fin 1; bse_y := Fin (1 # 2);
     conf_int_y := (Fin 0, Fin 2) |}.

(** A logarithm that is right at 1/10, the only point it is asked for. *)
Definition log10 (q : Q) : Q := if Qeq_bool q (1 # 10) then (-1)%Q else 0%Q.

(** Fits that succeed. *)
Definition smf_fits (method : option string) (f : string) (data : DataFrame)
  : result fit_result := Ok a_fit.
Definition regularized_fits (endog : list Q) (exog : list (string * list Q)) (alpha : Q)
  : result fit_result := Ok a_fit.

(** Fits that fail as statsmodels does on separated or singular data. *)
Definition smf_separation (method : option string) (f : string) (data : DataFrame)
  : result fit_result :=
  Raise (OtherError "PerfectSeparationError"
           "Perfect separation detected, results not available").
Definition smf_value_error (method : option string) (f : string) (data : DataFrame)
  : result fit_result :=
  Raise (ValueError "endog must be in the unit interval.").
End Sample.

(** ** Predicates and derived functions used in the statements *)

(** The array [sn] of both step-up calculators. *)
Definition sorted_finite (p_values : list pyfloat) : list pyfloat :=
  filter (fun x => np_isfinite x = true) (np_sort p_values).

(** The common shape of [get_fdr_thresh] and [get_bhy_thresh]. *)
Definition step_up (crit : Q -> nat -> nat -> Q) (p_values : list pyfloat) (alpha : Q)
  : result pyfloat :=
  let sn := sorted_finite p_values in
  index_after_loop sn
    (for_continue_break (fun i => le_crit sn i (crit alpha i (length sn)))
       (seq 0 (length sn)) None).

(** [m] is an array of [N] rows and [P] columns. *)
Definition shape (N P : nat) (m : matrix) : Prop :=
  length m = N /\ Forall (fun row => length row = P) m.

(** Two rows of [phenotype] of one (id, code) group carry the same
    group-wise columns. *)
Definition consistent (e e' : event) : Prop :=
  ev_id e = ev_id e' -> ev_code e = ev_code e' ->
  MaxAgeAtICD e = MaxAgeAtICD e' /\ duration e = duration e'.

(** The row of the matrix that belongs to the subject of [e], [rs] being
    the sorted group frame. *)
Definition placed (rs : list subject) (e : event) (r : nat) : Prop :=
  exists s, rs !! r = Some s /\ subj_id s = ev_id e.

(** What holds after the rows [done] of [phenotype] have been processed:
    [rs] is the sorted group frame, [header] the sorted code index. *)
Record Inv (rs : list subject) (header : list string) (reg_type : Z)
    (done : list event) (st : builder_state) : Prop := {
  inv_raised : raised st = None;
  inv_shape0 : shape (length rs) (length header) (fm0 (st_fm st));
  inv_shape1 : shape (length rs) (length header) (fm1 (st_fm st));
  inv_pos :
    match last_id st with
    | None => count st = -1
    | Some l => exists c s e, count st = Z.of_nat c /\ rs !! c = Some s /\
                  subj_id s = l /\ e ∈ done /\ ev_id e = l
    end;
  inv_placed : forall e r, e ∈ done -> placed rs e r ->
    exists c, count st = Z.of_nat c /\ (r <= c)%nat;
  inv_cells : forall e r c, e ∈ done -> placed rs e r ->
    to_dict (zip header (seq 0 (length header))) !! ev_code e = Some c ->
    cell (fm1 (st_fm st)) r c = Some (MaxAgeAtICD e) /\
    (reg_type ≠ 0 -> reg_type ≠ 1 ->
     exists d, duration e = Some d /\ cell (fm0 (st_fm st)) r c = Some d);
  inv_rest : forall r j, count st < Z.of_nat r ->
    cell (fm1 (st_fm st)) r j = cell (zeros (length rs) (length header)) r j
}.
Arguments inv_raised {rs header reg_type done st} _.
Arguments inv_shape0 {rs header reg_type done st} _.
Arguments inv_shape1 {rs header reg_type done st} _.
Arguments inv_pos {rs header reg_type done st} _.
Arguments inv_placed {rs header reg_type done st} _.
Arguments inv_cells {rs header reg_type done st} _.
Arguments inv_rest {rs header reg_type done st} _.

(** [m] is a largest, a smallest, entry of [l]. *)
Definition is_max_of (m : Q) (l : list Q) : Prop :=
  m ∈ l /\ forall a, a ∈ l -> (a <= m)%Q.

Definition is_min_of (m : Q) (l : list Q) : Prop :=
  m ∈ l /\ forall a, a ∈ l -> (m <= a)%Q.

(** The state in which the event loop starts. *)
Definition init_state (N P : nat) : builder_state :=
  {| st_fm := {| fm0 := zeros N P; fm1 := zeros N P; fm2 := zeros N P |};
     exclude := []; last_id := None; count := -1;
     stdout := ["Sorting phenotype data..."] ++ ["Sorting group data..."];
     raised := None |}.

(** The sorted index of the code table. *)
Definition header_of (phewas_codes prowas_codes : list (string * string))
    (code_type : code_kind) : list string :=
  sort_by String.leb
    (fst <$> match code_type with CPT => prowas_codes | ICD => phewas_codes end).

(** The state in which the event loop ends. *)
Definition final_state (phewas_codes prowas_codes : list (string * string))
    (genotypes_df : list subject) (phenotype : list event) (reg_type : Z)
    (code_type : code_kind) (pheno_cov : option string) : builder_state :=
  let rs := sort_subjects genotypes_df in
  let header := header_of phewas_codes prowas_codes code_type in
  fold_left
    (process_event rs (to_dict ((fun s => (subj_id s, s)) <$> rs))
       (to_dict (zip header (seq 0 (length header)))) reg_type pheno_cov (length header))
    (sort_events phenotype)
    (init_state (length rs) (length header)).

(** The part of the state the matrix depends on. *)
Definition core (st : builder_state) : feature_matrix * option Z * Z * option exn :=
  (st_fm st, last_id st, count st, raised st).

(** The formula, as a function of the arguments. *)
Definition formula_of (covariates response : string) (phen_vector3 : list Q) : string :=
  let covariates := if String.eqb covariates "" then covariates else "+" +:+ covariates in
  if negb (String.eqb response "") then
    if np_any phen_vector3 then response +:+ "~ y + phe + genotype" +:+ covariates
    else response +:+ "~ y + genotype" +:+ covariates
  else
    if np_any phen_vector3 then "genotype ~ y + phe" +:+ covariates
    else "genotype ~ y" +:+ covariates.

(** Some subject of exposure group [g] has a nonzero value in column [j]
    of the aggregate layer. *)
Definition present (m0 : matrix) (genotypes : list subject) (g : Z) (j : nat) : Prop :=
  exists i s x, genotypes !! i = Some s /\ genotype s = g /\
    cell m0 i j = Some x /\ ¬ (x == 0)%Q.

(** ** Helpers of the plots and of the command line *)

(** [x < y] on floats: every comparison with NaN is false. *)
Definition py_lt (x y : pyfloat) : bool :=
  match x, y with
  | NaN, _ | _, NaN => false
  | Fin a, Fin b => negb (Qle_bool b a)
  | NInf, NInf => false
  | NInf, _ => true
  | PInf, _ => false
  | Fin _, PInf => true
  | Fin _, NInf => false
  end.

(** [a[mask(a)] = v]: the entries picked by the mask are overwritten. *)
Definition assign_where (mask : pyfloat -> bool) (v : pyfloat) (a : list pyfloat)
  : list pyfloat :=
  (fun x => if mask x then v else x) <$> a.

(** [regressions] is the frame [run_phewas] returns; the array is a copy of
    its column [beta]. *)
Definition get_imbalances (regressions : list regression_row) : list pyfloat :=
  let imbalance := (fun r => od_beta (reg_od r)) <$> regressions in
  let imbalance := assign_where isna (Fin 0) imbalance in
  let imbalance := assign_where (fun x => py_lt (Fin 0) x) (Fin 1) imbalance in
  let imbalance := assign_where (fun x => py_lt x (Fin 0)) (Fin (-1)) imbalance in
  imbalance.

(** [tt[c] += 1] in a [Counter]: a dictionary keeps its keys in the order
    of their first insertion. *)
Fixpoint counter_add (c : string) (tt : list (string * nat)) : list (string * nat) :=
  match tt with
  | [] => [(c, 1%nat)]
  | (k, v) :: tt' =>
      if String.eqb c k then (k, S v) :: tt' else (k, v) :: counter_add c tt'
  end.

(** [Counter(categories)] *)
Definition Counter (categories : list string) : list (string * nat) :=
  fold_left (fun tt c => counter_add c tt) categories [].

(** One turn of the loop over [tt.items()]: the state is [s] and
    [label_positions]. *)
Definition label_step (lines : bool) (st : nat * list nat) (kv : string * nat)
  : nat * list nat :=
  let '(s, label_positions) := st in
  let v := snd kv in
  let inc := if lines then (v / 2)%nat else v in
  ((s + v)%nat, label_positions ++ [(s + inc)%nat]).

Definition get_x_label_positions (categories : list string) (lines : bool) : list nat :=
  let tt := Counter categories in
  snd (fold_left (label_step lines) tt (0%nat, [])).

(** ['.' * n]: a count below one gives the empty string. *)
Definition dots (n : Z) : string :=
  string_of_list_ascii (replicate (Z.to_nat n) "."%char).

(** [kwargs] is the list of the items of the dictionary, each key and value
    as [str] prints it; the result is the lines printed. *)
Definition display_kwargs (kwargs : list (string * string)) : list string :=
  "Arguments: " ::
  ((fun kv =>
      let '(k, v) := kv in
      let num_dots := 80 - Z.of_nat (String.length k) - Z.of_nat (String.length v) in
      k +:+ dots num_dots +:+ v) <$> kwargs).

(** ** Further predicates used in the statements *)

(** The running total of the counts of the first [i] categories. *)
Definition span_start (tt : list (string * nat)) (i : nat) : nat :=
  sum_list (snd <$> take i tt).

(** The sign of a regression coefficient, in the words of the docstring of
    [get_imbalances]: -1 below zero, 0 for NaN, +1 above zero. *)
Definition imbalance_of (x v : pyfloat) : Prop :=
  match x with
  | NaN => v = Fin 0
  | PInf => v = Fin 1
  | NInf => v = Fin (-1)
  | Fin q =>
      ((0 < q)%Q -> v = Fin 1) /\ ((q < 0)%Q -> v = Fin (-1)) /\
      ((q == 0)%Q -> v = Fin q)
  end.

(** The row [r] of [regressions] carries the code, the name and the
    rollups of the row [index] of the code table. *)
Definition row_of_index (phewas_codes icd9_codes icd10_codes : list (string * string))
    (r : regression_row) (index : nat) : Prop :=
  phewas_codes !! index = Some (reg_code r, reg_name r) /\
  reg_icd9 r =
    String.concat "/" (fst <$> filter (fun c => snd c = reg_code r) icd9_codes) /\
  reg_icd10 r =
    String.concat "/" (fst <$> filter (fun c => snd c = reg_code r) icd10_codes).

(** ** Further predicates on the event loop *)

(** The event [e] belongs to row [r] of the sorted group frame [rs] and to
    column [j] of the code index. *)
Definition at_cell (rs : list subject) (np_index : gmap string nat) (r j : nat)
    (e : event) : Prop :=
  (subj_id <$> rs) !! r = Some (ev_id e) /\ np_index !! ev_code e = Some j.

#[global] Instance at_cell_dec rs np_index r j e : Decision (at_cell rs np_index r j e).
Proof. unfold at_cell. apply _. Defined.

(** The event [e] belongs to row [r] and has the covariate code. *)
Definition covariate_hit (rs : list subject) (pheno_cov : option string) (r : nat)
    (e : event) : Prop :=
  (subj_id <$> rs) !! r = Some (ev_id e) /\ pheno_cov = Some (ev_code e).

#[global] Instance covariate_hit_dec rs pheno_cov r e :
  Decision (covariate_hit rs pheno_cov r e).
Proof. unfold covariate_hit. apply _. Defined.

(** What holds, besides [Inv], of the cells no event of [done] has written
    and of the aggregates of the cells some have. *)
Record Fill (rs : list subject) (header : list string) (reg_type : Z)
    (pheno_cov : option string) (done : list event) (st : builder_state) : Prop := {
  fill_shape2 : shape (length rs) (length header) (fm2 (st_fm st));
  fill_age : forall r s j, rs !! r = Some s -> Z.of_nat r <= count st ->
    (j < length header)%nat ->
    filter (at_cell rs (to_dict (zip header (seq 0 (length header)))) r j) done = [] ->
    cell (fm1 (st_fm st)) r j = Some (MaxAgeAtVisit s);
  fill_binary : reg_type = 0 -> forall r j,
    (r < length rs)%nat -> (j < length header)%nat ->
    filter (at_cell rs (to_dict (zip header (seq 0 (length header)))) r j) done ≠ [] ->
    cell (fm0 (st_fm st)) r j = Some 1%Q;
  fill_count : reg_type = 1 -> forall r j,
    (r < length rs)%nat -> (j < length header)%nat ->
    cell (fm0 (st_fm st)) r j =
      Some (inject_Z (Z.of_nat (length
        (filter (at_cell rs (to_dict (zip header (seq 0 (length header)))) r j) done))));
  fill_empty : forall r j, (r < length rs)%nat -> (j < length header)%nat ->
    filter (at_cell rs (to_dict (zip header (seq 0 (length header)))) r j) done = [] ->
    cell (fm0 (st_fm st)) r j = Some 0%Q;
  fill_cov : forall r j, (r < length rs)%nat -> (j < length header)%nat ->
    cell (fm2 (st_fm st)) r j =
      Some (if decide (filter (covariate_hit rs pheno_cov r) done = []) then 0%Q else 1%Q)
}.
Arguments fill_shape2 {rs header reg_type pheno_cov done st} _.
Arguments fill_age {rs header reg_type pheno_cov done st} _.
Arguments fill_binary {rs header reg_type pheno_cov done st} _.
Arguments fill_count {rs header reg_type pheno_cov done st} _.
Arguments fill_empty {rs header reg_type pheno_cov done st} _.
Arguments fill_cov {rs header reg_type pheno_cov done st} _.

(** The three layers have [N] rows of [P] entries. *)
Definition shape3 (N P : nat) (fm : feature_matrix) : Prop :=
  shape N P (fm0 fm) /\ shape N P (fm1 fm) /\ shape N P (fm2 fm).

(** ** [get_icd_codes] and [get_cpt_codes]: from the records to the frame *)

(** A row of the phenotype file as [read_csv] returns it, with the columns
    [id], [ICD_CODE], [ICD_TYPE] and [AgeAtICD].  Codes are strings here;
    a missing code is outside the model. *)
Record icd_record : Type := {
  rec_id : Z;
  ICD_CODE : string;
  ICD_TYPE : Z;
  rec_AgeAtICD : Q
}.

(** A row of the procedure file: [id], [CPT_CODE] and [AgeAtCPT]. *)
Record cpt_record : Type := {
  cpt_id : Z;
  CPT_CODE : string;
  AgeAtCPT : Q
}.

(** [np.unique]: the distinct values in ascending order. *)
Definition np_unique (a : list Z) : list Z := sort_by Z.leb (remove_dups a).

(** [pd.merge(left, codes, on=key)], the inner join: a row for each pair of
    a row of [left] and a row of [codes] with its key, in the order of
    [left].  [codes] has the key in its first and the PheWAS or ProWAS
    code in its second column. *)
Definition merge {A} (key : A -> string) (row : A -> string -> icd_row)
    (left : list A) (codes : list (string * string)) : list icd_row :=
  left ≫= fun rec =>
    (fun cp => row rec (snd cp)) <$> filter (fun cp => fst cp = key rec) codes.

Definition icd_row_of (rec : icd_record) (phecode : string) : icd_row :=
  {| row_id := rec_id rec; PheCode := phecode; AgeAtICD := rec_AgeAtICD rec |}.

Definition cpt_row_of (rec : cpt_record) (prowas_code : string) : icd_row :=
  {| row_id := cpt_id rec; PheCode := prowas_code; AgeAtICD := AgeAtCPT rec |}.

(** [sys.exit()] *)
Definition SystemExit : exn := OtherError "SystemExit" "".

(** The part of [get_icd_codes] up to the merge with the code tables;
    [icdfile] is what [read_csv] returned, [icd9_codes] and [icd10_codes]
    are the module-level maps from [ICD_CODE] to [PheCode]. *)
Definition get_icd_codes_merge (icd9_codes icd10_codes : list (string * string))
    (icdfile : list icd_record) : list string * result (list icd_row) :=
  let icdfile :=
    (fun rec => {| rec_id := rec_id rec; ICD_CODE := py_strip (ICD_CODE rec);
                   ICD_TYPE := ICD_TYPE rec; rec_AgeAtICD := rec_AgeAtICD rec |})
      <$> icdfile in
  let icd_types := np_unique (ICD_TYPE <$> icdfile) in
  if negb (forallb (fun t => (t =? 9)%Z || (t =? 10)%Z) icd_types) then
    (["Found an ICD_TYPE that was not 9 or 10 - Please check phenotype file.";
      "Exiting pyPheWAS"], Raise SystemExit)
  else if decide (length icd_types = 2%nat) then
    let icd9s := filter (fun rec => ICD_TYPE rec = 9) icdfile in
    let icd10s := filter (fun rec => ICD_TYPE rec = 10) icdfile in
    let phenotypes_9 := merge ICD_CODE icd_row_of icd9s icd9_codes in
    let phenotypes_10 := merge ICD_CODE icd_row_of icd10s icd10_codes in
    (["Found both ICD-9 and ICD-10 codes."], Ok (phenotypes_9 ++ phenotypes_10))
  else
    match icd_types !! 0%nat with
    | None => ([], Raise (IndexError "index 0 is out of bounds for axis 0 with size 0"))
    | Some t =>
        if decide (t = 9) then
          (["Found only ICD-9 codes."], Ok (merge ICD_CODE icd_row_of icdfile icd9_codes))
        else if decide (t = 10) then
          (["Found only ICD-10 codes."], Ok (merge ICD_CODE icd_row_of icdfile icd10_codes))
        else
          (["An issue occurred while parsing the ICD_TYPE column - Please check phenotype file.";
            "Exiting pyPheWAS"], Raise SystemExit)
    end.

(** [get_icd_codes] from the records on. *)
Definition get_icd_codes_file (icd9_codes icd10_codes : list (string * string))
    (icdfile : list icd_record) (reg_type : Z) : list string * result (list event) :=
  let '(out, r) := get_icd_codes_merge icd9_codes icd10_codes icdfile in
  (out, phenotypes ← r; Ok (get_icd_codes phenotypes reg_type)).

(** [get_cpt_codes] from the records on; the frame has the columns
    [prowas_code], [AgeAtCPT] and [MaxAgeAtCPT] where that of
    [get_icd_codes] has [PheCode], [AgeAtICD] and [MaxAgeAtICD], and the
    same group-wise columns. *)
Definition get_cpt_codes (cpt_codes : list (string * string))
    (cptfile : list cpt_record) (reg_type : Z) : list event :=
  let cptfile :=
    (fun rec => {| cpt_id := cpt_id rec; CPT_CODE := py_strip (CPT_CODE rec);
                   AgeAtCPT := AgeAtCPT rec |}) <$> cptfile in
  let phenotypes := merge CPT_CODE cpt_row_of cptfile cpt_codes in
  get_icd_codes phenotypes reg_type.

(** * Properties *)

(** ** Sorting *)

Section InsertionSortFacts.
Context {A : Type} (le : A -> A -> bool).

Lemma insert_sorted_Permutation x l : Permutation (insert_sorted le x l) (x :: l).
Proof.
  induction l as [|y l IH]; simpl; [done|].
  destruct (le x y); [done|].
  rewrite IH. apply perm_swap.
Qed.

Lemma sort_by_Permutation l : Permutation (sort_by le l) l.
Proof.
  induction l as [|x l IH]; simpl; [done|].
  by rewrite insert_sorted_Permutation, IH.
Qed.

Lemma sort_by_elem_of x l : x ∈ sort_by le l <-> x ∈ l.
Proof. by rewrite sort_by_Permutation. Qed.

Hypothesis le_total : forall x y, le x y = true \/ le y x = true.
Hypothesis le_trans : forall x y z, le x y = true -> le y z = true -> le x z = true.

Lemma insert_sorted_StronglySorted x l :
  StronglySorted (fun a b => le a b = true) l ->
  StronglySorted (fun a b => le a b = true) (insert_sorted le x l).
Proof.
  induction 1 as [|y l Hs IH Hall]; simpl.
  - repeat constructor.
  - destruct (le x y) eqn:Hxy.
    + constructor; [by constructor|].
      constructor; [done|].
      eapply Forall_impl; [exact Hall|]. intros z Hz. by eapply le_trans.
    + constructor; [done|].
      rewrite insert_sorted_Permutation. constructor; [|done].
      destruct (le_total x y); congruence.
Qed.

Lemma sort_by_StronglySorted l :
  StronglySorted (fun a b => le a b = true) (sort_by le l).
Proof.
  induction l; simpl; [constructor|]. by apply insert_sorted_StronglySorted.
Qed.

Lemma StronglySorted_filter_bool (P : A -> Prop) `{!forall x, Decision (P x)} l :
  StronglySorted (fun a b => le a b = true) l ->
  StronglySorted (fun a b => le a b = true) (filter P l).
Proof.
  induction 1 as [|y l Hs IH Hall]; [constructor|].
  rewrite filter_cons. destruct (decide (P y)); [|done].
  constructor; [done|].
  rewrite Forall_forall in Hall. apply Forall_forall.
  intros z [_ Hz]%list_elem_of_filter. by apply Hall.
Qed.

(** Stability: filtering commutes with sorting. *)
Lemma filter_insert_sorted (P : A -> Prop) `{!forall x, Decision (P x)} x l :
  StronglySorted (fun a b => le a b = true) l ->
  filter P (insert_sorted le x l) =
    if decide (P x) then insert_sorted le x (filter P l) else filter P l.
Proof.
  induction 1 as [|y l Hs IH Hall]; simpl.
  - rewrite filter_cons, filter_nil. by destruct (decide (P x)).
  - destruct (le x y) eqn:Hxy.
    + rewrite !filter_cons. destruct (decide (P x)) as [HPx|HPx]; [|done].
      destruct (decide (P y)); simpl; [by rewrite Hxy|].
      assert (Hge : Forall (fun z => le x z = true) (filter P l)).
      { apply Forall_forall. intros z [_ Hz]%list_elem_of_filter.
        rewrite Forall_forall in Hall. eapply le_trans; eauto. }
      destruct (filter P l) as [|z l']; [done|].
      simpl. by rewrite (Forall_inv Hge).
    + rewrite filter_cons, IH, filter_cons.
      destruct (decide (P y)), (decide (P x)); simpl; rewrite ?Hxy; done.
Qed.

Lemma filter_sort_by (P : A -> Prop) `{!forall x, Decision (P x)} l :
  filter P (sort_by le l) = sort_by le (filter P l).
Proof.
  induction l as [|x l IH]; simpl; [done|].
  rewrite filter_insert_sorted by apply sort_by_StronglySorted.
  rewrite filter_cons, IH. by destruct (decide (P x)).
Qed.
End InsertionSortFacts.

(** ** The float order *)

Lemma Qle_bool_total a b : Qle_bool a b = true \/ Qle_bool b a = true.
Proof.
  rewrite !Qle_bool_iff.
  destruct (Qlt_le_dec a b) as [H|H]; [left; by apply Qlt_le_weak | by right].
Qed.

Lemma Qle_bool_trans a b c :
  Qle_bool a b = true -> Qle_bool b c = true -> Qle_bool a c = true.
Proof. rewrite !Qle_bool_iff. apply Qle_trans. Qed.

Lemma sort_le_total x y : sort_le x y = true \/ sort_le y x = true.
Proof.
  destruct x as [a| | |], y as [b| | |]; simpl; auto.
  apply Qle_bool_total.
Qed.

Lemma sort_le_trans x y z :
  sort_le x y = true -> sort_le y z = true -> sort_le x z = true.
Proof.
  destruct x as [a| | |], y as [b| | |], z as [c| | |]; simpl; try done.
  apply Qle_bool_trans.
Qed.

Lemma sort_le_finite x y :
  np_isfinite x = true -> np_isfinite y = true -> sort_le x y = py_le x y.
Proof. by destruct x, y. Qed.


Lemma sorted_finite_elem_of x p_values :
  x ∈ sorted_finite p_values <-> x ∈ p_values /\ np_isfinite x = true.
Proof.
  unfold sorted_finite, np_sort.
  rewrite list_elem_of_filter, sort_by_elem_of. tauto.
Qed.

Lemma sorted_finite_StronglySorted p_values :
  StronglySorted (fun a b => sort_le a b = true) (sorted_finite p_values).
Proof.
  apply StronglySorted_filter_bool, sort_by_StronglySorted.
  - apply sort_le_total.
  - apply sort_le_trans.
Qed.

Lemma sorted_finite_nil p_values :
  sorted_finite p_values = [] <->
  forall x, x ∈ p_values -> np_isfinite x = false.
Proof.
  split.
  - intros Hnil x Hx. destruct (np_isfinite x) eqn:Hf; [|done].
    assert (x ∈ sorted_finite p_values) as Hin by by apply sorted_finite_elem_of.
    rewrite Hnil in Hin. by apply elem_of_nil in Hin.
  - intros Hall. destruct (sorted_finite p_values) as [|x l] eqn:Hs; [done|].
    assert (x ∈ sorted_finite p_values) as Hin by (rewrite Hs; left).
    apply sorted_finite_elem_of in Hin as [Hin Hf].
    apply Hall in Hin. congruence.
Qed.

(** In a sorted array the last entry dominates every entry. *)
Lemma StronglySorted_last_max {A} (R : A -> A -> Prop) `{!Reflexive R} l n x y :
  StronglySorted R l -> length l = S n -> l !! n = Some y -> x ∈ l -> R x y.
Proof.
  intros Hs. revert n. induction Hs as [|z l Hs IH Hall]; intros n Hlen Hy Hx.
  - done.
  - simpl in Hlen. destruct n as [|n].
    + destruct l; [|done]. simpl in Hy. apply list_elem_of_singleton in Hx.
      by simplify_eq.
    + simpl in Hy. apply elem_of_cons in Hx as [->|Hx].
      * rewrite Forall_forall in Hall. apply Hall.
        by eapply list_elem_of_lookup_2.
      * eapply IH; eauto.
Qed.

(** ** The [for]/[continue]/[break] loop *)

Lemma for_continue_break_bound test a n i0 k :
  for_continue_break test (seq a n) i0 = Some k ->
  (n = 0%nat /\ i0 = Some k) \/ (a <= k < a + n)%nat.
Proof.
  revert a i0. induction n as [|n IH]; intros a i0; simpl.
  - auto.
  - destruct (test a).
    + intros H. apply IH in H as [[-> H]|H]; right; [simplify_eq|]; lia.
    + intros [= <-]. right. lia.
Qed.

Lemma for_continue_break_runs test a n i0 :
  (0 < n)%nat -> exists k, for_continue_break test (seq a n) i0 = Some k.
Proof.
  revert a i0. induction n as [|n IH]; intros a i0 Hn; [lia|]. simpl.
  destruct (test a); [|eauto].
  destruct n as [|n]; [simpl; eauto|]. apply IH. lia.
Qed.

(** The loop leaves [i] at the first index that fails the test, or at the
    last index when none fails. *)
Lemma for_continue_break_spec test a n i0 k :
  (0 < n)%nat ->
  for_continue_break test (seq a n) i0 = Some k ->
  (forall j, a <= j < k -> test j = true)%nat /\
  (test k = false \/ (k = a + n - 1)%nat /\ test k = true).
Proof.
  revert a i0. induction n as [|n IH]; intros a i0 Hn; [lia|]. simpl.
  destruct (test a) eqn:Ha.
  - destruct n as [|n].
    + simpl. intros [= <-]. split; [lia|]. right. split; [lia|done].
    + intros H. apply IH in H as [Hlt Hk]; [|lia]. split.
      * intros j Hj. destruct (decide (j = a)) as [->|]; [done|]. apply Hlt. lia.
      * destruct Hk as [Hk|[-> Hk]]; [by left|]. right. split; [lia|done].
  - intros [= <-]. split; [lia|by left].
Qed.

Lemma for_continue_break_all test a n i0 :
  (0 < n)%nat ->
  (forall j, a <= j < a + n -> test j = true)%nat ->
  for_continue_break test (seq a n) i0 = Some (a + n - 1)%nat.
Proof.
  intros Hn Hall.
  destruct (for_continue_break_runs test a n i0 Hn) as [k Hk].
  pose proof (for_continue_break_bound _ _ _ _ _ Hk) as [[-> _]|Hb]; [lia|].
  pose proof (for_continue_break_spec _ _ _ _ _ Hn Hk) as [_ [Hf|[-> _]]]; [|done].
  rewrite Hall in Hf by lia. done.
Qed.

(** ** Step-up thresholds *)


Lemma get_fdr_thresh_step_up p_values alpha :
  get_fdr_thresh p_values alpha = step_up fdr_p_crit p_values alpha.
Proof. reflexivity. Qed.

Lemma get_bhy_thresh_step_up p_values alpha :
  get_bhy_thresh p_values alpha = step_up bhy_p_crit p_values alpha.
Proof. reflexivity. Qed.

Section StepUp.
Variable crit : Q -> nat -> nat -> Q.
Variables (p_values : list pyfloat) (alpha : Q).
Let sn := sorted_finite p_values.

Lemma step_up_no_finite :
  (forall x, x ∈ p_values -> np_isfinite x = false) ->
  step_up crit p_values alpha =
    Raise (UnboundLocalError "local variable 'i' referenced before assignment").
Proof.
  intros Hnil%sorted_finite_nil. unfold step_up. by rewrite Hnil.
Qed.

(** With a finite entry the loop runs, and the result is [sn[k]] for the
    index [k] at which the loop is left. *)
Lemma step_up_some_finite :
  (exists x, x ∈ p_values /\ np_isfinite x = true) ->
  exists k v,
    step_up crit p_values alpha = Ok v /\ sn !! k = Some v /\
    (forall j, (j < k)%nat -> le_crit sn j (crit alpha j (length sn)) = true) /\
    (le_crit sn k (crit alpha k (length sn)) = false \/
     k = (length sn - 1)%nat /\ le_crit sn k (crit alpha k (length sn)) = true).
Proof.
  intros (x & Hx & Hfin).
  assert (Hlen : (0 < length sn)%nat).
  { assert (x ∈ sn) as Hin by by apply sorted_finite_elem_of.
    destruct sn; [by apply elem_of_nil in Hin|simpl; lia]. }
  unfold step_up. fold sn.
  destruct (for_continue_break_runs
    (fun i => le_crit sn i (crit alpha i (length sn))) 0 (length sn) None Hlen)
    as [k Hk].
  rewrite Hk.
  pose proof (for_continue_break_bound _ _ _ _ _ Hk) as [[Hz _]|Hb]; [lia|].
  pose proof (for_continue_break_spec _ _ _ _ _ Hlen Hk) as [Hlt Hat].
  destruct (lookup_lt_is_Some_2 sn k) as [v Hv]; [lia|].
  exists k, v. simpl. rewrite Hv. split; [done|]. split; [done|]. split.
  - intros j Hj. apply Hlt. lia.
  - destruct Hat as [?|[-> ?]]; [by left|right]. split; [lia|done].
Qed.

Lemma step_up_elem_of v :
  step_up crit p_values alpha = Ok v -> v ∈ p_values /\ np_isfinite v = true.
Proof.
  unfold step_up. fold sn.
  destruct (for_continue_break _ _ _) as [k|]; simpl; [|done].
  destruct (sn !! k) as [x|] eqn:Hk; [|done]. intros [= <-].
  apply sorted_finite_elem_of. by eapply list_elem_of_lookup_2.
Qed.

Lemma step_up_all_pass v :
  step_up crit p_values alpha = Ok v ->
  (forall i x, sn !! i = Some x -> py_le x (Fin (crit alpha i (length sn))) = true) ->
  forall y, y ∈ p_values -> np_isfinite y = true -> py_le y v = true.
Proof.
  intros Hv Hall y Hy Hfin.
  assert (Hin : y ∈ sn) by by apply sorted_finite_elem_of.
  assert (Hlen : (0 < length sn)%nat).
  { destruct sn; [by apply elem_of_nil in Hin|simpl; lia]. }
  revert Hv. unfold step_up. fold sn.
  rewrite (for_continue_break_all _ 0 (length sn) None Hlen).
  2:{ intros j Hj. unfold le_crit.
      destruct (lookup_lt_is_Some_2 sn j) as [x Hx]; [lia|].
      rewrite Hx. by eapply Hall. }
  replace (0 + length sn - 1)%nat with (length sn - 1)%nat by lia.
  unfold index_after_loop.
  destruct (sn !! (length sn - 1)%nat) as [x|] eqn:Hx; [|done].
  intros [= <-].
  assert (Hxf : np_isfinite x = true).
  { eapply sorted_finite_elem_of, list_elem_of_lookup_2, Hx. }
  rewrite <- sort_le_finite by done.
  destruct (length sn) as [|n] eqn:Hn; [lia|].
  replace (S n - 1)%nat with n in Hx by lia.
  assert (Hrefl : Reflexive (fun a b => sort_le a b = true)).
  { intros z. destruct (sort_le_total z z); done. }
  eapply (StronglySorted_last_max (fun a b => sort_le a b = true) sn n y x);
    [apply sorted_finite_StronglySorted|done..].
Qed.
End StepUp.

(** C10: with at least one finite entry, [get_fdr_thresh] and
    [get_bhy_thresh] return an entry of the input vector, a finite one; when
    every sorted finite p-value is at or under its critical value the entry
    returned is the largest finite p-value; and with no finite entry both
    raise (the loop variable is unbound) instead of returning. *)
Theorem step_up_thresh_is_input_entry (p_values : list pyfloat) (alpha : Q) :
  ((exists x, x ∈ p_values /\ np_isfinite x = true) ->
     (exists v, get_fdr_thresh p_values alpha = Ok v /\
        v ∈ p_values /\ np_isfinite v = true /\
        ((forall i x, sorted_finite p_values !! i = Some x ->
            py_le x (Fin (fdr_p_crit alpha i (length (sorted_finite p_values)))) = true) ->
         forall y, y ∈ p_values -> np_isfinite y = true -> py_le y v = true)) /\
     (exists v, get_bhy_thresh p_values alpha = Ok v /\
        v ∈ p_values /\ np_isfinite v = true /\
        ((forall i x, sorted_finite p_values !! i = Some x ->
            py_le x (Fin (bhy_p_crit alpha i (length (sorted_finite p_values)))) = true) ->
         forall y, y ∈ p_values -> np_isfinite y = true -> py_le y v = true))) /\
  ((forall x, x ∈ p_values -> np_isfinite x = false) ->
     (exists msg, get_fdr_thresh p_values alpha = Raise (UnboundLocalError msg)) /\
     (exists msg, get_bhy_thresh p_values alpha = Raise (UnboundLocalError msg))).
Proof.
  rewrite get_fdr_thresh_step_up, get_bhy_thresh_step_up. split.
  - intros Hfin. split.
    + destruct (step_up_some_finite fdr_p_crit _ alpha Hfin) as (k & v & Hv & _).
      exists v. split; [done|].
      destruct (step_up_elem_of _ _ _ _ Hv). repeat split; [done..|].
      by apply step_up_all_pass.
    + destruct (step_up_some_finite bhy_p_crit _ alpha Hfin) as (k & v & Hv & _).
      exists v. split; [done|].
      destruct (step_up_elem_of _ _ _ _ Hv). repeat split; [done..|].
      by apply step_up_all_pass.
  - intros Hnone. split; eexists; by apply step_up_no_finite.
Qed.

Lemma step_up_thresh_is_input_entry_witness :
  (exists v, get_fdr_thresh [Fin (1#1000); NaN; Fin (4#100); Fin (1#100)] (5#100) = Ok v /\
     v ∈ [Fin (1#1000); NaN; Fin (4#100); Fin (1#100)]) /\
  (exists msg, get_bhy_thresh [NaN; PInf] (5#100) = Raise (UnboundLocalError msg)).
Proof.
  split.
  - destruct (proj1 (step_up_thresh_is_input_entry
        [Fin (1#1000); NaN; Fin (4#100); Fin (1#100)] (5#100))) as [(v & Hv & Hin & _) _].
    + exists (Fin (1#1000)). split; [|reflexivity]. apply elem_of_cons; by left.
    + by exists v.
  - apply (proj2 (step_up_thresh_is_input_entry [NaN; PInf] (5#100))).
    intros x Hx. apply elem_of_cons in Hx as [->|Hx]; [reflexivity|].
    apply list_elem_of_singleton in Hx as ->. reflexivity.
Defined.

(** C1: at the break the loop variable is the first rank whose sorted value
    exceeds its critical value, and the value at that rank is what both
    calculators return, not the value at the last rank that passed.  For
    p-values 0.01, 0.04, 0.5 at level 0.05 the critical values are 0.0167,
    0.0333, 0.05: rank 1 passes, rank 2 fails, the calculator returns 0.04
    where the step-up rule names 0.01 (and likewise for the BHY variant on
    0.001, 0.04, 0.5). *)
Theorem step_up_thresh_returns_first_exceeding :
  get_fdr_thresh [Fin (1#100); Fin (4#100); Fin (5#10)] (5#100) = Ok (Fin (4#100)) /\
  spec_step_up fdr_p_crit [Fin (1#100); Fin (4#100); Fin (5#10)] (5#100) = Some (Fin (1#100)) /\
  py_le (Fin (4#100)) (Fin (fdr_p_crit (5#100) 1 3)) = false /\
  get_bhy_thresh [Fin (1#1000); Fin (4#100); Fin (5#10)] (5#100) = Ok (Fin (4#100)) /\
  spec_step_up bhy_p_crit [Fin (1#1000); Fin (4#100); Fin (5#10)] (5#100) = Some (Fin (1#1000)) /\
  py_le (Fin (4#100)) (Fin (bhy_p_crit (5#100) 1 3)) = false.
Proof. repeat split; reflexivity. Qed.

(** Whenever some rank fails its test, the value returned fails its own
    critical value: the break is reported, not the last passing rank. *)
Lemma step_up_break_value crit p_values alpha k x :
  sorted_finite p_values !! k = Some x ->
  py_le x (Fin (crit alpha k (length (sorted_finite p_values)))) = false ->
  exists j v, step_up crit p_values alpha = Ok v /\
    sorted_finite p_values !! j = Some v /\
    py_le v (Fin (crit alpha j (length (sorted_finite p_values)))) = false.
Proof.
  intros Hk Hfail.
  destruct (step_up_some_finite crit p_values alpha) as (j & v & Hv & Hj & Hlt & Hat).
  { exists x. eapply sorted_finite_elem_of, list_elem_of_lookup_2, Hk. }
  exists j, v. split; [done|]. split; [done|].
  unfold le_crit in Hat. rewrite Hj in Hat.
  destruct Hat as [?|[-> Hpass]]; [done|].
  assert (k < length (sorted_finite p_values))%nat by by eapply lookup_lt_Some.
  destruct (decide (k = length (sorted_finite p_values) - 1)%nat) as [->|Hne].
  - congruence.
  - specialize (Hlt k ltac:(lia)). unfold le_crit in Hlt. rewrite Hk in Hlt. congruence.
Qed.

(** ** Bonferroni *)

Lemma py_sum_val bs acc :
  pyint_val (fold_left py_sum_step bs acc) =
  pyint_val acc + Z.of_nat (length (filter (fun b => b = true) bs)).
Proof.
  revert acc. induction bs as [|b bs IH]; intros acc; simpl; [lia|].
  rewrite IH, filter_cons. destruct b; simpl.
  - destruct (decide (true = true)); [|done]. simpl length. lia.
  - destruct (decide (false = true)); [done|]. lia.
Qed.

Lemma py_sum_np bs n :
  exists k, fold_left py_sum_step bs (NpInt64 n) = NpInt64 k.
Proof.
  revert n. induction bs as [|b bs IH]; intros n; simpl; [eauto|].
  apply IH.
Qed.

Lemma py_sum_cons_np b bs acc :
  exists k, fold_left py_sum_step (b :: bs) acc = NpInt64 k.
Proof. simpl. apply py_sum_np. Qed.

Lemma filter_map_isfinite (p_values : list pyfloat) :
  length (filter (fun b => b = true) (map np_isfinite p_values)) =
  length (filter (fun x => np_isfinite x = true) p_values).
Proof.
  induction p_values as [|x l IH]; [done|].
  simpl map. rewrite !filter_cons.
  destruct (decide (np_isfinite x = true)); simpl; by rewrite IH.
Qed.

(** C6: [get_bon_thresh] returns the level divided by the number of finite
    entries of the p-value vector; for 0.01, 0.02, NaN, 0.5 at level 0.05
    that is 0.05/3. *)
Theorem get_bon_thresh_finite_count :
  (forall (p_values : list pyfloat) (alpha : Q) (m : nat),
     length (filter (fun x => np_isfinite x = true) p_values) = S m ->
     get_bon_thresh p_values alpha = Ok (Fin (alpha / float_of_nat (S m)))) /\
  get_bon_thresh [Fin (1#100); Fin (2#100); NaN; Fin (5#10)] (5#100)
    = Ok (Fin ((5#100) / float_of_nat 3)) /\
  ((5#100) / float_of_nat 3 == 1#60)%Q.
Proof.
  split; [|split; reflexivity].
  intros p_values alpha m Hm. unfold get_bon_thresh, py_sum.
  pose proof (py_sum_val (map np_isfinite p_values) (PyInt 0)) as Hval.
  rewrite filter_map_isfinite, Hm in Hval. simpl pyint_val in Hval.
  destruct p_values as [|x l]; [done|].
  destruct (py_sum_cons_np (np_isfinite x) (map np_isfinite l) (PyInt 0)) as [k Hk].
  simpl map in *. rewrite Hk in *. simpl in Hval. subst k.
  unfold truediv, float_of_nat. simpl pyint_val.
  destruct (Z.of_nat (S m)) eqn:Hz; [lia|done..].
Qed.

Lemma get_bon_thresh_finite_count_witness :
  get_bon_thresh [Fin (3#100); NaN; Fin (2#10)] (1#10)
    = Ok (Fin ((1#10) / float_of_nat 2)).
Proof.
  apply (proj1 get_bon_thresh_finite_count [Fin (3#100); NaN; Fin (2#10)] (1#10) 1%nat).
  reflexivity.
Defined.

(** Without a finite entry the divisor is zero: the division raises on the
    empty vector and yields an infinity (NaN for a zero level) otherwise. *)
Lemma get_bon_thresh_no_finite (p_values : list pyfloat) (alpha : Q) :
  (forall x, x ∈ p_values -> np_isfinite x = false) ->
  get_bon_thresh p_values alpha =
    match p_values with
    | [] => Raise (ZeroDivisionError "float division by zero")
    | _ => Ok (match Qcompare alpha 0 with Gt => PInf | Lt => NInf | Eq => NaN end)
    end.
Proof.
  intros Hnone. destruct p_values as [|x l]; [done|].
  unfold get_bon_thresh, py_sum.
  pose proof (py_sum_val (map np_isfinite (x :: l)) (PyInt 0)) as Hval.
  rewrite filter_map_isfinite in Hval.
  assert (filter (fun y => np_isfinite y = true) (x :: l) = []) as Hnil.
  { apply elem_of_nil_inv. intros y [Hy Hin]%list_elem_of_filter.
    rewrite (Hnone y Hin) in Hy. done. }
  rewrite Hnil in Hval. simpl pyint_val in Hval. simpl length in Hval.
  destruct (py_sum_cons_np (np_isfinite x) (map np_isfinite l) (PyInt 0)) as [k Hk].
  simpl map in *. rewrite Hk. simpl fold_left in Hk. rewrite Hk in Hval.
  simpl in Hval. subst k. done.
Qed.

(** ** Matrices *)


Lemma shape_zeros N P : shape N P (zeros N P).
Proof.
  split; [apply length_replicate|].
  apply Forall_forall. intros row Hrow.
  apply elem_of_replicate in Hrow as [-> _]. apply length_replicate.
Qed.

Lemma cell_zeros N P i j :
  (i < N)%nat -> (j < P)%nat -> cell (zeros N P) i j = Some 0%Q.
Proof.
  intros Hi Hj. unfold cell, zeros.
  rewrite lookup_replicate_2 by done. simpl. by apply lookup_replicate_2.
Qed.

Lemma shape_set_row N P m i v : shape N P m -> shape N P (set_row m i P v).
Proof.
  intros [Hlen Hrows]. split; unfold set_row; [by rewrite length_insert|].
  apply Forall_insert; [done|]. apply length_replicate.
Qed.

Lemma shape_alter_row N P m i (f : list Q -> list Q) :
  (forall row, length (f row) = length row) ->
  shape N P m -> shape N P (alter f i m).
Proof.
  intros Hf [Hlen Hrows]. split; [by rewrite length_alter|].
  apply Forall_alter; [done|]. intros row Hrow. by rewrite Hf.
Qed.

Lemma shape_set_cell N P m i j v : shape N P m -> shape N P (set_cell m i j v).
Proof. apply shape_alter_row. intros row. apply length_insert. Qed.

Lemma shape_add_cell N P m i j v : shape N P m -> shape N P (add_cell m i j v).
Proof. apply shape_alter_row. intros row. apply length_alter. Qed.

Lemma cell_set_row_ne m i P v i' j : i ≠ i' -> cell (set_row m i P v) i' j = cell m i' j.
Proof. intros Hne. unfold cell, set_row. by rewrite list_lookup_insert_ne. Qed.

Lemma cell_set_row_eq N P m i v j :
  shape N P m -> (i < N)%nat -> (j < P)%nat -> cell (set_row m i P v) i j = Some v.
Proof.
  intros [Hlen _] Hi Hj. unfold cell, set_row.
  rewrite list_lookup_insert_eq by lia. simpl. by apply lookup_replicate_2.
Qed.

Lemma cell_set_cell_eq N P m i j v :
  shape N P m -> (i < N)%nat -> (j < P)%nat -> cell (set_cell m i j v) i j = Some v.
Proof.
  intros [Hlen Hrows] Hi Hj. unfold cell, set_cell.
  rewrite list_lookup_alter_eq.
  destruct (lookup_lt_is_Some_2 m i) as [row Hrow]; [lia|]. rewrite Hrow. simpl.
  apply list_lookup_insert_eq.
  rewrite Forall_forall in Hrows. rewrite (Hrows row); [done|].
  by eapply list_elem_of_lookup_2.
Qed.

Lemma cell_set_cell_ne m i j v i' j' :
  i ≠ i' \/ j ≠ j' -> cell (set_cell m i j v) i' j' = cell m i' j'.
Proof.
  intros Hne. unfold cell, set_cell.
  destruct (decide (i = i')) as [<-|Hi]; [|by rewrite list_lookup_alter_ne].
  rewrite list_lookup_alter_eq. destruct (m !! i) as [row|]; [|done]. simpl.
  apply list_lookup_insert_ne. destruct Hne; congruence.
Qed.

(** ** The dictionaries *)

Lemma to_dict_lookup_Some `{Countable K} {V} (kvs : list (K * V)) k v :
  to_dict kvs !! k = Some v -> (k, v) ∈ kvs.
Proof.
  unfold to_dict. intros Hl%elem_of_list_to_map_2. by apply elem_of_reverse.
Qed.

Lemma to_dict_lookup_None `{Countable K} {V} (kvs : list (K * V)) k :
  to_dict kvs !! k = None <-> k ∉ kvs.*1.
Proof.
  unfold to_dict. rewrite <- not_elem_of_list_to_map, fmap_reverse, elem_of_reverse. done.
Qed.

Lemma to_dict_lookup_NoDup `{Countable K} {V} (kvs : list (K * V)) k v :
  NoDup kvs.*1 -> (k, v) ∈ kvs -> to_dict kvs !! k = Some v.
Proof.
  intros Hnd Hin. unfold to_dict. apply elem_of_list_to_map_1.
  - by rewrite fmap_reverse, reverse_Permutation.
  - by apply elem_of_reverse.
Qed.

Section Genotypes.
Variables (genotypes_df : list subject) (genotypes : gmap Z subject).
Hypothesis Hdict : to_dict_index genotypes_df = Ok genotypes.

Lemma genotypes_NoDup : NoDup (subj_id <$> genotypes_df).
Proof. unfold to_dict_index in Hdict. by case_decide. Qed.

Lemma genotypes_eq :
  genotypes = to_dict ((fun s => (subj_id s, s)) <$> genotypes_df).
Proof. unfold to_dict_index in Hdict. case_decide; by simplify_eq. Qed.

Lemma genotypes_keys :
  ((fun s => (subj_id s, s)) <$> genotypes_df).*1 = subj_id <$> genotypes_df.
Proof. rewrite <- list_fmap_compose. done. Qed.

Lemma genotypes_lookup_None i :
  genotypes !! i = None <-> i ∉ subj_id <$> genotypes_df.
Proof. by rewrite genotypes_eq, to_dict_lookup_None, genotypes_keys. Qed.

Lemma genotypes_lookup_elem s :
  s ∈ genotypes_df -> genotypes !! subj_id s = Some s.
Proof.
  intros Hs. rewrite genotypes_eq. apply to_dict_lookup_NoDup.
  - rewrite genotypes_keys. apply genotypes_NoDup.
  - apply list_elem_of_fmap. eauto.
Qed.

Lemma genotypes_lookup_Some i s :
  genotypes !! i = Some s -> s ∈ genotypes_df /\ subj_id s = i.
Proof.
  rewrite genotypes_eq. intros Hl%to_dict_lookup_Some.
  apply list_elem_of_fmap in Hl as (s' & [= -> ->] & Hs'). done.
Qed.

(** A subject has one position in the frame. *)
Lemma position_unique r r' s s' :
  genotypes_df !! r = Some s -> genotypes_df !! r' = Some s' ->
  subj_id s = subj_id s' -> r = r'.
Proof.
  intros Hr Hr' Heq.
  eapply (NoDup_lookup (subj_id <$> genotypes_df) r r' (subj_id s)).
  - apply genotypes_NoDup.
  - by rewrite list_lookup_fmap, Hr.
  - by rewrite list_lookup_fmap, Hr', Heq.
Qed.
End Genotypes.

Lemma zip_seq_lookup {A} (l : list A) x j :
  (x, j) ∈ zip l (seq 0 (length l)) -> l !! j = Some x.
Proof.
  intros (i & Hi)%list_elem_of_lookup_1.
  apply lookup_zip_Some in Hi as [Hx Hj].
  apply lookup_seq in Hj as [-> _]. done.
Qed.

Lemma np_index_lookup (header : list string) c j :
  to_dict (zip header (seq 0 (length header))) !! c = Some j -> header !! j = Some c.
Proof. intros Hl%to_dict_lookup_Some. by apply zip_seq_lookup. Qed.

Lemma np_index_is_Some (header : list string) c :
  c ∈ header -> is_Some (to_dict (zip header (seq 0 (length header))) !! c).
Proof.
  intros Hc. apply not_eq_None_Some. rewrite to_dict_lookup_None.
  rewrite fst_zip by (rewrite length_seq; lia). by intros [].
Qed.

(** ** The event loop of [generate_feature_matrix] *)

Lemma StronglySorted_lookup_lt {A} (R : relation A) l i j a b :
  StronglySorted R l -> l !! i = Some a -> l !! j = Some b -> (i < j)%nat -> R a b.
Proof.
  intros Hs Hi Hj Hlt. rewrite <- (take_drop j l) in Hs.
  eapply StronglySorted_app_1_elem_of; [exact Hs| |].
  - apply elem_of_take. eauto.
  - apply list_elem_of_lookup. exists 0%nat. rewrite lookup_drop.
    by replace (j + 0)%nat with j by lia.
Qed.


Section EventLoop.
Variables (rs : list subject) (genotypes : gmap Z subject).
Variable header : list string.
Variables (reg_type : Z) (pheno_cov : option string).
Let P := length header.
Let N := length rs.
Let np_index : gmap string nat := to_dict (zip header (seq 0 P)).
Let step := process_event rs genotypes np_index reg_type pheno_cov P.

Hypothesis Hdict : to_dict_index rs = Ok genotypes.
Hypothesis Hsorted : StronglySorted (fun a b => (subj_id a <=? subj_id b)%Z = true) rs.


Lemma placed_lt e r : placed rs e r -> (r < N)%nat.
Proof. intros (s & Hs & _). by eapply lookup_lt_Some. Qed.

Lemma sorted_positions i j a b :
  rs !! i = Some a -> rs !! j = Some b -> subj_id a <= subj_id b -> (i <= j)%nat.
Proof.
  intros Hi Hj Hle. destruct (decide (i <= j)%nat) as [|Hgt]; [done|].
  pose proof (StronglySorted_lookup_lt _ rs j i b a Hsorted Hj Hi ltac:(lia)) as Hba.
  simpl in Hba. apply Z.leb_le in Hba.
  assert (i = j); [|lia].
  eapply (position_unique rs genotypes Hdict); eauto. lia.
Qed.

Lemma skip_subjects_spec k : forall start m1 p s,
  p = (start + k)%nat -> rs !! p = Some s -> shape N P m1 ->
  exists m1',
    skip_subjects genotypes P (drop start rs) (subj_id s) (Z.of_nat start) m1
      = Ok (Z.of_nat p, m1') /\
    shape N P m1' /\
    (forall i j, (i < start \/ p <= i)%nat -> cell m1' i j = cell m1 i j) /\
    (forall i j s', (start <= i < p)%nat -> (j < P)%nat -> rs !! i = Some s' ->
       cell m1' i j = Some (MaxAgeAtVisit s')).
Proof.
  induction k as [|k IH]; intros start m1 p s -> Hp Hshape.
  - replace (start + 0)%nat with start in * by lia.
    rewrite (drop_S _ _ _ Hp). simpl.
    destruct (decide (subj_id s ≠ subj_id s)); [done|].
    exists m1. split; [done|]. split; [done|]. split; [done|]. intros; lia.
  - destruct (lookup_lt_is_Some_2 rs start) as [s0 Hs0].
    { apply lookup_lt_Some in Hp. lia. }
    rewrite (drop_S _ _ _ Hs0). simpl.
    destruct (decide (subj_id s ≠ subj_id s0)) as [Hne|Heq].
    2:{ exfalso. apply dec_stable in Heq.
        assert ((start + S k)%nat = start); [|lia].
        eapply (position_unique rs genotypes Hdict); eauto. }
    rewrite (genotypes_lookup_elem rs genotypes Hdict s0)
      by by eapply list_elem_of_lookup_2.
    rewrite Nat2Z.id.
    replace (Z.of_nat start + 1) with (Z.of_nat (S start)) by lia.
    destruct (IH (S start) (set_row m1 start P (MaxAgeAtVisit s0)) (start + S k)%nat s)
      as (m1' & Hrun & Hsh & Hout & Hin); [lia|done|by apply shape_set_row|].
    exists m1'. split; [done|]. split; [done|]. split.
    + intros i j Hi. rewrite Hout by lia. apply cell_set_row_ne. lia.
    + intros i j s' Hi Hj Hs'. destruct (decide (i = start)) as [->|Hne'].
      * rewrite Hout by lia. simplify_eq.
        eapply cell_set_row_eq; eauto. apply lookup_lt_Some in Hs0. done.
      * apply Hin; [lia|done..].
Qed.


Lemma new_subject_spec done st e' g p :
  Inv rs header reg_type done st -> rs !! p = Some g -> subj_id g = ev_id e' ->
  (forall e, e ∈ done -> ev_id e <= ev_id e') ->
  exists m1n,
    new_subject rs genotypes P st (ev_id e') g = Ok (Z.of_nat p, m1n, Some (ev_id e')) /\
    shape N P m1n /\
    (forall e r c, e ∈ done -> placed rs e r ->
       cell m1n r c = cell (fm1 (st_fm st)) r c) /\
    (forall e r, e ∈ done -> placed rs e r -> (r <= p)%nat) /\
    count st <= Z.of_nat p /\
    (forall r j, (p < r)%nat -> cell m1n r j = cell (fm1 (st_fm st)) r j).
Proof.
  intros HI Hp Hg Hle. unfold new_subject.
  destruct (decide (last_id st ≠ Some (ev_id e'))) as [Hnew|Hsame].
  - (* a new subject: the rows from [count + 1] to its position are passed *)
    assert (exists start, count st + 1 = Z.of_nat start /\ (start <= p)%nat /\
              forall e r, e ∈ done -> placed rs e r -> (r < start)%nat)
      as (start & Hstart & Hsp & Hbefore).
    { pose proof (inv_pos HI) as Hpos.
      destruct (last_id st) as [l|] eqn:Hlast.
      - destruct Hpos as (c & s & e & Hc & Hs & Hl & He & Hel).
        exists (S c). split; [lia|]. split.
        + assert (l < ev_id e') as Hlt.
          { specialize (Hle e He). assert (l ≠ ev_id e') by congruence. lia. }
          destruct (decide (p <= c)%nat) as [Hpc|]; [|lia].
          assert (subj_id g <= subj_id s); [|lia].
          destruct (decide (p = c)) as [->|]; [simplify_eq; lia|].
          apply Z.leb_le.
          apply (StronglySorted_lookup_lt _ rs p c g s Hsorted Hp Hs). lia.
        + intros e0 r He0 Hpl.
          destruct (inv_placed HI e0 r He0 Hpl) as (c' & Hc' & Hr). lia.
      - exists 0%nat. split; [lia|]. split; [lia|].
        intros e0 r He0 Hpl.
        destruct (inv_placed HI e0 r He0 Hpl) as (c' & Hc' & Hr). lia. }
    rewrite Hstart, Nat2Z.id.
    destruct (skip_subjects_spec (p - start) start (fm1 (st_fm st)) p g)
      as (m1' & Hrun & Hsh & Hout & _); [lia|done|apply (inv_shape1 HI)|].
    rewrite <- Hg. rewrite Hrun. simpl. rewrite Nat2Z.id.
    eexists. split; [done|]. split; [by apply shape_set_row|].
    split; [|split; [|split]].
    + intros e r c He Hpl. specialize (Hbefore e r He Hpl).
      rewrite cell_set_row_ne by lia. apply Hout. lia.
    + intros e r He Hpl. specialize (Hbefore e r He Hpl). lia.
    + lia.
    + intros r j Hr. rewrite cell_set_row_ne by lia. apply Hout. lia.
  - (* the subject of the previous row *)
    apply dec_stable in Hsame.
    pose proof (inv_pos HI) as Hpos. rewrite Hsame in Hpos.
    destruct Hpos as (c & s & e & Hc & Hs & Hl & He & Hel).
    assert (c = p) as ->.
    { eapply (position_unique rs genotypes Hdict); eauto. congruence. }
    rewrite Hc, Hsame. eexists. split; [done|].
    split; [apply (inv_shape1 HI)|]. split; [done|]. split; [|done].
    intros e0 r He0 Hpl.
    destruct (inv_placed HI e0 r He0 Hpl) as (c' & Hc' & Hr). lia.
Qed.

Lemma aggregate_spec m0 p c' e' :
  (reg_type ≠ 0 -> reg_type ≠ 1 -> is_Some (duration e')) ->
  shape N P m0 ->
  exists m0', aggregate reg_type m0 p c' e' = Ok m0' /\ shape N P m0' /\
    (reg_type ≠ 0 -> reg_type ≠ 1 ->
     exists d, duration e' = Some d /\ m0' = set_cell m0 p c' d).
Proof.
  intros Hdur Hsh. unfold aggregate.
  destruct (decide (reg_type = 0)) as [H0|H0].
  { eexists. split; [done|]. split; [by apply shape_set_cell|]. done. }
  destruct (decide (reg_type = 1)) as [H1|H1].
  { eexists. split; [done|]. split; [by apply shape_add_cell|]. done. }
  destruct (Hdur H0 H1) as [d Hd]. rewrite Hd.
  eexists. split; [done|]. split; [by apply shape_set_cell|]. eauto.
Qed.

Lemma process_event_inv done st e' :
  Inv rs header reg_type done st ->
  (forall e, e ∈ done -> ev_id e <= ev_id e') ->
  (is_Some (genotypes !! ev_id e') -> ev_code e' ∈ header) ->
  (is_Some (genotypes !! ev_id e') -> reg_type ≠ 0 -> reg_type ≠ 1 ->
   is_Some (duration e')) ->
  (forall e, e ∈ done -> consistent e e') ->
  Inv rs header reg_type (done ++ [e']) (step st e').
Proof.
  intros HI Hle Hcode Hdur Hcons. unfold step, process_event.
  rewrite (inv_raised HI).
  destruct (genotypes !! ev_id e') as [g|] eqn:Hg.
  - (* the id is in the group frame *)
    destruct (genotypes_lookup_Some rs genotypes Hdict _ _ Hg) as [Hgin Hgid].
    apply list_elem_of_lookup_1 in Hgin as [p Hp].
    assert (Hpe' : placed rs e' p) by (exists g; done).
    destruct (new_subject_spec done st e' g p HI Hp Hgid Hle)
      as (m1n & Hnew & Hsh1 & Hkeep & Hrp & Hcp & Hafter).
    rewrite Hnew. simpl.
    destruct (np_index_is_Some header (ev_code e')) as [c' Hc']; [by apply Hcode|].
    fold P in Hc'. fold np_index in Hc'. rewrite Hc'. simpl.
    assert (Hc'P : (c' < P)%nat).
    { apply np_index_lookup in Hc'. by eapply lookup_lt_Some. }
    destruct (aggregate_spec (fm0 (st_fm st)) (Z.to_nat (Z.of_nat p)) c' e')
      as (m0' & Hagg & Hsh0 & Hm0'); [by apply Hdur|apply (inv_shape0 HI)|].
    rewrite Hagg. simpl. rewrite Nat2Z.id in *.
    assert (HpN : (p < N)%nat) by by eapply placed_lt.
    (* an earlier row of the same cell belongs to the same group *)
    assert (Hsame : forall e c, e ∈ done -> placed rs e p ->
              np_index !! ev_code e = Some c -> c = c' ->
              MaxAgeAtICD e = MaxAgeAtICD e' /\ duration e = duration e').
    { intros e c He (s & Hs & Hsid) Hc ->. apply Hcons; [done| |].
      - simplify_eq. congruence.
      - apply np_index_lookup in Hc, Hc'. congruence. }
    split; simpl.
    + done.
    + done.
    + by apply shape_set_cell.
    + exists p, g, e'. split; [done|]. split; [done|]. split; [done|].
      split; [|done]. apply elem_of_app. right. by apply list_elem_of_singleton.
    + intros e r [He| ->%list_elem_of_singleton]%elem_of_app Hpl.
      * exists p. split; [done|]. by eapply Hrp.
      * exists p. split; [done|].
        destruct Hpl as (s & Hs & Hsid).
        assert (r = p); [|lia].
        eapply (position_unique rs genotypes Hdict); eauto. congruence.
    + intros e r c [He| ->%list_elem_of_singleton]%elem_of_app Hpl Hc;
        fold P in Hc; fold np_index in Hc.
      * destruct (inv_cells HI e r c He Hpl Hc) as [Hold1 Hold0].
        destruct (decide (r = p /\ c = c')) as [[-> ->]|Hne].
        -- destruct (Hsame e c' He Hpl Hc eq_refl) as [Hmax Hd].
           split.
           ++ rewrite Hmax. by eapply cell_set_cell_eq.
           ++ intros H0 H1. destruct (Hm0' H0 H1) as (d & Hd' & ->).
              exists d. split; [congruence|].
              eapply cell_set_cell_eq; [apply (inv_shape0 HI)|done..].
        -- assert (p ≠ r \/ c' ≠ c) as Hne'.
           { destruct (decide (p = r)); [|by left].
             destruct (decide (c' = c)); [|by right].
             exfalso. apply Hne. split; congruence. }
           split.
           ++ rewrite cell_set_cell_ne by done. rewrite (Hkeep e r c He Hpl). done.
           ++ intros H0 H1. destruct (Hm0' H0 H1) as (d & Hd' & ->).
              destruct (Hold0 H0 H1) as (d0 & Hd0 & Hcell0).
              exists d0. split; [done|]. by rewrite cell_set_cell_ne.
      * assert (r = p) as ->.
        { destruct Hpl as (s & Hs & Hsid).
          eapply (position_unique rs genotypes Hdict); eauto. congruence. }
        assert (c = c') as -> by congruence.
        split.
        -- by eapply cell_set_cell_eq.
        -- intros H0 H1. destruct (Hm0' H0 H1) as (d & Hd' & ->).
           exists d. split; [done|].
           eapply cell_set_cell_eq; [apply (inv_shape0 HI)|done..].
    + intros r j Hr. rewrite cell_set_cell_ne by (left; lia).
      rewrite Hafter by lia. apply (inv_rest HI). lia.
  - (* the id is not in the group frame: the row is passed over *)
    assert (Hnot : forall r, ¬ placed rs e' r).
    { intros r (s & Hs & Hsid).
      apply list_elem_of_lookup_2 in Hs.
      rewrite <- Hsid, (genotypes_lookup_elem rs genotypes Hdict s Hs) in Hg. done. }
    assert (Inv rs header reg_type (done ++ [e']) st) as HI'.
    { split; [apply HI..| | | |].
      - pose proof (inv_pos HI) as Hpos. destruct (last_id st); [|done].
        destruct Hpos as (c & s & e & Hc & Hs & Hl & He & Hel). exists c, s, e.
        split; [done|]. split; [done|]. split; [done|]. split; [|done].
        apply elem_of_app. by left.
      - intros e r [He| ->%list_elem_of_singleton]%elem_of_app Hpl.
        + by eapply (inv_placed HI).
        + by destruct (Hnot r).
      - intros e r c [He| ->%list_elem_of_singleton]%elem_of_app Hpl.
        + by eapply (inv_cells HI).
        + by destruct (Hnot r).
      - apply (inv_rest HI). }
    destruct (decide (ev_id e' ∈ exclude st)); [done|].
    destruct HI' as [? ? ? ? ? ? ?]. split; done.
Qed.

Lemma process_events_inv todo : forall done st,
  Inv rs header reg_type done st ->
  StronglySorted (fun a b => (ev_id a <=? ev_id b)%Z = true) (done ++ todo) ->
  (forall e, e ∈ todo -> is_Some (genotypes !! ev_id e) -> ev_code e ∈ header) ->
  (forall e, e ∈ todo -> is_Some (genotypes !! ev_id e) ->
     reg_type ≠ 0 -> reg_type ≠ 1 -> is_Some (duration e)) ->
  (forall e e', e ∈ done ++ todo -> e' ∈ done ++ todo -> consistent e e') ->
  Inv rs header reg_type (done ++ todo) (fold_left step todo st).
Proof.
  induction todo as [|e' todo IH]; intros done st HI Hs Hcode Hdur Hcons.
  - by rewrite app_nil_r.
  - simpl. replace (done ++ e' :: todo) with ((done ++ [e']) ++ todo) in *
      by by rewrite <- app_assoc.
    apply IH; [|done| | |done].
    + apply process_event_inv; [done| | | |].
      * intros e He. apply Z.leb_le.
        apply (StronglySorted_app_1_elem_of _ _ _ e e'
                 (StronglySorted_app_1_l _ _ _ Hs)); [done|set_solver].
      * apply Hcode. set_solver.
      * apply Hdur. set_solver.
      * intros e He. apply Hcons; set_solver.
    + intros e He. apply Hcode. set_solver.
    + intros e He. apply Hdur. set_solver.
Qed.
End EventLoop.

(** ** The group-wise columns of [get_icd_codes] *)


Lemma fold_Qmax' l : forall a,
  fold_left Qmax' l a ∈ a :: l /\
  (a <= fold_left Qmax' l a)%Q /\
  forall x, x ∈ l -> (x <= fold_left Qmax' l a)%Q.
Proof.
  induction l as [|b l IH]; intros a; simpl.
  - split; [set_solver|]. split; [apply Qle_refl|]. intros x Hx. by apply elem_of_nil in Hx.
  - destruct (IH (Qmax' a b)) as (Hin & Hle & Hall).
    assert (a <= Qmax' a b /\ b <= Qmax' a b)%Q as [Ha Hb].
    { unfold Qmax'. destruct (Qle_bool a b) eqn:Hab.
      - apply Qle_bool_iff in Hab. split; [done|apply Qle_refl].
      - split; [apply Qle_refl|].
        destruct (Qle_bool_total a b) as [H|H]; [congruence|by apply Qle_bool_iff]. }
    split; [|split].
    + apply elem_of_cons in Hin as [Hin|Hin];
        [|apply elem_of_cons; right; apply elem_of_cons; by right].
      rewrite Hin. unfold Qmax'. destruct (Qle_bool a b);
        [apply elem_of_cons; right|]; apply elem_of_cons; by left.
    + by eapply Qle_trans.
    + intros x [->|Hx]%elem_of_cons; [by eapply Qle_trans|by apply Hall].
Qed.

Lemma fold_Qmin' l : forall a,
  fold_left Qmin' l a ∈ a :: l /\
  (fold_left Qmin' l a <= a)%Q /\
  forall x, x ∈ l -> (fold_left Qmin' l a <= x)%Q.
Proof.
  induction l as [|b l IH]; intros a; simpl.
  - split; [set_solver|]. split; [apply Qle_refl|]. intros x Hx. by apply elem_of_nil in Hx.
  - destruct (IH (Qmin' a b)) as (Hin & Hle & Hall).
    assert (Qmin' a b <= a /\ Qmin' a b <= b)%Q as [Ha Hb].
    { unfold Qmin'. destruct (Qle_bool b a) eqn:Hab.
      - apply Qle_bool_iff in Hab. split; [done|apply Qle_refl].
      - split; [apply Qle_refl|].
        destruct (Qle_bool_total a b) as [H|H]; [by apply Qle_bool_iff|congruence]. }
    split; [|split].
    + apply elem_of_cons in Hin as [Hin|Hin];
        [|apply elem_of_cons; right; apply elem_of_cons; by right].
      rewrite Hin. unfold Qmin'. destruct (Qle_bool b a);
        [apply elem_of_cons; right|]; apply elem_of_cons; by left.
    + by eapply Qle_trans.
    + intros x [->|Hx]%elem_of_cons; [by eapply Qle_trans|by apply Hall].
Qed.

Lemma reduce_Qmax' l : l ≠ [] -> is_max_of (reduce Qmax' l) l.
Proof.
  destruct l as [|a l]; [done|]. intros _. simpl.
  destruct (fold_Qmax' l a) as (Hin & Hle & Hall). split; [done|].
  intros x [->|Hx]%elem_of_cons; [done|by apply Hall].
Qed.

Lemma reduce_Qmin' l : l ≠ [] -> is_min_of (reduce Qmin' l) l.
Proof.
  destruct l as [|a l]; [done|]. intros _. simpl.
  destruct (fold_Qmin' l a) as (Hin & Hle & Hall). split; [done|].
  intros x [->|Hx]%elem_of_cons; [done|by apply Hall].
Qed.

Lemma group_ages_same_group rows r r' :
  row_id r = row_id r' -> PheCode r = PheCode r' ->
  group_ages rows r = group_ages rows r'.
Proof.
  intros Hid Hcode. unfold group_ages. f_equal.
  apply list_filter_iff. intros x. unfold same_group. by rewrite Hid, Hcode.
Qed.

Lemma group_ages_nonempty rows r : r ∈ rows -> group_ages rows r ≠ [].
Proof.
  intros Hr. unfold group_ages.
  assert (AgeAtICD r ∈ AgeAtICD <$> filter (same_group r) rows) as Hin.
  { apply list_elem_of_fmap_2, list_elem_of_filter. by split. }
  intros Hnil. rewrite Hnil in Hin. by apply elem_of_nil in Hin.
Qed.

Lemma elem_of_get_icd_codes e rows reg_type :
  e ∈ get_icd_codes rows reg_type ->
  exists r, r ∈ rows /\ ev_id e = row_id r /\ ev_code e = PheCode r /\
    MaxAgeAtICD e = transform_max rows r /\
    duration e = (if decide (reg_type = 2)
                  then Some (transform_max rows r - transform_min rows r + 1)%Q
                  else None).
Proof.
  unfold get_icd_codes. intros (r & -> & Hr)%list_elem_of_fmap. exists r. done.
Qed.

Lemma get_icd_codes_consistent rows reg_type e e' :
  e ∈ get_icd_codes rows reg_type -> e' ∈ get_icd_codes rows reg_type ->
  consistent e e'.
Proof.
  intros (r & Hr & Hid & Hcode & Hmax & Hdur)%elem_of_get_icd_codes
         (r' & Hr' & Hid' & Hcode' & Hmax' & Hdur')%elem_of_get_icd_codes Heid Hecode.
  assert (group_ages rows r = group_ages rows r') as Hg
    by (apply group_ages_same_group; congruence).
  rewrite Hmax, Hmax', Hdur, Hdur'. unfold transform_max, transform_min.
  by rewrite Hg.
Qed.

(** ** Sorting the frames by [id] *)

Lemma sort_subjects_StronglySorted df :
  StronglySorted (fun a b => (subj_id a <=? subj_id b)%Z = true) (sort_subjects df).
Proof.
  apply sort_by_StronglySorted.
  - intros x y. rewrite !Z.leb_le. lia.
  - intros x y z. rewrite !Z.leb_le. lia.
Qed.

Lemma sort_events_StronglySorted df :
  StronglySorted (fun a b => (ev_id a <=? ev_id b)%Z = true) (sort_events df).
Proof.
  apply sort_by_StronglySorted.
  - intros x y. rewrite !Z.leb_le. lia.
  - intros x y z. rewrite !Z.leb_le. lia.
Qed.

Lemma sort_subjects_ids_NoDup df :
  NoDup (subj_id <$> df) -> NoDup (subj_id <$> sort_subjects df).
Proof. unfold sort_subjects. by rewrite sort_by_Permutation. Qed.

Lemma to_dict_index_NoDup df :
  NoDup (subj_id <$> df) ->
  to_dict_index df = Ok (to_dict ((fun s => (subj_id s, s)) <$> df)).
Proof. intros Hnd. unfold to_dict_index. by case_decide. Qed.

(** ** The run of [generate_feature_matrix] *)


Lemma generate_feature_matrix_NoDup phewas_codes prowas_codes genotypes_df phenotype
    reg_type code_type pheno_cov :
  NoDup (subj_id <$> genotypes_df) ->
  generate_feature_matrix phewas_codes prowas_codes genotypes_df phenotype reg_type
    code_type pheno_cov =
  let st := final_state phewas_codes prowas_codes genotypes_df phenotype reg_type
              code_type pheno_cov in
  (stdout st,
   match raised st with
   | Some e => Raise e
   | None => Ok (st_fm st, header_of phewas_codes prowas_codes code_type)
   end).
Proof.
  intros Hnd. unfold generate_feature_matrix.
  rewrite (to_dict_index_NoDup (sort_subjects genotypes_df))
    by by apply sort_subjects_ids_NoDup.
  reflexivity.
Qed.

Lemma generate_feature_matrix_dup phewas_codes prowas_codes genotypes_df phenotype
    reg_type code_type pheno_cov :
  ¬ NoDup (subj_id <$> genotypes_df) ->
  generate_feature_matrix phewas_codes prowas_codes genotypes_df phenotype reg_type
    code_type pheno_cov =
  (["Sorting phenotype data..."; "Sorting group data..."],
   Raise (ValueError "DataFrame index must be unique for orient='index'.")).
Proof.
  intros Hnd. unfold generate_feature_matrix, to_dict_index.
  case_decide as Hd; [|done].
  exfalso. apply Hnd. unfold sort_subjects in Hd. by rewrite sort_by_Permutation in Hd.
Qed.

Lemma init_state_Inv rs header reg_type :
  Inv rs header reg_type [] (init_state (length rs) (length header)).
Proof.
  split; simpl; [done|apply shape_zeros..|done| | |done].
  - intros e r He. by apply elem_of_nil in He.
  - intros e r c He. by apply elem_of_nil in He.
Qed.

(** With unique ids, known codes and a regression type of the three, the
    event loop runs to its end and the invariant holds there. *)
Lemma final_state_Inv (phewas_codes prowas_codes : list (string * string))
    (genotypes_df : list subject) (phenotypes : list icd_row)
    (reg_type : Z) (pheno_cov : option string) :
  NoDup (subj_id <$> genotypes_df) ->
  (forall r, r ∈ phenotypes -> PheCode r ∈ phewas_codes.*1) ->
  reg_type = 0 \/ reg_type = 1 \/ reg_type = 2 ->
  Inv (sort_subjects genotypes_df) (header_of phewas_codes prowas_codes ICD) reg_type
    (sort_events (get_icd_codes phenotypes reg_type))
    (final_state phewas_codes prowas_codes genotypes_df
       (get_icd_codes phenotypes reg_type) reg_type ICD pheno_cov).
Proof.
  intros Hnd Hcodes Hreg.
  set (rs := sort_subjects genotypes_df).
  set (header := header_of phewas_codes prowas_codes ICD).
  set (evs := get_icd_codes phenotypes reg_type).
  assert (Hdict : to_dict_index rs = Ok (to_dict ((fun s => (subj_id s, s)) <$> rs))).
  { apply to_dict_index_NoDup. by apply sort_subjects_ids_NoDup. }
  unfold final_state. fold rs. fold header.
  apply (process_events_inv rs _ header reg_type pheno_cov Hdict
           (sort_subjects_StronglySorted _) (sort_events evs) []).
  - apply init_state_Inv.
  - apply sort_events_StronglySorted.
  - intros e He%sort_by_elem_of _.
    apply elem_of_get_icd_codes in He as (r & Hr & _ & -> & _).
    unfold header, header_of. apply sort_by_elem_of. by apply Hcodes.
  - intros e He%sort_by_elem_of _ H0 H1.
    apply elem_of_get_icd_codes in He as (r & Hr & _ & _ & _ & ->).
    destruct (decide (reg_type = 2)); [done|lia].
  - intros e e' He%sort_by_elem_of He'%sort_by_elem_of.
    by eapply get_icd_codes_consistent.
Qed.

(** C5: in the matrix built from the frame of [get_icd_codes], the cell of
    layer 1 for a subject of the group file and a phenotype with at least
    one event of that subject holds the maximum age over the events of the
    pair; with [reg_type = 2] the cell of layer 0 holds that maximum minus
    the minimum age plus one, whatever the number of events of the pair. *)
Theorem feature_matrix_max_age_and_duration
    (phewas_codes prowas_codes : list (string * string))
    (genotypes_df : list subject) (phenotypes : list icd_row)
    (reg_type : Z) (pheno_cov : option string) :
  NoDup (subj_id <$> genotypes_df) ->
  (forall r, r ∈ phenotypes -> PheCode r ∈ phewas_codes.*1) ->
  reg_type = 0 \/ reg_type = 1 \/ reg_type = 2 ->
  exists out fm header,
    generate_feature_matrix phewas_codes prowas_codes genotypes_df
      (get_icd_codes phenotypes reg_type) reg_type ICD pheno_cov
      = (out, Ok (fm, header)) /\
    forall s r, s ∈ genotypes_df -> r ∈ phenotypes -> row_id r = subj_id s ->
      let ages :=
        AgeAtICD <$>
          filter (fun r' => row_id r' = subj_id s /\ PheCode r' = PheCode r) phenotypes in
      exists i j mx mn,
        sort_subjects genotypes_df !! i = Some s /\
        header !! j = Some (PheCode r) /\
        is_max_of mx ages /\ is_min_of mn ages /\
        cell (fm1 fm) i j = Some mx /\
        (reg_type = 2 -> cell (fm0 fm) i j = Some (mx - mn + 1)%Q).
Proof.
  intros Hnd Hcodes Hreg.
  rewrite generate_feature_matrix_NoDup by done. cbv zeta.
  set (rs := sort_subjects genotypes_df).
  set (header := header_of phewas_codes prowas_codes ICD).
  set (evs := get_icd_codes phenotypes reg_type).
  assert (Hheader : forall r, r ∈ phenotypes -> PheCode r ∈ header).
  { intros r Hr. unfold header, header_of. apply sort_by_elem_of. by apply Hcodes. }
  pose proof (final_state_Inv phewas_codes prowas_codes genotypes_df phenotypes reg_type
                pheno_cov Hnd Hcodes Hreg) as HI.
  fold rs header evs in HI.
  rewrite (inv_raised HI).
  eexists _, _, _. split; [reflexivity|].
  intros s r Hs Hr Hid.
  set (ages := AgeAtICD <$> filter _ phenotypes).
  assert (Hsrs : s ∈ rs) by by apply sort_by_elem_of.
  apply list_elem_of_lookup_1 in Hsrs as [i Hi].
  destruct (np_index_is_Some header (PheCode r)) as [j Hj]; [by apply Hheader|].
  set (e := {| ev_id := row_id r; ev_code := PheCode r; ev_age := AgeAtICD r;
               duration :=
                 if decide (reg_type = 2)
                 then Some (transform_max phenotypes r - transform_min phenotypes r + 1)%Q
                 else None;
               MaxAgeAtICD := transform_max phenotypes r |}).
  assert (He : e ∈ sort_events evs).
  { apply sort_by_elem_of. unfold evs, get_icd_codes.
    apply list_elem_of_fmap. exists r. done. }
  destruct (inv_cells HI e i j He) as [Hc1 Hc0].
  { exists s. done. }
  { exact Hj. }
  assert (Hages : ages = group_ages phenotypes r).
  { unfold ages, group_ages. f_equal. apply list_filter_iff.
    intros x. unfold same_group. by rewrite Hid. }
  exists i, j, (transform_max phenotypes r), (transform_min phenotypes r).
  split; [done|]. split; [by apply np_index_lookup|].
  split; [rewrite Hages; by apply reduce_Qmax', group_ages_nonempty|].
  split; [rewrite Hages; by apply reduce_Qmin', group_ages_nonempty|].
  split; [exact Hc1|].
  intros H2. destruct Hc0 as (d & Hd & Hcell); [lia..|].
  simpl in Hd. destruct (decide (reg_type = 2)); [|done]. by simplify_eq.
Qed.

(** The rows of the subjects whose id sorts after every id with events are
    never written: they stay zero in layer 1, whatever [MaxAgeAtVisit]. *)
Lemma trailing_rows_stay_zero
    (phewas_codes prowas_codes : list (string * string))
    (genotypes_df : list subject) (phenotypes : list icd_row)
    (reg_type : Z) (pheno_cov : option string) :
  NoDup (subj_id <$> genotypes_df) ->
  (forall r, r ∈ phenotypes -> PheCode r ∈ phewas_codes.*1) ->
  reg_type = 0 \/ reg_type = 1 \/ reg_type = 2 ->
  exists out fm header,
    generate_feature_matrix phewas_codes prowas_codes genotypes_df
      (get_icd_codes phenotypes reg_type) reg_type ICD pheno_cov
      = (out, Ok (fm, header)) /\
    forall s i j, sort_subjects genotypes_df !! i = Some s ->
      (forall r, r ∈ phenotypes -> row_id r < subj_id s) ->
      (j < length header)%nat ->
      cell (fm1 fm) i j = Some 0%Q.
Proof.
  intros Hnd Hcodes Hreg.
  rewrite generate_feature_matrix_NoDup by done. cbv zeta.
  pose proof (final_state_Inv phewas_codes prowas_codes genotypes_df phenotypes reg_type
                pheno_cov Hnd Hcodes Hreg) as HI.
  rewrite (inv_raised HI).
  eexists _, _, _. split; [reflexivity|].
  intros s i j Hi Hlater Hj.
  assert (Hdict : to_dict_index (sort_subjects genotypes_df) =
            Ok (to_dict ((fun s => (subj_id s, s)) <$> sort_subjects genotypes_df))).
  { apply to_dict_index_NoDup. by apply sort_subjects_ids_NoDup. }
  rewrite (inv_rest HI).
  - apply cell_zeros; [by eapply lookup_lt_Some|done].
  - pose proof (inv_pos HI) as Hpos.
    destruct (last_id _) as [l|]; [|lia].
    destruct Hpos as (c & sc & e & Hc & Hsc & Hl & He & Hel).
    apply sort_by_elem_of, elem_of_get_icd_codes in He as (r & Hr & Hid & _).
    specialize (Hlater r Hr).
    assert (c < i)%nat; [|lia].
    destruct (decide (c < i)%nat) as [|Hge]; [done|].
    assert (i <= c)%nat as Hic by lia.
    assert (subj_id s <= subj_id sc); [|lia].
    destruct (decide (i = c)) as [->|]; [simplify_eq; lia|].
    apply Z.leb_le.
    apply (StronglySorted_lookup_lt _ (sort_subjects genotypes_df) i c s sc
             (sort_subjects_StronglySorted _) Hi Hsc). lia.
Qed.

Lemma feature_matrix_max_age_and_duration_witness :
  exists out fm header,
    generate_feature_matrix [("010", "Tuberculosis"); ("008", "Intestinal infection")] []
      [ {| subj_id := 2; genotype := 0; MaxAgeAtVisit := 60; covariate_fields := [] |};
        {| subj_id := 1; genotype := 1; MaxAgeAtVisit := 50; covariate_fields := [] |} ]
      (get_icd_codes
         [ {| row_id := 1; PheCode := "010"; AgeAtICD := 40 |};
           {| row_id := 1; PheCode := "010"; AgeAtICD := 45 |};
           {| row_id := 2; PheCode := "008"; AgeAtICD := 33 |} ] 2) 2 ICD None
      = (out, Ok (fm, header)).
Proof.
  destruct (feature_matrix_max_age_and_duration
    [("010", "Tuberculosis"); ("008", "Intestinal infection")] []
    [ {| subj_id := 2; genotype := 0; MaxAgeAtVisit := 60; covariate_fields := [] |};
      {| subj_id := 1; genotype := 1; MaxAgeAtVisit := 50; covariate_fields := [] |} ]
    [ {| row_id := 1; PheCode := "010"; AgeAtICD := 40 |};
      {| row_id := 1; PheCode := "010"; AgeAtICD := 45 |};
      {| row_id := 2; PheCode := "008"; AgeAtICD := 33 |} ] 2 None)
    as (out & fm & header & Hrun & _).
  - simpl. apply NoDup_cons. split; [|apply NoDup_singleton].
    intros Hin. apply list_elem_of_singleton in Hin. discriminate Hin.
  - intros r Hr. simpl.
    apply elem_of_cons in Hr as [->|Hr]; [apply elem_of_cons; by left|].
    apply elem_of_cons in Hr as [->|Hr]; [apply elem_of_cons; by left|].
    apply list_elem_of_singleton in Hr as ->.
    apply elem_of_cons; right. apply elem_of_cons; by left.
  - right. right. reflexivity.
  - exists out, fm, header. exact Hrun.
Defined.

(** ** Subjects without events *)

(** C2: a subject without events whose id sorts after the last id with
    events keeps an all-zero row in layer 1.  With subjects 1 (max age 50)
    and 2 (max age 60) and one event, of subject 1, the row of subject 2 in
    layer 1 is 0, 0 and not 60, 60: the rows of subjects without events are
    filled only on the way to a later subject with events. *)
Theorem trailing_subject_row_not_filled :
  let genotypes_df :=
    [ {| subj_id := 1; genotype := 1; MaxAgeAtVisit := 50; covariate_fields := [] |};
      {| subj_id := 2; genotype := 0; MaxAgeAtVisit := 60; covariate_fields := [] |} ] in
  let phenotypes := [ {| row_id := 1; PheCode := "008"; AgeAtICD := 40 |} ] in
  generate_feature_matrix [("008", "Intestinal infection"); ("010", "Tuberculosis")] []
    genotypes_df (get_icd_codes phenotypes 0) 0 ICD None
  = (["Sorting phenotype data..."; "Sorting group data..."],
     Ok ({| fm0 := [[1; 0]; [0; 0]];
            fm1 := [[40; 50]; [0; 0]];
            fm2 := [[0; 0]; [0; 0]] |}%Q,
         ["008"; "010"])).
Proof. vm_compute. reflexivity. Qed.

(** ** Events of ids missing from the group frame *)

Lemma string_length_app s1 s2 :
  String.length (s1 +:+ s2) = (String.length s1 + String.length s2)%nat.
Proof. induction s1 as [|c s1 IH]; simpl; [done|]. by rewrite IH. Qed.

Lemma string_app_inj_r s1 s2 t : s1 +:+ t = s2 +:+ t -> s1 = s2.
Proof.
  revert s2. induction s1 as [|c s1 IH]; intros [|c' s2] Heq.
  - done.
  - apply (f_equal String.length) in Heq.
    rewrite !string_length_app in Heq. simpl in Heq. lia.
  - apply (f_equal String.length) in Heq.
    rewrite !string_length_app in Heq. simpl in Heq. lia.
  - cbn in Heq. injection Heq as -> Heq. f_equal. by apply IH.
Qed.

Lemma excluded_msg_inj i j : excluded_msg i = excluded_msg j -> i = j.
Proof.
  unfold excluded_msg. intros Heq%string_app_inj_r. by apply (inj pretty) in Heq.
Qed.

Lemma excluded_msg_length i : (30 <= String.length (excluded_msg i))%nat.
Proof.
  unfold excluded_msg. rewrite string_length_app.
  match goal with |- context [String.length ?s] =>
    match s with pretty _ => fail 1 | _ => set (n := String.length s) end end.
  vm_compute in n. lia.
Qed.

Lemma count_msg_fmap (i : Z) (ids : list Z) :
  NoDup ids ->
  (length (filter (fun line => line = excluded_msg i) (excluded_msg <$> ids)) <= 1)%nat.
Proof.
  induction 1 as [|j ids Hj Hnd IH]; [simpl; lia|].
  rewrite fmap_cons, filter_cons.
  destruct (decide (excluded_msg j = excluded_msg i)) as [Heq|]; [|done].
  apply excluded_msg_inj in Heq as ->. simpl.
  assert (filter (fun line => line = excluded_msg i) (excluded_msg <$> ids) = []) as ->;
    [|simpl; lia].
  apply elem_of_nil_inv. intros line [-> Hin]%list_elem_of_filter.
  apply list_elem_of_fmap in Hin as (k & Heq%excluded_msg_inj & Hk). by subst.
Qed.


Section MissingIds.
Variables (rs : list subject) (genotypes : gmap Z subject) (np_index : gmap string nat).
Variables (reg_type : Z) (pheno_cov : option string) (P : nat).
Let step := process_event rs genotypes np_index reg_type pheno_cov P.

Lemma process_event_missing st e :
  genotypes !! ev_id e = None -> core (step st e) = core st.
Proof.
  intros Hg. unfold step, process_event. rewrite Hg.
  destruct (raised st) eqn:Hr; [done|].
  destruct (decide (ev_id e ∈ exclude st)); [done|].
  unfold core. simpl. by rewrite Hr.
Qed.

Lemma process_event_core st1 st2 e :
  core st1 = core st2 -> is_Some (genotypes !! ev_id e) ->
  core (step st1 e) = core (step st2 e).
Proof.
  intros Hcore [g Hg]. pose proof Hcore as Hcore'.
  unfold core in Hcore'. injection Hcore' as Hfm Hlast Hcount Hr.
  unfold step, process_event. rewrite Hg, Hr.
  destruct (raised st2) eqn:Hr2; [exact Hcore|].
  unfold new_subject, aggregate, core, raise_in, mbind, result_bind.
  rewrite Hfm, Hlast, Hcount.
  repeat case_match; simplify_eq; simpl; congruence.
Qed.

Lemma process_events_filter evs : forall st1 st2,
  core st1 = core st2 ->
  core (fold_left step evs st1) =
  core (fold_left step (filter (fun e => is_Some (genotypes !! ev_id e)) evs) st2).
Proof.
  induction evs as [|e evs IH]; intros st1 st2 Hcore; [done|].
  rewrite filter_cons. simpl.
  destruct (decide (is_Some (genotypes !! ev_id e))) as [Hin|Hout].
  - simpl. apply IH. by apply process_event_core.
  - apply IH. rewrite process_event_missing; [done|].
    by apply eq_None_not_Some.
Qed.

(** The lines printed are the two of the start and one per excluded id. *)
Lemma process_event_stdout st e pre :
  stdout st = pre ++ (excluded_msg <$> exclude st) -> NoDup (exclude st) ->
  stdout (step st e) = pre ++ (excluded_msg <$> exclude (step st e)) /\
  NoDup (exclude (step st e)).
Proof.
  intros Hout Hnd. unfold step, process_event.
  destruct (raised st); [done|].
  destruct (genotypes !! ev_id e) as [g|].
  - destruct (_ ≫= _) as [st'|ex] eqn:Hbody; [|done].
    unfold mbind, result_bind in Hbody.
    repeat match type of Hbody with
           | match ?x with _ => _ end = _ => destruct x; try done
           end.
    by simplify_eq.
  - destruct (decide (ev_id e ∈ exclude st)); [done|]. simpl. split.
    + rewrite Hout, fmap_app, app_assoc. done.
    + apply NoDup_app. split; [done|]. split; [|apply NoDup_singleton].
      intros x Hx ->%list_elem_of_singleton. done.
Qed.

Lemma process_events_stdout evs : forall st pre,
  stdout st = pre ++ (excluded_msg <$> exclude st) -> NoDup (exclude st) ->
  stdout (fold_left step evs st) = pre ++ (excluded_msg <$> exclude (fold_left step evs st)) /\
  NoDup (exclude (fold_left step evs st)).
Proof.
  induction evs as [|e evs IH]; intros st pre Hout Hnd; [done|].
  simpl. destruct (process_event_stdout st e pre Hout Hnd). by apply IH.
Qed.
End MissingIds.

Lemma start_lines_not_excluded_msg i :
  filter (fun line => line = excluded_msg i)
    ["Sorting phenotype data..."; "Sorting group data..."] = [].
Proof.
  pose proof (excluded_msg_length i) as Hlen.
  rewrite !filter_cons, filter_nil.
  repeat case_decide; try done;
    match goal with H : _ = excluded_msg i |- _ => rewrite <- H in Hlen end;
    vm_compute in Hlen; lia.
Qed.

(** C7: the events whose id is not in the group frame leave no trace in the
    result: the build returns what it returns without them, be it the
    matrix (all three layers) or the exception; and the line that reports a
    missing id is printed at most once for each id. *)
Theorem missing_ids_excluded_and_reported_once
    (phewas_codes prowas_codes : list (string * string))
    (genotypes_df : list subject) (phenotype : list event) (reg_type : Z)
    (code_type : code_kind) (pheno_cov : option string) :
  let in_group_file (e : event) := ev_id e ∈ subj_id <$> genotypes_df in
  let run :=
    generate_feature_matrix phewas_codes prowas_codes genotypes_df phenotype reg_type
      code_type pheno_cov in
  let run_without :=
    generate_feature_matrix phewas_codes prowas_codes genotypes_df
      (filter in_group_file phenotype) reg_type code_type pheno_cov in
  snd run = snd run_without /\
  forall i, (length (filter (fun line => line = excluded_msg i) (fst run)) <= 1)%nat.
Proof.
  intros in_group_file run run_without. subst run run_without.
  destruct (decide (NoDup (subj_id <$> genotypes_df))) as [Hnd|Hdup].
  2:{ rewrite !generate_feature_matrix_dup by done. split; [done|].
      intros i. simpl fst. rewrite start_lines_not_excluded_msg. simpl. lia. }
  rewrite !generate_feature_matrix_NoDup by done. cbv zeta. simpl fst. simpl snd.
  set (rs := sort_subjects genotypes_df).
  set (genotypes := to_dict ((fun s => (subj_id s, s)) <$> rs)).
  assert (Hdict : to_dict_index rs = Ok genotypes).
  { apply to_dict_index_NoDup. by apply sort_subjects_ids_NoDup. }
  assert (Hfilter : sort_events (filter in_group_file phenotype) =
            filter (fun e => is_Some (genotypes !! ev_id e)) (sort_events phenotype)).
  { unfold sort_events. rewrite filter_sort_by.
    - f_equal. apply list_filter_iff. intros e. unfold in_group_file.
      rewrite <- not_eq_None_Some, (genotypes_lookup_None rs genotypes Hdict).
      unfold rs, sort_subjects. rewrite sort_by_Permutation.
      split; [intros Hin Hn; by apply Hn|apply dec_stable].
    - intros x y. rewrite !Z.leb_le. lia.
    - intros x y z. rewrite !Z.leb_le. lia. }
  split.
  - assert (Hcore :
      core (final_state phewas_codes prowas_codes genotypes_df phenotype reg_type
              code_type pheno_cov) =
      core (final_state phewas_codes prowas_codes genotypes_df
              (filter in_group_file phenotype) reg_type code_type pheno_cov)).
    { unfold final_state. fold rs. fold genotypes. rewrite Hfilter.
      by apply process_events_filter. }
    unfold core in Hcore. injection Hcore as -> _ _ ->. done.
  - intros i. unfold final_state. fold rs. fold genotypes.
    match goal with |- context [fold_left (process_event _ _ ?ix _ _ ?P) ?evs ?st] =>
      destruct (process_events_stdout rs genotypes ix reg_type pheno_cov P evs st
                  ["Sorting phenotype data..."; "Sorting group data..."])
        as [Hout Hnd'] end; [done|apply NoDup_nil_2|].
    rewrite Hout, filter_app, start_lines_not_excluded_msg. simpl.
    by apply count_msg_fmap.
Qed.

(** ** Strings *)

Lemma string_app_cons c s t : String c s +:+ t = String c (s +:+ t).
Proof. reflexivity. Qed.

Lemma string_app_nil t : "" +:+ t = t.
Proof. reflexivity. Qed.

Lemma py_split_no_occurrence sep s : occurs sep s = false -> py_split sep s = [s].
Proof.
  unfold py_split. induction s as [|c s IH]; simpl; [done|].
  intros [Hpre Hocc]%orb_false_elim. rewrite Hpre, IH by done. done.
Qed.

Lemma prefix_cons c sep d s :
  String.prefix (String c sep) (String d s) =
  (if ascii_dec c d then String.prefix sep s else false).
Proof. reflexivity. Qed.

Lemma occurs_cons sep c s :
  occurs sep (String c s) = String.prefix sep (String c s) || occurs sep s.
Proof. reflexivity. Qed.

(** A prefix test that fails on the characters at hand. *)
Ltac prefix_false :=
  repeat (rewrite prefix_cons;
          match goal with
          | |- context [ascii_dec ?a ?b] =>
              destruct (ascii_dec a b) as [Heq|_];
              [try discriminate Heq; clear Heq|try reflexivity]
          end).

Ltac occurs_false :=
  repeat (rewrite occurs_cons; apply orb_false_intro; [solve [prefix_false]|]).

(** No separator [" ~ "] arises where a string that does not end with a
    space meets a string that starts with the tilde. *)
Lemma occurs_app_tilde a b :
  occurs " ~ " a = false -> ends_with_space a = false ->
  occurs " ~ " (String "~" b) = false ->
  occurs " ~ " (a +:+ String "~" b) = false.
Proof.
  intros Ha Hend Hb. induction a as [|c a IH]; [done|].
  rewrite string_app_cons, occurs_cons.
  rewrite occurs_cons in Ha. apply orb_false_elim in Ha as [Hpre Ha].
  apply orb_false_intro.
  - (* no match starts at [c] *)
    rewrite prefix_cons. destruct (ascii_dec " " c) as [<-|]; [|done].
    destruct a as [|c2 a]; [done|].
    rewrite string_app_cons, prefix_cons.
    destruct (ascii_dec "~" c2) as [<-|]; [|done].
    destruct a as [|c3 a].
    + rewrite string_app_nil. reflexivity.
    + rewrite string_app_cons, prefix_cons.
      destruct (ascii_dec " " c3) as [<-|]; [|done].
      exfalso. rewrite !prefix_cons in Hpre.
      repeat match type of Hpre with
             | context [ascii_dec ?x ?y] => destruct (ascii_dec x y); [|done]
             end.
      destruct a; discriminate Hpre.
  - apply IH; [done|]. destruct a; [done|]. done.
Qed.

(** The text after the response in the two formulas with a custom response. *)
Lemma occurs_after_response covariates :
  occurs " ~ " covariates = false ->
  let covariates' :=
    if String.eqb covariates "" then covariates else "+" +:+ covariates in
  occurs " ~ " ("~ y + genotype" +:+ covariates') = false /\
  occurs " ~ " ("~ y + phe + genotype" +:+ covariates') = false.
Proof.
  intros Hcov covariates'.
  assert (Hcov' : occurs " ~ " covariates' = false).
  { unfold covariates'. destruct (String.eqb covariates ""); [done|].
    rewrite string_app_cons, string_app_nil. occurs_false. done. }
  split.
  - repeat rewrite string_app_cons. rewrite string_app_nil. occurs_false. exact Hcov'.
  - repeat rewrite string_app_cons. rewrite string_app_nil. occurs_false. exact Hcov'.
Qed.

(** ** [calculate_odds_ratio] *)

Lemma df_setitem_Ok data name values :
  length values = length (df_rows data) ->
  df_setitem data name values =
    Ok {| df_rows := df_rows data;
          df_assigned := assoc_set name values (df_assigned data) |}.
Proof. intros Hlen. unfold df_setitem. by case_decide. Qed.


Lemma build_formula_Ok genotypes phen_vector1 phen_vector2 covariates response phen_vector3 :
  length phen_vector1 = length (df_rows genotypes) ->
  length phen_vector2 = length (df_rows genotypes) ->
  length phen_vector3 = length (df_rows genotypes) ->
  exists data,
    build_formula genotypes phen_vector1 phen_vector2 covariates response phen_vector3
      = Ok (data, formula_of covariates response phen_vector3) /\
    df_rows data = df_rows genotypes.
Proof.
  intros H1 H2 H3. unfold build_formula, formula_of.
  rewrite df_setitem_Ok by done. simpl.
  rewrite df_setitem_Ok by done. simpl.
  destruct (negb (String.eqb response "")), (np_any phen_vector3);
    rewrite ?df_setitem_Ok by done; simpl; eauto.
Qed.

Section RegressionFacts.
Variable smf_logit_fit : option string -> string -> DataFrame -> result fit_result.
Variable sm_Logit_fit_regularized :
  list Q -> list (string * list Q) -> Q -> result fit_result.
Variable log10 : Q -> Q.


(** C8, as the code has it: an exception raised in the [try] body is
    caught, its message is printed, followed by the line with the mode
    [lr] when it is a [ValueError], and the sentinel tuple is returned. *)
Theorem fit_exception_gives_sentinel (genotypes : DataFrame)
    (phen_vector1 phen_vector2 : list Q) (covariates : string) (lr : Z)
    (response : string) (phen_vector3 : list Q) :
  length phen_vector1 = length (df_rows genotypes) ->
  length phen_vector2 = length (df_rows genotypes) ->
  length phen_vector3 = length (df_rows genotypes) ->
  exists data f,
    build_formula genotypes phen_vector1 phen_vector2 covariates response phen_vector3
      = Ok (data, f) /\
    forall e, try_fit smf_logit_fit sm_Logit_fit_regularized log10 f data lr = Raise e ->
      calculate_odds_ratio smf_logit_fit sm_Logit_fit_regularized log10
      genotypes phen_vector1 phen_vector2 covariates lr response phen_vector3
      = (exn_str e :: (if is_ValueError e then ["lr = " +:+ fmt_space_d lr] else []),
         Ok (data, sentinel_res)).
Proof.
  intros H1 H2 H3.
  destruct (build_formula_Ok genotypes phen_vector1 phen_vector2 covariates response
              phen_vector3 H1 H2 H3) as (data & Hbuild & _).
  exists data, (formula_of covariates response phen_vector3). split; [done|].
  intros e He. unfold calculate_odds_ratio. rewrite Hbuild.
  rewrite He. by destruct (is_ValueError e).
Qed.

(** C9, as the code has it: with a custom response that has no [" ~ "]
    and no space at its end, and covariates without [" ~ "], the formula
    has no [" ~ "], the split has one element, and the regularized path
    ends in the handler of the index error. *)
Theorem regularized_custom_response_gives_sentinel (genotypes : DataFrame)
    (phen_vector1 phen_vector2 : list Q) (covariates response : string)
    (phen_vector3 : list Q) :
  response ≠ "" ->
  occurs " ~ " response = false ->
  ends_with_space response = false ->
  occurs " ~ " covariates = false ->
  length phen_vector1 = length (df_rows genotypes) ->
  length phen_vector2 = length (df_rows genotypes) ->
  length phen_vector3 = length (df_rows genotypes) ->
  exists data,
    calculate_odds_ratio smf_logit_fit sm_Logit_fit_regularized log10
      genotypes phen_vector1 phen_vector2 covariates 1 response phen_vector3
    = (["list index out of range"], Ok (data, sentinel_res)).
Proof.
  intros Hne Hresp Hend Hcov H1 H2 H3.
  destruct (build_formula_Ok genotypes phen_vector1 phen_vector2 covariates response
              phen_vector3 H1 H2 H3) as (data & Hbuild & _).
  exists data. unfold calculate_odds_ratio. rewrite Hbuild.
  assert (Hocc : occurs " ~ " (formula_of covariates response phen_vector3) = false).
  { unfold formula_of. apply String.eqb_neq in Hne. rewrite Hne. simpl negb. cbv iota.
    destruct (occurs_after_response covariates Hcov) as [Ha Hb]. cbv zeta in Ha, Hb.
    destruct (np_any phen_vector3); rewrite string_app_cons;
      by apply occurs_app_tilde. }
  unfold try_fit. simpl decide. cbv iota.
  rewrite (py_split_no_occurrence _ _ Hocc). reflexivity.
Qed.
End RegressionFacts.

Lemma fit_exception_gives_sentinel_witness :
  calculate_odds_ratio Sample.smf_value_error Sample.regularized_fits Sample.log10
    Sample.frame [1; 0]%Q [50; 60]%Q "" 0 "" [0; 0]%Q
  = (["endog must be in the unit interval."; "lr =  0"],
     Ok ({| df_rows := df_rows Sample.frame;
            df_assigned := [("y", [1; 0]%Q); ("MaxAgeAtICD", [50; 60]%Q)] |},
         sentinel_res)).
Proof.
  destruct (fit_exception_gives_sentinel Sample.smf_value_error Sample.regularized_fits
              Sample.log10 Sample.frame [1; 0]%Q [50; 60]%Q "" 0 "" [0; 0]%Q
              eq_refl eq_refl eq_refl) as (data & f & Hbuild & Hcatch).
  injection Hbuild as <- <-.
  exact (Hcatch (ValueError "endog must be in the unit interval.") eq_refl).
Defined.

(** C8, as stated, fails for an exception that is not a [ValueError]: the
    fit of mode 0 raises a perfect-separation error, the handler prints its
    message and nothing else, and no line names the mode. *)
Lemma other_exception_prints_no_mode :
  try_fit Sample.smf_separation Sample.regularized_fits Sample.log10 "genotype ~ y"
    {| df_rows := df_rows Sample.frame;
       df_assigned := [("y", [1; 0]%Q); ("MaxAgeAtICD", [50; 60]%Q)] |} 0
  = Raise (OtherError "PerfectSeparationError"
             "Perfect separation detected, results not available") /\
  calculate_odds_ratio Sample.smf_separation Sample.regularized_fits Sample.log10
    Sample.frame [1; 0]%Q [50; 60]%Q "" 0 "" [0; 0]%Q
  = (["Perfect separation detected, results not available"],
     Ok ({| df_rows := df_rows Sample.frame;
            df_assigned := [("y", [1; 0]%Q); ("MaxAgeAtICD", [50; 60]%Q)] |},
         sentinel_res)) /\
  ("lr = " +:+ fmt_space_d 0) ∉
    fst (calculate_odds_ratio Sample.smf_separation Sample.regularized_fits Sample.log10
           Sample.frame [1; 0]%Q [50; 60]%Q "" 0 "" [0; 0]%Q).
Proof.
  split; [reflexivity|]. split; [reflexivity|].
  intros Hin. vm_compute in Hin.
  apply list_elem_of_singleton in Hin. discriminate Hin.
Qed.

Lemma regularized_custom_response_gives_sentinel_witness :
  exists data,
    calculate_odds_ratio Sample.smf_fits Sample.regularized_fits Sample.log10
      Sample.frame [1; 0]%Q [50; 60]%Q "age+sex" 1 "resp" [0; 0]%Q
    = (["list index out of range"], Ok (data, sentinel_res)).
Proof.
  apply (regularized_custom_response_gives_sentinel Sample.smf_fits
           Sample.regularized_fits Sample.log10 Sample.frame [1; 0]%Q [50; 60]%Q
           "age+sex" "resp" [0; 0]%Q);
    [discriminate|reflexivity..].
Defined.

(** C9, as stated, fails for a response that ends with a space: the
    formula then has [" ~ "], the split has two elements, the columns
    [resp], [y] and [genotype] are found and the regularized fit runs; its
    result, not the sentinel, is returned. *)
Lemma trailing_space_response_is_fitted :
  "resp " ≠ "" /\ occurs " ~ " "resp " = false /\
  py_split " ~ " ("resp " +:+ "~ y + genotype" +:+ "") = ["resp"; "y + genotype"] /\
  calculate_odds_ratio Sample.smf_fits Sample.regularized_fits Sample.log10
    Sample.frame [1; 0]%Q [50; 60]%Q "" 1 "resp " [0; 0]%Q
  = ([],
     Ok ({| df_rows := df_rows Sample.frame;
            df_assigned := [("y", [1; 0]%Q); ("MaxAgeAtICD", [50; 60]%Q)] |},
         (0, Fin (1 # 10),
          {| od_neg_log_p := Fin (- -1); od_p := Fin (1 # 10); od_beta := Fin 1;
             od_conf := ConfInterval (Fin 0) (Fin 2); od_stderr := Fin (1 # 2) |},
          Fin (1 # 2)))).
Proof. split; [discriminate|]. repeat split; reflexivity. Qed.

(** The covariates matter as well: with [" ~ "] inside them the split has
    two elements, the name before it is looked up as a column, and where
    the frame has a column of that name the fit runs. *)
Lemma separator_in_covariates_is_fitted :
  py_split " ~ " ("resp" +:+ "~ y + genotype" +:+ "+" +:+ "a ~ y")
    = ["resp~ y + genotype+a"; "y"] /\
  exists data,
    calculate_odds_ratio Sample.smf_fits Sample.regularized_fits Sample.log10
      Sample.odd_frame [1; 0]%Q [50; 60]%Q "a ~ y" 1 "resp" [0; 0]%Q
    = ([],
       Ok (data,
           (0, Fin (1 # 10),
            {| od_neg_log_p := Fin (- -1); od_p := Fin (1 # 10); od_beta := Fin 1;
               od_conf := ConfInterval (Fin 0) (Fin 2); od_stderr := Fin (1 # 2) |},
            Fin (1 # 2)))).
Proof. split; [reflexivity|]. eexists. reflexivity. Qed.

(** ** The regression loop *)

Lemma np_where_from (mask : list bool) : forall a,
  length (filter (fun ib : nat * bool => snd ib = true) (zip (seq a (length mask)) mask)) =
  length (filter (fun b => b = true) mask).
Proof.
  induction mask as [|b mask IH]; intros a; [done|].
  simpl zip. rewrite !filter_cons. simpl snd.
  destruct (decide (b = true)); simpl; by rewrite IH.
Qed.

Lemma np_where_length mask :
  length (np_where mask) = length (filter (fun b => b = true) mask).
Proof. unfold np_where. rewrite length_fmap. apply np_where_from. Qed.

Lemma elem_of_np_where mask j : j ∈ np_where mask <-> mask !! j = Some true.
Proof.
  unfold np_where. rewrite list_elem_of_fmap. split.
  - intros ([i b] & -> & [Hb Hin]%list_elem_of_filter). simpl in *. subst b.
    apply list_elem_of_lookup_1 in Hin as [k Hk].
    apply lookup_zip_Some in Hk as [Hseq Hmask].
    apply lookup_seq in Hseq as [-> _]. done.
  - intros Hj. exists (j, true). split; [done|].
    apply list_elem_of_filter. split; [done|].
    apply list_elem_of_lookup. exists j. apply lookup_zip_Some. split; [|done].
    apply lookup_seq. split; [done|]. by eapply lookup_lt_Some.
Qed.

Lemma positive_iff x : negb (Qle_bool x 0) = true <-> (0 < x)%Q.
Proof.
  rewrite negb_true_iff, <- not_true_iff_false, Qle_bool_iff. split.
  - apply Qnot_le_lt.
  - apply Qlt_not_le.
Qed.

Lemma count_positive_filter v :
  count_positive v = length (filter (fun x => (0 < x)%Q) v).
Proof.
  unfold count_positive. rewrite np_where_length.
  induction v as [|x v IH]; [done|].
  rewrite fmap_cons, !filter_cons.
  destruct (decide (0 < x)%Q) as [Hx|Hx].
  - apply positive_iff in Hx. rewrite Hx.
    destruct (decide (true = true)); [|done]. simpl. by rewrite IH.
  - destruct (negb (Qle_bool x 0)) eqn:Hb; [by apply positive_iff in Hb|].
    destruct (decide (false = true)); [done|]. exact IH.
Qed.

(** C3: with fewer than 6 subjects of strictly positive value in the
    aggregate column (with exactly 5, then), the turn of the loop makes no
    fit and the row it records carries the sentinel; with 6 or more the
    tuple is the one [calculate_odds_ratio] returns. *)
Theorem skip_rule_six_positive
    (smf_logit_fit : option string -> string -> DataFrame -> result fit_result)
    (sm_Logit_fit_regularized : list Q -> list (string * list Q) -> Q -> result fit_result)
    (log10 : Q -> Q) (phewas_codes icd9_codes icd10_codes : list (string * string))
    (fm : feature_matrix) (genotypes : DataFrame) (inds : list nat)
    (covariates response : string) (index : nat) :
  let phen_vector1 := column (fm0 fm) index in
  let positive := length (filter (fun x => (0 < x)%Q) phen_vector1) in
  ((positive < 6)%nat ->
     regression_at smf_logit_fit sm_Logit_fit_regularized log10 fm genotypes inds
       covariates response index = ([], Ok (genotypes, sentinel_res)) /\
     forall st p_code p_name p_icd9 p_icd10,
       ps_raised st = None -> ps_data st = genotypes ->
       get_phewas_info phewas_codes icd9_codes icd10_codes index
         = Ok (p_code, p_name, p_icd9, p_icd10) ->
       regress_index smf_logit_fit sm_Logit_fit_regularized log10 phewas_codes
         icd9_codes icd10_codes fm inds covariates response st index
       = {| ps_data := genotypes;
            regressions := regressions st ++
              [{| reg_code := p_code; reg_name := p_name;
                  reg_od := {| od_neg_log_p := nan; od_p := nan; od_beta := nan;
                               od_conf := ConfNaN; od_stderr := nan |};
                  reg_icd9 := p_icd9; reg_icd10 := p_icd10 |}];
            ps_stdout := ps_stdout st; ps_raised := None |}) /\
  ((positive = 5)%nat ->
     regression_at smf_logit_fit sm_Logit_fit_regularized log10 fm genotypes inds
       covariates response index = ([], Ok (genotypes, sentinel_res))) /\
  ((6 <= positive)%nat ->
     regression_at smf_logit_fit sm_Logit_fit_regularized log10 fm genotypes inds
       covariates response index
     = calculate_odds_ratio smf_logit_fit sm_Logit_fit_regularized log10 genotypes
         phen_vector1 (column (fm1 fm) index) covariates
         (if decide (index ∈ inds) then 1 else 0) response (column (fm2 fm) index)).
Proof.
  intros phen_vector1 positive.
  assert (Hskip : (positive < 6)%nat ->
            regression_at smf_logit_fit sm_Logit_fit_regularized log10 fm genotypes inds
              covariates response index = ([], Ok (genotypes, sentinel_res))).
  { intros Hlt. unfold regression_at. fold phen_vector1.
    rewrite count_positive_filter. fold positive.
    destruct (Nat.ltb_spec 5 positive); [lia|done]. }
  split; [|split].
  - intros Hlt. split; [by apply Hskip|].
    intros st p_code p_name p_icd9 p_icd10 Hraised Hdata Hinfo.
    unfold regress_index. rewrite Hraised, Hdata, (Hskip Hlt), Hinfo. simpl.
    by rewrite app_nil_r.
  - intros Heq. apply Hskip. lia.
  - intros Hge. unfold regression_at. fold phen_vector1.
    rewrite count_positive_filter. fold positive.
    destruct (Nat.ltb_spec 5 positive); [|lia].
    by destruct (decide (index ∈ inds)).
Qed.

Lemma skip_rule_six_positive_witness :
  regression_at Sample.smf_fits Sample.regularized_fits Sample.log10
    {| fm0 := [[1]; [2]; [0]; [1]; [1]; [3]]%Q;
       fm1 := [[40]; [41]; [42]; [43]; [44]; [45]]%Q;
       fm2 := [[0]; [0]; [0]; [0]; [0]; [0]]%Q |}
    Sample.frame [] "" "" 0
  = ([], Ok (Sample.frame, sentinel_res)).
Proof.
  apply (proj1 (proj2 (skip_rule_six_positive Sample.smf_fits Sample.regularized_fits
                         Sample.log10 [] [] []
                         {| fm0 := [[1]; [2]; [0]; [1]; [1]; [3]]%Q;
                            fm1 := [[40]; [41]; [42]; [43]; [44]; [45]]%Q;
                            fm2 := [[0]; [0]; [0]; [0]; [0]; [0]]%Q |}
                         Sample.frame [] "" "" 0%nat))).
  vm_compute. reflexivity.
Defined.

(** ** The separation detector *)

Lemma mask_rows_Ok (m : matrix) mask :
  length mask = length m ->
  mask_rows m mask = Ok (fst <$> filter (fun rb => snd rb = true) (zip m mask)).
Proof. intros Hlen. unfold mask_rows. by case_decide. Qed.

Lemma elem_of_masked (m : matrix) (mask : list bool) row :
  row ∈ fst <$> filter (fun rb : list Q * bool => snd rb = true) (zip m mask) <->
  exists i, m !! i = Some row /\ mask !! i = Some true.
Proof.
  rewrite list_elem_of_fmap. split.
  - intros ([r b] & -> & [Hb Hin]%list_elem_of_filter). simpl in *. subst b.
    apply list_elem_of_lookup_1 in Hin as [i Hi].
    apply lookup_zip_Some in Hi. eauto.
  - intros (i & Hm & Hmask). exists (row, true). split; [done|].
    apply list_elem_of_filter. split; [done|].
    apply list_elem_of_lookup. exists i. by apply lookup_zip_Some.
Qed.

Lemma np_any_true v : np_any v = true <-> exists x, x ∈ v /\ nonzero x = true.
Proof.
  unfold np_any. rewrite existsb_exists.
  split; intros (x & Hx & Hnz); exists x; split; try done; by apply list_elem_of_In.
Qed.

Lemma nonzero_true x : nonzero x = true <-> ¬ (x == 0)%Q.
Proof.
  unfold nonzero. rewrite negb_true_iff, <- not_true_iff_false, Qeq_bool_iff. done.
Qed.

Lemma any_axis0_lookup (m : matrix) P j :
  (j < P)%nat -> any_axis0 m P !! j = Some (np_any (column m j)).
Proof.
  intros Hj. unfold any_axis0. rewrite list_lookup_fmap, lookup_seq_lt by done. done.
Qed.


Lemma masked_any_present (m0 : matrix) genotypes P g j :
  shape (length genotypes) P m0 -> (j < P)%nat ->
  np_any (column
            (fst <$> filter (fun rb : list Q * bool => snd rb = true)
               (zip m0 ((fun s => bool_decide (genotype s = g)) <$> genotypes))) j) = true
  <-> present m0 genotypes g j.
Proof.
  intros [Hlen Hrows] Hj. rewrite np_any_true. unfold column, present. split.
  - intros (x & Hx & Hnz).
    apply list_elem_of_fmap in Hx as (row & -> & Hrow).
    apply elem_of_masked in Hrow as (i & Hm & Hmask).
    rewrite list_lookup_fmap in Hmask.
    destruct (genotypes !! i) as [s|] eqn:Hs; [|done].
    simpl in Hmask. injection Hmask as Hg. apply bool_decide_eq_true in Hg.
    assert (length row = P) as Hrow.
    { rewrite Forall_forall in Hrows. apply Hrows. by eapply list_elem_of_lookup_2. }
    destruct (lookup_lt_is_Some_2 row j) as [x Hx]; [lia|].
    rewrite Hx in Hnz. simpl in Hnz.
    exists i, s, x. split; [done|]. split; [done|]. split.
    + unfold cell. rewrite Hm. done.
    + by apply nonzero_true.
  - intros (i & s & x & Hs & Hg & Hcell & Hnz).
    unfold cell in Hcell. destruct (m0 !! i) as [row|] eqn:Hm; [|done].
    simpl in Hcell. exists x. split; [|by apply nonzero_true].
    apply list_elem_of_fmap. exists row. split; [by rewrite Hcell|].
    apply elem_of_masked. exists i. split; [done|].
    rewrite list_lookup_fmap, Hs. simpl. f_equal. by apply bool_decide_eq_true.
Qed.

Lemma separated_indices_spec fm genotypes P :
  shape (length genotypes) P (fm0 fm) ->
  exists inds, separated_indices fm genotypes P = Ok inds /\
    forall j, (j < P)%nat ->
      (j ∈ inds <->
       (present (fm0 fm) genotypes 0 j /\ ¬ present (fm0 fm) genotypes 1 j) \/
       (¬ present (fm0 fm) genotypes 0 j /\ present (fm0 fm) genotypes 1 j)).
Proof.
  intros Hshape. pose proof Hshape as [Hlen _].
  unfold separated_indices.
  rewrite !mask_rows_Ok by (by rewrite length_fmap). simpl.
  eexists. split; [done|]. intros j Hj.
  rewrite elem_of_np_where, lookup_zip_with, !any_axis0_lookup by done. simpl.
  pose proof (masked_any_present (fm0 fm) genotypes P 0 j Hshape Hj) as Hc.
  pose proof (masked_any_present (fm0 fm) genotypes P 1 j Hshape Hj) as Hd.
  destruct (np_any (column _ j)) eqn:Ec in Hc |- *;
    destruct (np_any (column _ j)) eqn:Ed in Hd |- *; simpl; split.
  all: try (intros [= ?]; done).
  all: try (intros _; intuition congruence).
  all: intros [[? ?]|[? ?]]; exfalso; intuition congruence.
Qed.

(** ** Which fit a column is routed to *)

Lemma try_fit_mode_1 smf smf' reg log10 f data :
  try_fit smf' reg log10 f data 1 = try_fit smf reg log10 f data 1.
Proof. reflexivity. Qed.

Lemma try_fit_mode_0 smf reg reg' log10 f data :
  try_fit smf reg' log10 f data 0 = try_fit smf reg log10 f data 0.
Proof. reflexivity. Qed.

Lemma try_fit_penalty smf reg reg' log10 f data lr :
  (forall endog exog, reg' endog exog (1 # 10) = reg endog exog (1 # 10)) ->
  try_fit smf reg' log10 f data lr = try_fit smf reg log10 f data lr.
Proof.
  intros Hreg. unfold try_fit.
  destruct (decide (lr = 0)); [done|]. destruct (decide (lr = 1)); [|done].
  unfold mbind, result_bind.
  repeat case_match; simplify_eq; try done; rewrite Hreg in *; congruence.
Qed.

Lemma calculate_odds_ratio_ext smf smf' reg reg' log10 genotypes v1 v2 covariates lr
    response v3 :
  (forall f data, try_fit smf' reg' log10 f data lr = try_fit smf reg log10 f data lr) ->
  calculate_odds_ratio smf' reg' log10 genotypes v1 v2 covariates lr response v3 =
  calculate_odds_ratio smf reg log10 genotypes v1 v2 covariates lr response v3.
Proof.
  intros Hfit. unfold calculate_odds_ratio.
  destruct (build_formula _ _ _ _ _ _) as [[data f]|]; [|done]. by rewrite Hfit.
Qed.

(** C4, as the code has it.  The detector flags the columns whose nonzero
    entries are not empty and lie within one exposure group; a column with
    at least 6 strictly positive entries goes to the regularized fit of
    penalty 0.1 when it is flagged (the ordinary fit is not consulted) and
    to the ordinary fit when it is not (the regularized fit is not
    consulted). *)
Theorem separated_columns_routed
    (smf_logit_fit : option string -> string -> DataFrame -> result fit_result)
    (sm_Logit_fit_regularized : list Q -> list (string * list Q) -> Q -> result fit_result)
    (log10 : Q -> Q) (fm : feature_matrix) (genotypes : list subject)
    (P index : nat) :
  shape (length genotypes) P (fm0 fm) ->
  (forall s, s ∈ genotypes -> genotype s = 0 \/ genotype s = 1) ->
  (index < P)%nat ->
  exists inds, separated_indices fm genotypes P = Ok inds /\
    (index ∈ inds <->
       (exists i s x, genotypes !! i = Some s /\ cell (fm0 fm) i index = Some x /\
                      ¬ (x == 0)%Q) /\
       ((forall i s x, genotypes !! i = Some s -> cell (fm0 fm) i index = Some x ->
                       ¬ (x == 0)%Q -> genotype s = 1) \/
        (forall i s x, genotypes !! i = Some s -> cell (fm0 fm) i index = Some x ->
                       ¬ (x == 0)%Q -> genotype s = 0))) /\
    forall data covariates response,
      (6 <= length (filter (fun x => (0 < x)%Q) (column (fm0 fm) index)))%nat ->
      regression_at smf_logit_fit sm_Logit_fit_regularized log10 fm data inds
        covariates response index
      = calculate_odds_ratio smf_logit_fit sm_Logit_fit_regularized log10 data
          (column (fm0 fm) index) (column (fm1 fm) index) covariates
          (if decide (index ∈ inds) then 1 else 0) response (column (fm2 fm) index) /\
      (index ∈ inds -> forall smf' reg',
         (forall endog exog,
            reg' endog exog (1 # 10) = sm_Logit_fit_regularized endog exog (1 # 10)) ->
         regression_at smf' reg' log10 fm data inds covariates response index =
         regression_at smf_logit_fit sm_Logit_fit_regularized log10 fm data inds
           covariates response index) /\
      (index ∉ inds -> forall reg',
         regression_at smf_logit_fit reg' log10 fm data inds covariates response index =
         regression_at smf_logit_fit sm_Logit_fit_regularized log10 fm data inds
           covariates response index).
Proof.
  intros Hshape Hgeno Hindex.
  destruct (separated_indices_spec fm genotypes P Hshape) as (inds & Hinds & Hflag).
  exists inds. split; [done|]. split.
  - rewrite (Hflag index Hindex). unfold present. split.
    + intros [[(i & s & x & Hs & Hg & Hc & Hx) Hnone]|[Hnone (i & s & x & Hs & Hg & Hc & Hx)]].
      * split; [by eauto 10|]. right. intros i' s' x' Hs' Hc' Hx'.
        destruct (Hgeno s') as [?|Hone]; [by eapply list_elem_of_lookup_2|done|].
        exfalso. apply Hnone. by eauto 10.
      * split; [by eauto 10|]. left. intros i' s' x' Hs' Hc' Hx'.
        destruct (Hgeno s') as [Hzero|?]; [by eapply list_elem_of_lookup_2| |done].
        exfalso. apply Hnone. by eauto 10.
    + intros [(i & s & x & Hs & Hc & Hx) [Hall|Hall]].
      * right. split.
        -- intros (i' & s' & x' & Hs' & Hg' & Hc' & Hx').
           specialize (Hall i' s' x' Hs' Hc' Hx'). lia.
        -- exists i, s, x. by eauto 10.
      * left. split.
        -- exists i, s, x. by eauto 10.
        -- intros (i' & s' & x' & Hs' & Hg' & Hc' & Hx').
           specialize (Hall i' s' x' Hs' Hc' Hx'). lia.
  - intros data covariates response Hsix.
    assert (Hpos : (5 <? count_positive (column (fm0 fm) index))%nat = true).
    { rewrite count_positive_filter. apply Nat.ltb_lt. lia. }
    split; [|split].
    + unfold regression_at. rewrite Hpos. by destruct (decide (index ∈ inds)).
    + intros Hin smf' reg' Hreg. unfold regression_at. rewrite Hpos.
      destruct (decide (index ∈ inds)); [|done].
      apply calculate_odds_ratio_ext. intros f data'.
      rewrite (try_fit_mode_1 smf_logit_fit smf'). by apply try_fit_penalty.
    + intros Hout reg'. unfold regression_at. rewrite Hpos.
      destruct (decide (index ∈ inds)); [done|].
      apply calculate_odds_ratio_ext. intros f data'. apply try_fit_mode_0.
Qed.

Lemma separated_columns_routed_witness :
  exists inds,
    separated_indices
      {| fm0 := [[1]; [0]]%Q; fm1 := [[40]; [60]]%Q; fm2 := [[0]; [0]]%Q |}
      (df_rows Sample.frame) 1 = Ok inds /\
    (0%nat ∈ inds <->
       (exists i s x, df_rows Sample.frame !! i = Some s /\
          cell [[1]; [0]]%Q i 0 = Some x /\ ¬ (x == 0)%Q) /\
       ((forall i s x, df_rows Sample.frame !! i = Some s ->
           cell [[1]; [0]]%Q i 0 = Some x -> ¬ (x == 0)%Q -> genotype s = 1) \/
        (forall i s x, df_rows Sample.frame !! i = Some s ->
           cell [[1]; [0]]%Q i 0 = Some x -> ¬ (x == 0)%Q -> genotype s = 0))).
Proof.
  destruct (separated_columns_routed Sample.smf_fits Sample.regularized_fits Sample.log10
              {| fm0 := [[1]; [0]]%Q; fm1 := [[40]; [60]]%Q; fm2 := [[0]; [0]]%Q |}
              (df_rows Sample.frame) 1 0) as (inds & Hinds & Hflag & _).
  - split; [reflexivity|]. repeat constructor.
  - intros s Hs. simpl in Hs.
    apply elem_of_cons in Hs as [->|Hs]; [by right|].
    apply list_elem_of_singleton in Hs as ->. by left.
  - lia.
  - exists inds. split; [exact Hinds|exact Hflag].
Defined.

(** C4, as stated, fails for a flagged column with fewer than 6 strictly
    positive entries: the column is present among the exposed only, the
    detector flags it, and the loop records the sentinel without a fit,
    whatever the regularized fit would return. *)
Lemma flagged_column_not_fitted :
  separated_indices
    {| fm0 := [[1]; [0]]%Q; fm1 := [[40]; [60]]%Q; fm2 := [[0]; [0]]%Q |}
    (df_rows Sample.frame) 1 = Ok [0%nat] /\
  regression_at Sample.smf_fits Sample.regularized_fits Sample.log10
    {| fm0 := [[1]; [0]]%Q; fm1 := [[40]; [60]]%Q; fm2 := [[0]; [0]]%Q |}
    Sample.frame [0%nat] "" "" 0
  = ([], Ok (Sample.frame, sentinel_res)) /\
  calculate_odds_ratio Sample.smf_fits Sample.regularized_fits Sample.log10
    Sample.frame [1; 0]%Q [40; 60]%Q "" 1 "" [0; 0]%Q
  ≠ ([], Ok (Sample.frame, sentinel_res)).
Proof.
  split; [reflexivity|]. split; [reflexivity|].
  vm_compute. discriminate.
Qed.

(** ** More on the thresholds *)

Lemma sorted_finite_filter (p_values : list pyfloat) :
  sorted_finite (filter (fun x => np_isfinite x = true) p_values) =
  sorted_finite p_values.
Proof.
  unfold sorted_finite, np_sort.
  rewrite !(filter_sort_by sort_le sort_le_total sort_le_trans
              (fun x => np_isfinite x = true)).
  f_equal. apply list_filter_filter_l. done.
Qed.

(** X1: both step-up calculators walk the sorted finite p-values upward and
    return the value at the first rank that exceeds its critical value, or
    the value at the last rank when none does. *)
Theorem step_up_thresh_stops_at_first_exceeding (p_values : list pyfloat) (alpha : Q) :
  (exists x, x ∈ p_values /\ np_isfinite x = true) ->
  let sn := sorted_finite p_values in
  (exists k v, get_fdr_thresh p_values alpha = Ok v /\ sn !! k = Some v /\
     (forall j, (j < k)%nat -> le_crit sn j (fdr_p_crit alpha j (length sn)) = true) /\
     (le_crit sn k (fdr_p_crit alpha k (length sn)) = false \/
      k = (length sn - 1)%nat /\ le_crit sn k (fdr_p_crit alpha k (length sn)) = true)) /\
  (exists k v, get_bhy_thresh p_values alpha = Ok v /\ sn !! k = Some v /\
     (forall j, (j < k)%nat -> le_crit sn j (bhy_p_crit alpha j (length sn)) = true) /\
     (le_crit sn k (bhy_p_crit alpha k (length sn)) = false \/
      k = (length sn - 1)%nat /\ le_crit sn k (bhy_p_crit alpha k (length sn)) = true)).
Proof.
  intros Hfin sn. rewrite get_fdr_thresh_step_up, get_bhy_thresh_step_up.
  split; by apply step_up_some_finite.
Qed.

Lemma step_up_thresh_stops_at_first_exceeding_witness :
  exists k v, get_fdr_thresh [Fin (5#10); NaN; Fin (1#100); Fin (4#100)] (5#100) = Ok v /\
    sorted_finite [Fin (5#10); NaN; Fin (1#100); Fin (4#100)] !! k = Some v.
Proof.
  destruct (step_up_thresh_stops_at_first_exceeding
    [Fin (5#10); NaN; Fin (1#100); Fin (4#100)] (5#100)) as [(k & v & Hv & Hk & _) _].
  - exists (Fin (5#10)). split; [|reflexivity]. apply elem_of_cons; by left.
  - by exists k, v.
Defined.

(** X2: entries that are not finite (NaN, the infinities) have no effect on
    the step-up thresholds: dropping them from the input changes neither
    result. *)
Theorem step_up_thresh_ignores_non_finite (p_values : list pyfloat) (alpha : Q) :
  get_fdr_thresh (filter (fun x => np_isfinite x = true) p_values) alpha =
    get_fdr_thresh p_values alpha /\
  get_bhy_thresh (filter (fun x => np_isfinite x = true) p_values) alpha =
    get_bhy_thresh p_values alpha.
Proof.
  rewrite !get_fdr_thresh_step_up, !get_bhy_thresh_step_up.
  unfold step_up. by rewrite sorted_finite_filter.
Qed.

Lemma py_le_Fin_mono x a b :
  (a <= b)%Q -> py_le x (Fin a) = true -> py_le x (Fin b) = true.
Proof.
  intros Hab. destruct x as [q| | |]; simpl; try done.
  rewrite !Qle_bool_iff. intros Hq. by eapply Qle_trans.
Qed.

Lemma float_of_nat_pos n : (0 < n)%nat -> (0 < float_of_nat n)%Q.
Proof.
  intros Hn. unfold float_of_nat, Qlt. simpl. lia.
Qed.

(** The BHY critical value is the FDR one divided by 8.1. *)
Lemma bhy_p_crit_le_fdr alpha i n :
  (0 <= alpha)%Q -> (0 < n)%nat -> (bhy_p_crit alpha i n <= fdr_p_crit alpha i n)%Q.
Proof.
  intros Ha Hn. unfold bhy_p_crit, fdr_p_crit.
  pose proof (float_of_nat_pos n Hn) as Hm.
  pose proof (float_of_nat_pos (i + 1) ltac:(lia)) as Hi.
  set (m := float_of_nat n) in *. set (x := float_of_nat (i + 1)) in *.
  assert (Hinv : (0 < / m)%Q) by by apply Qinv_lt_0_compat.
  assert (Ht : (0 <= alpha * x * / m)%Q).
  { apply Qmult_le_0_compat; [apply Qmult_le_0_compat|];
      [exact Ha|by apply Qlt_le_weak..]. }
  set (t := (alpha * x * / m)%Q) in *.
  assert (Hm0 : ~ (m == 0)%Q).
  { intros E. rewrite E in Hm. by apply Qlt_irrefl in Hm. }
  assert (E1 : (alpha * x / ((81 # 10) * m) == (10 # 81) * t)%Q).
  { unfold t. field. exact Hm0. }
  assert (E2 : (alpha * x / m == 1 * t)%Q).
  { unfold t. field. exact Hm0. }
  rewrite E1, E2. apply Qmult_le_compat_r; [|exact Ht].
  unfold Qle. simpl. lia.
Qed.

(** X3: for a level that is not negative the BHY threshold is never above
    the FDR threshold of the same p-values. *)
Theorem bhy_thresh_le_fdr_thresh (p_values : list pyfloat) (alpha : Q) :
  (exists x, x ∈ p_values /\ np_isfinite x = true) ->
  (0 <= alpha)%Q ->
  exists vb vf, get_bhy_thresh p_values alpha = Ok vb /\
    get_fdr_thresh p_values alpha = Ok vf /\ py_le vb vf = true.
Proof.
  intros Hfin Ha. rewrite get_fdr_thresh_step_up, get_bhy_thresh_step_up.
  destruct (step_up_some_finite bhy_p_crit _ alpha Hfin)
    as (kb & vb & Hvb & Hkb & Hltb & _).
  destruct (step_up_some_finite fdr_p_crit _ alpha Hfin)
    as (kf & vf & Hvf & Hkf & _ & Hatf).
  exists vb, vf. split; [done|]. split; [done|].
  set (sn := sorted_finite p_values) in *.
  assert (Hb : (kb < length sn)%nat) by by eapply lookup_lt_Some.
  assert (Hfb : np_isfinite vb = true).
  { eapply sorted_finite_elem_of, list_elem_of_lookup_2, Hkb. }
  assert (Hff : np_isfinite vf = true).
  { eapply sorted_finite_elem_of, list_elem_of_lookup_2, Hkf. }
  rewrite <- sort_le_finite by done.
  assert (Hle : (kb <= kf)%nat).
  { destruct (decide (kb <= kf)%nat) as [|Hgt]; [done|exfalso].
    specialize (Hltb kf ltac:(lia)).
    assert (le_crit sn kf (fdr_p_crit alpha kf (length sn)) = true) as Hpass.
    { revert Hltb. unfold le_crit. rewrite Hkf.
      apply py_le_Fin_mono, bhy_p_crit_le_fdr; [done|lia]. }
    destruct Hatf as [Hfail|[-> _]]; [congruence|lia]. }
  destruct (decide (kb = kf)) as [->|Hne].
  - assert (vb = vf) as -> by congruence.
    destruct (sort_le_total vf vf); done.
  - eapply (StronglySorted_lookup_lt (fun a b => sort_le a b = true) sn kb kf);
      [apply sorted_finite_StronglySorted|done..|lia].
Qed.

Lemma bhy_thresh_le_fdr_thresh_witness :
  exists vb vf, get_bhy_thresh [Fin (1#1000); Fin (1#100); Fin (5#10)] (5#100) = Ok vb /\
    get_fdr_thresh [Fin (1#1000); Fin (1#100); Fin (5#10)] (5#100) = Ok vf /\
    py_le vb vf = true.
Proof.
  apply (bhy_thresh_le_fdr_thresh [Fin (1#1000); Fin (1#100); Fin (5#10)] (5#100)).
  - exists (Fin (1#1000)). split; [|reflexivity]. apply elem_of_cons; by left.
  - unfold Qle. simpl. lia.
Defined.

Lemma get_bon_thresh_count (p_values : list pyfloat) (alpha : Q) (m : nat) :
  length (filter (fun x => np_isfinite x = true) p_values) = S m ->
  get_bon_thresh p_values alpha = Ok (Fin (alpha / float_of_nat (S m))).
Proof.
  intros Hm. unfold get_bon_thresh, py_sum.
  pose proof (py_sum_val (map np_isfinite p_values) (PyInt 0)) as Hval.
  rewrite filter_map_isfinite, Hm in Hval. simpl pyint_val in Hval.
  destruct p_values as [|x l]; [done|].
  destruct (py_sum_cons_np (np_isfinite x) (map np_isfinite l) (PyInt 0)) as [k Hk].
  simpl map in *. rewrite Hk in *. simpl in Hval. subst k.
  unfold truediv, float_of_nat. simpl pyint_val.
  destruct (Z.of_nat (S m)) eqn:Hz; [lia|done..].
Qed.

(** X4: the Bonferroni threshold depends on the p-values only through the
    number of finite entries: two vectors with the same number of finite
    entries, at least one, get the same threshold, whatever their NaN
    entries and their order. *)
Theorem get_bon_thresh_depends_on_finite_count (p_values p_values' : list pyfloat)
    (alpha : Q) :
  (exists x, x ∈ p_values /\ np_isfinite x = true) ->
  length (filter (fun x => np_isfinite x = true) p_values') =
    length (filter (fun x => np_isfinite x = true) p_values) ->
  get_bon_thresh p_values' alpha = get_bon_thresh p_values alpha.
Proof.
  intros (x & Hx & Hfin) Hlen.
  destruct (length (filter (fun x => np_isfinite x = true) p_values)) as [|m] eqn:Hm.
  - assert (x ∈ filter (fun x => np_isfinite x = true) p_values) as Hin
      by by apply list_elem_of_filter.
    apply length_zero_iff_nil in Hm. rewrite Hm in Hin. by apply elem_of_nil in Hin.
  - by rewrite (get_bon_thresh_count _ _ m Hlen), (get_bon_thresh_count _ _ m Hm).
Qed.

Lemma get_bon_thresh_depends_on_finite_count_witness :
  get_bon_thresh [NaN; Fin (2#10); PInf; Fin (3#100)] (5#100) =
  get_bon_thresh [Fin (3#100); Fin (2#10)] (5#100).
Proof.
  apply get_bon_thresh_depends_on_finite_count; [|reflexivity].
  exists (Fin (3#100)). split; [|reflexivity]. apply elem_of_cons; by left.
Defined.

(** X5: without a finite entry the divisor of the Bonferroni threshold is
    zero: on the empty vector the division raises ZeroDivisionError, on a
    vector of NaN and infinite entries it yields an infinity of the sign
    of the level (NaN for a zero level). *)
Theorem get_bon_thresh_zero_divisor (p_values : list pyfloat) (alpha : Q) :
  (forall x, x ∈ p_values -> np_isfinite x = false) ->
  get_bon_thresh p_values alpha =
    match p_values with
    | [] => Raise (ZeroDivisionError "float division by zero")
    | _ => Ok (match Qcompare alpha 0 with Gt => PInf | Lt => NInf | Eq => NaN end)
    end.
Proof. apply get_bon_thresh_no_finite. Qed.

Lemma get_bon_thresh_zero_divisor_witness :
  get_bon_thresh [NaN; NaN] (5#100) = Ok PInf.
Proof.
  apply (get_bon_thresh_zero_divisor [NaN; NaN] (5#100)).
  intros x Hx. apply elem_of_cons in Hx as [->|Hx]; [reflexivity|].
  apply list_elem_of_singleton in Hx as ->. reflexivity.
Defined.

(** ** [get_imbalances] *)

(** X6: [get_imbalances] returns one entry per regression, the sign of its
    beta as the docstring tabulates it: -1 below zero, 0 for NaN, +1 above
    zero (and a zero beta stays zero). *)
Theorem get_imbalances_sign (regressions : list regression_row) :
  length (get_imbalances regressions) = length regressions /\
  forall i r, regressions !! i = Some r ->
    exists v, get_imbalances regressions !! i = Some v /\
      imbalance_of (od_beta (reg_od r)) v.
Proof.
  unfold get_imbalances, assign_where. split.
  - by rewrite !length_fmap.
  - intros i r Hr. rewrite !list_lookup_fmap, Hr. simpl.
    eexists. split; [reflexivity|].
    destruct (od_beta (reg_od r)) as [q| | |]; simpl; try reflexivity.
    destruct (Qle_bool q 0) eqn:Hq0; simpl.
    + apply Qle_bool_iff in Hq0.
      destruct (Qle_bool 0 q) eqn:H0q; simpl.
      * apply Qle_bool_iff in H0q. split; [|split]; [| |done].
        -- intros Hlt. by apply Qlt_not_le in Hlt.
        -- intros Hlt. by apply Qlt_not_le in Hlt.
      * assert (~ (0 <= q)%Q) as Hn by (rewrite <- Qle_bool_iff; congruence).
        split; [|split]; [|done|].
        -- intros Hlt. by apply Qlt_not_le in Hlt.
        -- intros Heq. destruct Hn. rewrite Heq. apply Qle_refl.
    + assert (~ (q <= 0)%Q) as Hn by (rewrite <- Qle_bool_iff; congruence).
      split; [done|split].
      * intros Hlt. destruct Hn. by apply Qlt_le_weak.
      * intros Heq. destruct Hn. rewrite Heq. apply Qle_refl.
Qed.

(** ** [Counter] *)

Lemma assoc_get_counter_add k c tt :
  assoc_get k (counter_add c tt) =
    if String.eqb k c then Some (S (default 0%nat (assoc_get k tt)))
    else assoc_get k tt.
Proof.
  induction tt as [|[k' v'] tt IH]; simpl.
  - destruct (String.eqb_spec k c); [done|]. done.
  - destruct (String.eqb_spec c k') as [->|Hck]; simpl.
    + destruct (String.eqb_spec k k') as [->|Hkk]; [done|]. done.
    + destruct (String.eqb_spec k k') as [->|Hkk].
      * destruct (String.eqb_spec k' c) as [->|]; [done|]. done.
      * exact IH.
Qed.

Lemma counter_add_keys c tt :
  (counter_add c tt).*1 = if decide (c ∈ tt.*1) then tt.*1 else tt.*1 ++ [c].
Proof.
  induction tt as [|[k' v'] tt IH]; simpl counter_add.
  - case_decide as Hin; [by apply elem_of_nil in Hin|done].
  - destruct (String.eqb_spec c k') as [->|Hck]; rewrite !fmap_cons; cbn [fst].
    + destruct (decide (k' ∈ k' :: tt.*1)) as [|Hn]; [done|].
      destruct Hn. apply elem_of_cons. by left.
    + rewrite IH. destruct (decide (c ∈ tt.*1)) as [Hin|Hn].
      * destruct (decide (c ∈ k' :: tt.*1)) as [|Hn']; [done|].
        destruct Hn'. apply elem_of_cons. by right.
      * destruct (decide (c ∈ k' :: tt.*1)) as [Hin'|]; [|done].
        apply elem_of_cons in Hin' as [?|?]; done.
Qed.

Lemma counter_add_NoDup c tt : NoDup tt.*1 -> NoDup (counter_add c tt).*1.
Proof.
  intros Hnd. rewrite counter_add_keys. destruct (decide (c ∈ tt.*1)); [done|].
  apply NoDup_app. split; [done|]. split; [|apply NoDup_singleton].
  intros x Hx Hc. apply list_elem_of_singleton in Hc as ->. done.
Qed.

Lemma counter_add_sum c tt :
  sum_list (counter_add c tt).*2 = S (sum_list tt.*2).
Proof.
  induction tt as [|[k' v'] tt IH]; simpl counter_add; [done|].
  destruct (String.eqb c k'); rewrite !fmap_cons; cbn [snd sum_list sum_list_with];
    [done|].
  rewrite IH. lia.
Qed.

Lemma Counter_snoc l c : Counter (l ++ [c]) = counter_add c (Counter l).
Proof. unfold Counter. by rewrite fold_left_app. Qed.

Lemma Counter_NoDup l : NoDup (Counter l).*1.
Proof.
  induction l as [|c l IH] using rev_ind; [constructor|].
  rewrite Counter_snoc. by apply counter_add_NoDup.
Qed.

Lemma Counter_sum l : sum_list (Counter l).*2 = length l.
Proof.
  induction l as [|c l IH] using rev_ind; [done|].
  rewrite Counter_snoc, counter_add_sum, IH, length_app. simpl. lia.
Qed.

Lemma assoc_get_Counter k l :
  assoc_get k (Counter l) =
    match length (filter (fun c => c = k) l) with
    | O => None
    | S n => Some (S n)
    end.
Proof.
  induction l as [|c l IH] using rev_ind; [done|].
  rewrite Counter_snoc, assoc_get_counter_add, filter_app, length_app, IH.
  rewrite filter_cons, filter_nil.
  destruct (String.eqb_spec k c) as [->|Hkc].
  - destruct (decide (c = c)); [|done]. simpl.
    destruct (length (filter (fun c0 => c0 = c) l)) as [|n]; simpl; f_equal; lia.
  - destruct (decide (c = k)); [by subst|]. simpl. by rewrite Nat.add_0_r.
Qed.

Lemma assoc_get_lookup {V} (tt : list (string * V)) i k v :
  NoDup tt.*1 -> tt !! i = Some (k, v) -> assoc_get k tt = Some v.
Proof.
  revert i. induction tt as [|[k' v'] tt IH]; intros i Hnd Hi; [done|].
  apply NoDup_cons in Hnd as [Hk' Hnd]. simpl.
  destruct i as [|i]; simpl in Hi.
  - injection Hi as -> ->. by rewrite String.eqb_refl.
  - destruct (String.eqb_spec k k') as [->|Hkk]; [|by eapply IH].
    destruct Hk'. apply list_elem_of_fmap. exists (k', v). split; [done|].
    by eapply list_elem_of_lookup_2.
Qed.

Lemma assoc_get_is_Some {V} (tt : list (string * V)) k :
  k ∈ tt.*1 <-> is_Some (assoc_get k tt).
Proof.
  induction tt as [|[k' v'] tt IH]; simpl.
  - split; [by intros ?%elem_of_nil|by intros [? ?]].
  - rewrite elem_of_cons. destruct (String.eqb_spec k k') as [->|Hkk].
    + split; [by eexists|by left].
    + rewrite <- IH. split; [by intros [?|?]|by right].
Qed.

Lemma Counter_keys k l : k ∈ (Counter l).*1 <-> k ∈ l.
Proof.
  rewrite assoc_get_is_Some, assoc_get_Counter.
  destruct (length (filter (fun c => c = k) l)) as [|n] eqn:Hn.
  - split; [by intros [? ?]|]. intros Hin.
    apply length_zero_iff_nil in Hn.
    assert (k ∈ filter (fun c => c = k) l) as Hf by by apply list_elem_of_filter.
    rewrite Hn in Hf. by apply elem_of_nil in Hf.
  - split; [|by eexists]. intros _.
    destruct (filter (fun c => c = k) l) as [|x f] eqn:Hf; [done|].
    assert (x ∈ filter (fun c => c = k) l) as Hx.
    { rewrite Hf. apply elem_of_cons. by left. }
    by apply list_elem_of_filter in Hx as [-> ?].
Qed.

(** ** [get_x_label_positions] *)

Lemma label_positions_snoc lines tt kv :
  fold_left (label_step lines) (tt ++ [kv]) (0%nat, []) =
  label_step lines (fold_left (label_step lines) tt (0%nat, [])) kv.
Proof. by rewrite fold_left_app. Qed.

Lemma label_positions_state lines tt :
  fst (fold_left (label_step lines) tt (0%nat, [])) = sum_list tt.*2 /\
  length (snd (fold_left (label_step lines) tt (0%nat, []))) = length tt.
Proof.
  induction tt as [|kv tt [IH1 IH2]] using rev_ind; [done|].
  rewrite label_positions_snoc.
  destruct (fold_left (label_step lines) tt (0%nat, [])) as [s acc].
  simpl in *. rewrite fmap_app, sum_list_with_app, !length_app, IH1, IH2.
  simpl. split; lia.
Qed.

Lemma span_start_snoc_lt tt kv i :
  (i <= length tt)%nat -> span_start (tt ++ [kv]) i = span_start tt i.
Proof. intros Hi. unfold span_start. by rewrite take_app_le. Qed.

Lemma span_start_length tt : span_start tt (length tt) = sum_list tt.*2.
Proof. unfold span_start. by rewrite firstn_all. Qed.

(** The position of rank [i] is the running total before the category plus
    the increment of the category. *)
Lemma label_positions_lookup lines tt i :
  snd (fold_left (label_step lines) tt (0%nat, [])) !! i =
  (fun kv => (span_start tt i + (if lines then snd kv / 2 else snd kv))%nat) <$> tt !! i.
Proof.
  revert i. induction tt as [|kv tt IH] using rev_ind; intros i; [done|].
  rewrite label_positions_snoc.
  pose proof (label_positions_state lines tt) as [Hs Hl].
  destruct (fold_left (label_step lines) tt (0%nat, [])) as [s acc].
  simpl in *. destruct (decide (i < length tt)%nat) as [Hlt|Hge].
  - rewrite lookup_app_l by lia. rewrite IH.
    rewrite lookup_app_l by done. rewrite span_start_snoc_lt by lia. done.
  - rewrite lookup_app_r by lia. rewrite (lookup_app_r tt) by lia.
    rewrite Hl. destruct (i - length tt)%nat as [|j] eqn:Hj; simpl.
    + assert (i = length tt) as -> by lia.
      rewrite span_start_snoc_lt, span_start_length by done. by rewrite Hs.
    + done.
Qed.

Lemma span_start_S tt i k v :
  tt !! i = Some (k, v) -> span_start tt (S i) = (span_start tt i + v)%nat.
Proof.
  intros Hi. unfold span_start. rewrite (take_S_r _ _ _ Hi).
  rewrite fmap_app, sum_list_with_app. simpl. lia.
Qed.

Lemma span_start_mono tt i j :
  (i <= j)%nat -> (span_start tt i <= span_start tt j)%nat.
Proof.
  intros Hij. unfold span_start.
  rewrite <- (take_drop i (take j tt)), take_take, Nat.min_l by lia.
  rewrite fmap_app, sum_list_with_app. lia.
Qed.

Lemma span_start_le tt i : (span_start tt i <= sum_list tt.*2)%nat.
Proof.
  unfold span_start. rewrite <- (take_drop i tt) at 2.
  rewrite fmap_app, sum_list_with_app. lia.
Qed.

Lemma Counter_lookup categories i k v :
  Counter categories !! i = Some (k, v) ->
  v = length (filter (fun c => c = k) categories) /\ (0 < v)%nat.
Proof.
  intros Hi. pose proof (assoc_get_lookup _ _ _ _ (Counter_NoDup categories) Hi) as Hg.
  rewrite assoc_get_Counter in Hg.
  destruct (length (filter (fun c => c = k) categories)); [done|].
  injection Hg as <-. split; [done|lia].
Qed.

(** X7: [get_x_label_positions] returns one position per distinct category,
    in the order of first occurrence.  The position of a category lies
    inside the span of ranks its members take when the categories are laid
    out one after the other: at the middle of the span with [lines] set,
    at its end without; the span is as long as the category has members. *)
Theorem label_positions_within_span (categories : list string) (lines : bool) :
  length (get_x_label_positions categories lines) = length (remove_dups categories) /\
  forall i p, get_x_label_positions categories lines !! i = Some p ->
    exists k v, Counter categories !! i = Some (k, v) /\
      v = length (filter (fun c => c = k) categories) /\ (0 < v)%nat /\
      (span_start (Counter categories) i + v <= length categories)%nat /\
      if lines
      then (span_start (Counter categories) i <= p < span_start (Counter categories) i + v)%nat
      else p = (span_start (Counter categories) i + v)%nat.
Proof.
  unfold get_x_label_positions. split.
  - rewrite (proj2 (label_positions_state lines _)).
    rewrite <- (length_fmap fst). apply Permutation_length.
    apply NoDup_Permutation; [apply Counter_NoDup|apply NoDup_remove_dups|].
    intros k. by rewrite Counter_keys, elem_of_remove_dups.
  - intros i p. rewrite label_positions_lookup.
    destruct (Counter categories !! i) as [[k v]|] eqn:Hi; [|done].
    simpl. intros [= <-]. exists k, v. split; [done|].
    destruct (Counter_lookup _ _ _ _ Hi) as [Hv Hpos].
    split; [done|]. split; [done|]. split.
    + rewrite <- (span_start_S _ _ _ _ Hi), <- Counter_sum. apply span_start_le.
    + destruct lines; [|done].
      change (fst (Nat.divmod v 1 0 1)) with (v / 2)%nat.
      pose proof (Nat.div_lt v 2 Hpos ltac:(lia)). lia.
Qed.

(** X8: the positions are strictly increasing, and without [lines] the
    last one is the number of entries of [categories]. *)
Theorem label_positions_increasing (categories : list string) (lines : bool) :
  (forall i j p q, (i < j)%nat ->
     get_x_label_positions categories lines !! i = Some p ->
     get_x_label_positions categories lines !! j = Some q -> (p < q)%nat) /\
  (lines = false -> categories ≠ [] ->
     last (get_x_label_positions categories lines) = Some (length categories)).
Proof.
  unfold get_x_label_positions. split.
  - intros i j p q Hij. rewrite !label_positions_lookup.
    destruct (Counter categories !! i) as [[k v]|] eqn:Hi; [|done].
    destruct (Counter categories !! j) as [[k' v']|] eqn:Hj; [|done].
    simpl. intros [= <-] [= <-].
    destruct (Counter_lookup _ _ _ _ Hi) as [_ Hv].
    destruct (Counter_lookup _ _ _ _ Hj) as [_ Hv'].
    pose proof (span_start_S _ _ _ _ Hi) as HS.
    pose proof (span_start_mono (Counter categories) (S i) j ltac:(lia)) as Hm.
    destruct lines.
    + change (fst (Nat.divmod v 1 0 1)) with (v / 2)%nat.
      change (fst (Nat.divmod v' 1 0 1)) with (v' / 2)%nat.
      pose proof (Nat.div_lt v 2 Hv ltac:(lia)). lia.
    + lia.
  - intros -> Hne. rewrite last_lookup.
    rewrite (proj2 (label_positions_state false _)).
    rewrite label_positions_lookup.
    destruct (Counter categories) as [|kv tt] eqn:Htt using rev_ind.
    + pose proof (Counter_sum categories) as Hs. rewrite Htt in Hs.
      simpl in Hs. destruct categories; done.
    + clear IHtt. rewrite length_app. simpl.
      replace (Init.Nat.pred (length tt + 1)) with (length tt) by lia.
      rewrite lookup_app_r by lia. rewrite Nat.sub_diag. simpl.
      rewrite span_start_snoc_lt, span_start_length by done.
      f_equal. rewrite <- Counter_sum, Htt, fmap_app, sum_list_with_app. simpl. lia.
Qed.

(** ** [display_kwargs] *)

Lemma length_dots n : String.length (dots n) = Z.to_nat n.
Proof.
  unfold dots. induction (Z.to_nat n) as [|m IH]; simpl; [done|]. by rewrite IH.
Qed.

Lemma dots_nonpositive n : n <= 0 -> dots n = "".
Proof.
  intros Hn. unfold dots. replace (Z.to_nat n) with 0%nat by lia. done.
Qed.

Lemma prefix_app k t : String.prefix k (k +:+ t) = true.
Proof.
  induction k as [|c k IH].
  - rewrite string_app_nil. by destruct t.
  - rewrite string_app_cons, prefix_cons. by destruct (ascii_dec c c).
Qed.

(** X9: [display_kwargs] prints the heading and one line per argument: the
    key, a run of dots and the value.  The dots fill the line up to 80
    characters; a key and value of 80 characters or more are printed in
    full with no dots between them. *)
Theorem display_kwargs_lines (kwargs : list (string * string)) :
  display_kwargs kwargs !! 0%nat = Some "Arguments: " /\
  length (display_kwargs kwargs) = S (length kwargs) /\
  forall i k v, kwargs !! i = Some (k, v) ->
    exists line, display_kwargs kwargs !! S i = Some line /\
      String.prefix k line = true /\
      ((String.length k + String.length v <= 80)%nat -> String.length line = 80%nat) /\
      ((80 <= String.length k + String.length v)%nat -> line = k +:+ v).
Proof.
  unfold display_kwargs. split; [done|]. split; [by rewrite length_cons, length_fmap|].
  intros i k v Hi. simpl. rewrite list_lookup_fmap, Hi. simpl.
  eexists. split; [reflexivity|]. split; [|split].
  - apply prefix_app.
  - intros Hle. rewrite !string_length_app, length_dots. lia.
  - intros Hge. rewrite dots_nonpositive by lia. done.
Qed.

(** ** More on [calculate_odds_ratio] *)

Lemma assoc_get_set_eq {V} k (v : V) l : assoc_get k (assoc_set k v l) = Some v.
Proof.
  induction l as [|[k' v'] l IH]; simpl.
  - by rewrite String.eqb_refl.
  - destruct (String.eqb_spec k k') as [->|Hne]; simpl.
    + by rewrite String.eqb_refl.
    + destruct (String.eqb_spec k k'); [done|]. exact IH.
Qed.

Lemma assoc_get_set_ne {V} k k' (v : V) l :
  k ≠ k' -> assoc_get k (assoc_set k' v l) = assoc_get k l.
Proof.
  intros Hne. induction l as [|[k2 v2] l IH]; simpl.
  - destruct (String.eqb_spec k k'); [done|]. done.
  - destruct (String.eqb_spec k' k2) as [->|Hne2]; simpl.
    + destruct (String.eqb_spec k k2); [done|]. done.
    + destruct (String.eqb_spec k k2); [done|]. exact IH.
Qed.

Lemma df_getitem_assigned data name col :
  assoc_get name (df_assigned data) = Some col -> df_getitem data name = Ok col.
Proof. intros H. unfold df_getitem. by rewrite H. Qed.

Lemma df_getitem_ext data data' name :
  df_rows data' = df_rows data ->
  assoc_get name (df_assigned data') = assoc_get name (df_assigned data) ->
  df_getitem data' name = df_getitem data name.
Proof. intros Hr Ha. unfold df_getitem. by rewrite Hr, Ha. Qed.

(** With vectors as long as the frame, the call returns a tuple, whatever
    the fit does. *)
Lemma calculate_odds_ratio_returns smf reg log10 genotypes v1 v2 covariates lr response v3 :
  length v1 = length (df_rows genotypes) ->
  length v2 = length (df_rows genotypes) ->
  length v3 = length (df_rows genotypes) ->
  exists out data res,
    calculate_odds_ratio smf reg log10 genotypes v1 v2 covariates lr response v3
      = (out, Ok (data, res)) /\
    df_rows data = df_rows genotypes.
Proof.
  intros H1 H2 H3.
  destruct (build_formula_Ok genotypes v1 v2 covariates response v3 H1 H2 H3)
    as (data & Hbuild & Hrows).
  unfold calculate_odds_ratio. rewrite Hbuild.
  destruct (try_fit _ _ _ _ _ _) as [res|e]; [by eauto|].
  destruct (is_ValueError e); eauto.
Qed.

Lemma od_of_fit_tuple log10 fit odds p od stderr :
  od_of_fit log10 fit = Ok (odds, p, od, stderr) ->
  odds = 0 /\ od_p od = p /\ od_stderr od = stderr /\
  isna (od_neg_log_p od) = isna p.
Proof.
  unfold od_of_fit, math_log10. destruct (pvalues_y fit) as [q| | |] eqn:Hp; simpl.
  - destruct (Qle_bool q 0); simpl; [done|]. by intros [= <- <- <- <-].
  - by intros [= <- <- <- <-].
  - done.
  - by intros [= <- <- <- <-].
Qed.

Lemma try_fit_tuple smf reg log10 f data lr odds p od stderr :
  try_fit smf reg log10 f data lr = Ok (odds, p, od, stderr) ->
  odds = 0 /\ od_p od = p /\ od_stderr od = stderr /\
  isna (od_neg_log_p od) = isna p.
Proof.
  unfold try_fit, mbind, result_bind.
  repeat case_match; try done; apply od_of_fit_tuple.
Qed.

(** X10: the tuple [calculate_odds_ratio] returns is coherent in every
    case: the odds entry is 0, [p] and [stderr] are the entries of [od]
    of the same name, and [-log10(p)] is NaN exactly when [p] is; and
    whenever the call prints a line, the tuple is the NaN sentinel. *)
Theorem calculate_odds_ratio_tuple
    (smf_logit_fit : option string -> string -> DataFrame -> result fit_result)
    (sm_Logit_fit_regularized : list Q -> list (string * list Q) -> Q -> result fit_result)
    (log10 : Q -> Q) (genotypes : DataFrame) (phen_vector1 phen_vector2 : list Q)
    (covariates : string) (lr : Z) (response : string) (phen_vector3 : list Q)
    (out : list string) (data : DataFrame) (odds : Z) (p : pyfloat) (od : od_row)
    (stderr : pyfloat) :
  calculate_odds_ratio smf_logit_fit sm_Logit_fit_regularized log10 genotypes
    phen_vector1 phen_vector2 covariates lr response phen_vector3
    = (out, Ok (data, (odds, p, od, stderr))) ->
  odds = 0 /\ od_p od = p /\ od_stderr od = stderr /\
  isna (od_neg_log_p od) = isna p /\
  (out ≠ [] -> (odds, p, od, stderr) = sentinel_res).
Proof.
  unfold calculate_odds_ratio.
  destruct (build_formula _ _ _ _ _ _) as [[data' f]|]; [|done].
  destruct (try_fit _ _ _ _ _ _) as [res|e] eqn:Hfit.
  - intros [= <- <- ->]. apply try_fit_tuple in Hfit as (? & ? & ? & ?). done.
  - destruct (is_ValueError e); intros [= <- <- <- <- <- <-]; done.
Qed.

Lemma calculate_odds_ratio_tuple_witness :
  exists out data odds p od stderr,
    calculate_odds_ratio Sample.smf_fits Sample.regularized_fits Sample.log10
      Sample.frame [1; 0]%Q [50; 60]%Q "" 0 "" [0; 0]%Q
      = (out, Ok (data, (odds, p, od, stderr))) /\
    odds = 0 /\ od_p od = p /\ od_stderr od = stderr.
Proof.
  do 6 eexists. split; [reflexivity|].
  destruct (calculate_odds_ratio_tuple Sample.smf_fits Sample.regularized_fits
              Sample.log10 Sample.frame [1; 0]%Q [50; 60]%Q "" 0 "" [0; 0]%Q
              _ _ _ _ _ _ eq_refl) as (H0 & Hp & Hs & _).
  split; [exact H0|]. split; [exact Hp|exact Hs].
Defined.

(** X11: a fit that reports a p-value of zero or below (an underflow to
    0.0) does not yield a row: [math.log10] raises ValueError, the handler
    prints [math domain error] and the line with the mode, and the NaN
    sentinel is returned, for the formula fits of every mode but 1. *)
Theorem zero_p_value_gives_sentinel
    (smf_logit_fit : option string -> string -> DataFrame -> result fit_result)
    (sm_Logit_fit_regularized : list Q -> list (string * list Q) -> Q -> result fit_result)
    (log10 : Q -> Q) (genotypes : DataFrame) (phen_vector1 phen_vector2 : list Q)
    (covariates : string) (lr : Z) (response : string) (phen_vector3 : list Q) :
  length phen_vector1 = length (df_rows genotypes) ->
  length phen_vector2 = length (df_rows genotypes) ->
  length phen_vector3 = length (df_rows genotypes) ->
  lr ≠ 1 ->
  exists data f,
    build_formula genotypes phen_vector1 phen_vector2 covariates response phen_vector3
      = Ok (data, f) /\
    forall fit q,
      smf_logit_fit (if decide (lr = 0) then None else Some "bfgs") f data = Ok fit ->
      pvalues_y fit = Fin q -> (q <= 0)%Q ->
      calculate_odds_ratio smf_logit_fit sm_Logit_fit_regularized log10 genotypes
        phen_vector1 phen_vector2 covariates lr response phen_vector3
      = (["math domain error"; "lr = " +:+ fmt_space_d lr], Ok (data, sentinel_res)).
Proof.
  intros H1 H2 H3 Hlr.
  destruct (build_formula_Ok genotypes phen_vector1 phen_vector2 covariates response
              phen_vector3 H1 H2 H3) as (data & Hbuild & _).
  exists data, (formula_of covariates response phen_vector3). split; [done|].
  intros fit q Hfit Hp Hq. unfold calculate_odds_ratio. rewrite Hbuild.
  assert (try_fit smf_logit_fit sm_Logit_fit_regularized log10
            (formula_of covariates response phen_vector3) data lr
          = Raise (ValueError "math domain error")) as ->; [|done].
  unfold try_fit. destruct (decide (lr = 0)) as [->|Hlr0].
  - rewrite Hfit. simpl. unfold od_of_fit, math_log10. rewrite Hp.
    apply Qle_bool_iff in Hq. by rewrite Hq.
  - destruct (decide (lr = 1)); [done|].
    rewrite Hfit. simpl. unfold od_of_fit, math_log10. rewrite Hp.
    apply Qle_bool_iff in Hq. by rewrite Hq.
Qed.

Lemma zero_p_value_gives_sentinel_witness :
  calculate_odds_ratio
    (fun _ _ _ => Ok {| pvalues_y := Fin 0; params_y := Fin 40; bse_y := Fin 1;
                        conf_int_y := (Fin 38, Fin 42) |})
    Sample.regularized_fits Sample.log10
    Sample.frame [1; 0]%Q [50; 60]%Q "" 0 "" [0; 0]%Q
  = (["math domain error"; "lr =  0"],
     Ok ({| df_rows := df_rows Sample.frame;
            df_assigned := [("y", [1; 0]%Q); ("MaxAgeAtICD", [50; 60]%Q)] |},
         sentinel_res)).
Proof.
  destruct (zero_p_value_gives_sentinel
              (fun _ _ _ => Ok {| pvalues_y := Fin 0; params_y := Fin 40; bse_y := Fin 1;
                                  conf_int_y := (Fin 38, Fin 42) |})
              Sample.regularized_fits Sample.log10 Sample.frame [1; 0]%Q [50; 60]%Q
              "" 0 "" [0; 0]%Q eq_refl eq_refl eq_refl)
    as (data & f & Hbuild & Hzero); [discriminate|].
  injection Hbuild as <- <-.
  apply (Hzero _ 0%Q eq_refl eq_refl). unfold Qle. simpl. lia.
Defined.

(** X12: the frame handed in is the frame worked on: on return its columns
    [y] and [MaxAgeAtICD] hold the vectors of this call, whatever an earlier
    call left there, [phe] holds the third vector when that has a nonzero
    entry and is left as it was otherwise, and the rows and every other
    column are untouched. *)
Theorem scratch_columns_overwritten
    (smf_logit_fit : option string -> string -> DataFrame -> result fit_result)
    (sm_Logit_fit_regularized : list Q -> list (string * list Q) -> Q -> result fit_result)
    (log10 : Q -> Q) (genotypes : DataFrame) (phen_vector1 phen_vector2 : list Q)
    (covariates : string) (lr : Z) (response : string) (phen_vector3 : list Q) :
  length phen_vector1 = length (df_rows genotypes) ->
  length phen_vector2 = length (df_rows genotypes) ->
  length phen_vector3 = length (df_rows genotypes) ->
  exists out data res,
    calculate_odds_ratio smf_logit_fit sm_Logit_fit_regularized log10 genotypes
      phen_vector1 phen_vector2 covariates lr response phen_vector3
      = (out, Ok (data, res)) /\
    df_rows data = df_rows genotypes /\
    df_getitem data "y" = Ok phen_vector1 /\
    df_getitem data "MaxAgeAtICD" = Ok phen_vector2 /\
    df_getitem data "phe" =
      (if np_any phen_vector3 then Ok phen_vector3 else df_getitem genotypes "phe") /\
    forall name, name ≠ "y" -> name ≠ "MaxAgeAtICD" -> name ≠ "phe" ->
      df_getitem data name = df_getitem genotypes name.
Proof.
  intros H1 H2 H3.
  set (d2 := {| df_rows := df_rows genotypes;
                df_assigned := assoc_set "MaxAgeAtICD" phen_vector2
                                 (assoc_set "y" phen_vector1 (df_assigned genotypes)) |}).
  set (d3 := {| df_rows := df_rows genotypes;
                df_assigned := assoc_set "phe" phen_vector3 (df_assigned d2) |}).
  assert (Hbuild : build_formula genotypes phen_vector1 phen_vector2 covariates response
                     phen_vector3
                   = Ok (if np_any phen_vector3 then d3 else d2,
                         formula_of covariates response phen_vector3)).
  { unfold build_formula, formula_of.
    rewrite df_setitem_Ok by done. simpl.
    rewrite df_setitem_Ok by done. simpl.
    destruct (negb (String.eqb response "")), (np_any phen_vector3);
      rewrite ?df_setitem_Ok by done; done. }
  assert (exists out res,
    calculate_odds_ratio smf_logit_fit sm_Logit_fit_regularized log10 genotypes
      phen_vector1 phen_vector2 covariates lr response phen_vector3
      = (out, Ok (if np_any phen_vector3 then d3 else d2, res))) as (out & res & Hcall).
  { unfold calculate_odds_ratio. rewrite Hbuild.
    destruct (try_fit _ _ _ _ _ _) as [res|e]; [by eauto|].
    destruct (is_ValueError e); eauto. }
  exists out, (if np_any phen_vector3 then d3 else d2), res.
  split; [done|]. split; [by destruct (np_any phen_vector3)|].
  assert (Hy2 : assoc_get "y" (df_assigned d2) = Some phen_vector1).
  { unfold d2. simpl. rewrite assoc_get_set_ne by done. apply assoc_get_set_eq. }
  assert (Hm2 : assoc_get "MaxAgeAtICD" (df_assigned d2) = Some phen_vector2).
  { unfold d2. simpl. apply assoc_get_set_eq. }
  split; [|split; [|split]].
  - apply df_getitem_assigned. destruct (np_any phen_vector3); [|done].
    unfold d3. simpl df_assigned. by rewrite assoc_get_set_ne.
  - apply df_getitem_assigned. destruct (np_any phen_vector3); [|done].
    unfold d3. simpl df_assigned. by rewrite assoc_get_set_ne.
  - destruct (np_any phen_vector3).
    + apply df_getitem_assigned. unfold d3. simpl. apply assoc_get_set_eq.
    + apply df_getitem_ext; [done|]. unfold d2. simpl.
      by rewrite !assoc_get_set_ne.
  - intros name Hy Hm Hp. apply df_getitem_ext; [by destruct (np_any phen_vector3)|].
    destruct (np_any phen_vector3); unfold d3, d2; simpl;
      by rewrite !assoc_get_set_ne.
Qed.

Lemma scratch_columns_overwritten_witness :
  exists out data res,
    calculate_odds_ratio Sample.smf_fits Sample.regularized_fits Sample.log10
      {| df_rows := df_rows Sample.frame;
         df_assigned := [("y", [7; 7]%Q); ("phe", [1; 1]%Q)] |}
      [1; 0]%Q [50; 60]%Q "" 0 "" [0; 0]%Q
      = (out, Ok (data, res)) /\
    df_getitem data "y" = Ok [1; 0]%Q /\
    df_getitem data "phe" = Ok [1; 1]%Q.
Proof.
  destruct (scratch_columns_overwritten Sample.smf_fits Sample.regularized_fits
              Sample.log10
              {| df_rows := df_rows Sample.frame;
                 df_assigned := [("y", [7; 7]%Q); ("phe", [1; 1]%Q)] |}
              [1; 0]%Q [50; 60]%Q "" 0 "" [0; 0]%Q eq_refl eq_refl eq_refl)
    as (out & data & res & Hcall & _ & Hy & _ & Hphe & _).
  exists out, data, res. split; [done|]. split; [done|]. exact Hphe.
Defined.




(** ** The regularized fit with the default response *)

Lemma split_from_cons sep c s :
  split_from sep 0 (String c s) =
    if String.prefix sep (String c s)
    then "" :: split_from sep (String.length sep - 1) s
    else match split_from sep 0 s with
         | h :: t => String c h :: t
         | [] => [String c ""]
         end.
Proof. reflexivity. Qed.

Lemma split_tilde_cons c s :
  c ≠ " "%char ->
  split_from " ~ " 0 (String c s) =
    match split_from " ~ " 0 s with
    | h :: t => String c h :: t
    | [] => [String c ""]
    end.
Proof.
  intros Hc. rewrite split_from_cons, prefix_cons.
  destruct (ascii_dec " " c) as [<-|_]; done.
Qed.

Lemma split_plus_cons c s :
  c ≠ "+"%char ->
  split_from "+" 0 (String c s) =
    match split_from "+" 0 s with
    | h :: t => String c h :: t
    | [] => [String c ""]
    end.
Proof.
  intros Hc. rewrite split_from_cons, prefix_cons.
  destruct (ascii_dec "+" c) as [<-|_]; done.
Qed.

Lemma split_plus_sep s : split_from "+" 0 (String "+" s) = "" :: split_from "+" 0 s.
Proof.
  rewrite split_from_cons, prefix_cons.
  destruct (ascii_dec "+" "+"); [|done]. by destruct s.
Qed.

Lemma split_genotype rest :
  occurs " ~ " rest = false ->
  py_split " ~ " ("genotype ~ " +:+ rest) = ["genotype"; rest].
Proof.
  intros Hocc. unfold py_split.
  repeat rewrite string_app_cons. rewrite string_app_nil.
  rewrite !split_tilde_cons by discriminate.
  rewrite split_from_cons, !prefix_cons.
  destruct (ascii_dec " " " "); [|done].
  destruct (ascii_dec "~" "~"); [|done].
  assert (String.prefix "" rest = true) as -> by by destruct rest.
  simpl. pose proof (py_split_no_occurrence _ _ Hocc) as Hs.
  unfold py_split in Hs. by rewrite Hs.
Qed.

(** X14: with the default response the regularized path (mode 1) splits
    the formula as intended: the model regresses the column [genotype] on
    the columns [y], [phe] when the third vector is in use, and the
    covariates named between the [+] signs, blanks removed; there is no
    intercept column. *)
Theorem regularized_default_response_columns
    (smf_logit_fit : option string -> string -> DataFrame -> result fit_result)
    (sm_Logit_fit_regularized : list Q -> list (string * list Q) -> Q -> result fit_result)
    (log10 : Q -> Q) (genotypes : DataFrame) (phen_vector1 phen_vector2 : list Q)
    (covariates : string) (phen_vector3 : list Q) :
  occurs " ~ " covariates = false ->
  length phen_vector1 = length (df_rows genotypes) ->
  length phen_vector2 = length (df_rows genotypes) ->
  length phen_vector3 = length (df_rows genotypes) ->
  exists data f,
    build_formula genotypes phen_vector1 phen_vector2 covariates "" phen_vector3
      = Ok (data, f) /\
    try_fit smf_logit_fit sm_Logit_fit_regularized log10 f data 1 =
      (endog ← df_getitem data "genotype";
       exog ← df_getitems data
                ("y" :: (if np_any phen_vector3 then ["phe"] else []) ++
                 (if String.eqb covariates "" then []
                  else py_split "+" (remove_spaces covariates)));
       lf ← sm_Logit_fit_regularized endog exog (1 # 10);
       od_of_fit log10 lf).
Proof.
  intros Hocc H1 H2 H3.
  destruct (build_formula_Ok genotypes phen_vector1 phen_vector2 covariates ""
              phen_vector3 H1 H2 H3) as (data & Hbuild & _).
  exists data, (formula_of covariates "" phen_vector3). split; [done|].
  unfold try_fit. simpl decide. cbv iota.
  set (cov' := if String.eqb covariates "" then covariates else "+" +:+ covariates).
  assert (Hcov' : occurs " ~ " cov' = false).
  { unfold cov'. destruct (String.eqb covariates ""); [done|].
    rewrite string_app_cons, string_app_nil. occurs_false. done. }
  assert (Hrem : split_from "+" 0 (remove_spaces cov') =
                 "" :: (if String.eqb covariates "" then []
                        else py_split "+" (remove_spaces covariates))).
  { unfold cov'. destruct (String.eqb_spec covariates "") as [->|Hne]; [done|].
    rewrite string_app_cons, string_app_nil.
    change (remove_spaces (String "+" covariates))
      with (String "+" (remove_spaces covariates)).
    by rewrite split_plus_sep. }
  unfold formula_of. fold cov'. simpl negb. cbv iota.
  destruct (np_any phen_vector3).
  - change ("genotype ~ y + phe" +:+ cov') with ("genotype ~ " +:+ ("y + phe" +:+ cov')).
    rewrite split_genotype.
    2:{ repeat rewrite string_app_cons. rewrite string_app_nil. occurs_false. done. }
    simpl lookup. cbv iota. unfold mbind at 1 2, result_bind at 1 2.
    change (py_strip "genotype") with "genotype".
    replace (py_split "+" (remove_spaces ("y + phe" +:+ cov')))
      with ("y" :: "phe" :: (if String.eqb covariates "" then []
                             else py_split "+" (remove_spaces covariates))); [done|].
    unfold py_split at 2. repeat rewrite string_app_cons. rewrite string_app_nil.
    change (remove_spaces (String "y" (String " " (String "+" (String " "
              (String "p" (String "h" (String "e" cov'))))))))
      with (String "y" (String "+" (String "p" (String "h" (String "e"
              (remove_spaces cov')))))).
    rewrite split_plus_cons by discriminate. rewrite split_plus_sep.
    rewrite !split_plus_cons by discriminate. by rewrite Hrem.
  - change ("genotype ~ y" +:+ cov') with ("genotype ~ " +:+ ("y" +:+ cov')).
    rewrite split_genotype.
    2:{ repeat rewrite string_app_cons. rewrite string_app_nil. occurs_false. done. }
    simpl lookup. cbv iota. unfold mbind at 1 2, result_bind at 1 2.
    change (py_strip "genotype") with "genotype".
    replace (py_split "+" (remove_spaces ("y" +:+ cov')))
      with ("y" :: (if String.eqb covariates "" then []
                    else py_split "+" (remove_spaces covariates))); [done|].
    unfold py_split at 2. repeat rewrite string_app_cons. rewrite string_app_nil.
    change (remove_spaces (String "y" cov')) with (String "y" (remove_spaces cov')).
    rewrite split_plus_cons by discriminate. by rewrite Hrem.
Qed.

Lemma regularized_default_response_columns_witness :
  exists data f,
    build_formula Sample.frame [1; 0]%Q [50; 60]%Q "resp + MaxAgeAtVisit" "" [0; 0]%Q
      = Ok (data, f) /\
    try_fit Sample.smf_fits Sample.regularized_fits Sample.log10 f data 1 =
      (endog ← df_getitem data "genotype";
       exog ← df_getitems data ["y"; "resp"; "MaxAgeAtVisit"];
       lf ← Sample.regularized_fits endog exog (1 # 10);
       od_of_fit Sample.log10 lf).
Proof.
  apply (regularized_default_response_columns Sample.smf_fits Sample.regularized_fits
           Sample.log10 Sample.frame [1; 0]%Q [50; 60]%Q "resp + MaxAgeAtVisit" [0; 0]%Q);
    reflexivity.
Defined.

(** ** More on [run_phewas] *)

Lemma String_leb_total a b : String.leb a b = true \/ String.leb b a = true.
Proof. destruct (String.leb_total a b) as [->| ->]; auto. Qed.

Lemma String_leb_trans a b c :
  String.leb a b = true -> String.leb b c = true -> String.leb a c = true.
Proof.
  intros Hab%Is_true_true Hbc%Is_true_true. apply Is_true_true.
  change (String.le a c). by trans b.
Qed.

Lemma sort_by_sorted {A} (le : A -> A -> bool) l :
  StronglySorted (fun a b => le a b = true) l -> sort_by le l = l.
Proof.
  induction 1 as [|x l Hs IH Hall]; [done|].
  simpl. rewrite IH. destruct l as [|y l]; [done|].
  simpl. by rewrite (Forall_inv Hall).
Qed.

Lemma length_column (m : matrix) j : length (column m j) = length m.
Proof. unfold column. by rewrite length_fmap. Qed.

Lemma length_sort_subjects df : length (sort_subjects df) = length df.
Proof. unfold sort_subjects. by rewrite sort_by_Permutation. Qed.

Section RunPhewasFacts.
Variable smf_logit_fit : option string -> string -> DataFrame -> result fit_result.
Variable sm_Logit_fit_regularized :
  list Q -> list (string * list Q) -> Q -> result fit_result.
Variable log10 : Q -> Q.
Variable phewas_codes : list (string * string).
Variables icd9_codes icd10_codes : list (string * string).
Variable fm : feature_matrix.
Variable inds : list nat.
Variables covariates response : string.

Let step := regress_index smf_logit_fit sm_Logit_fit_regularized log10
              phewas_codes icd9_codes icd10_codes fm inds covariates response.

Lemma get_phewas_info_Ok index code name r9 r10 :
  get_phewas_info phewas_codes icd9_codes icd10_codes index = Ok (code, name, r9, r10) ->
  phewas_codes !! index = Some (code, name) /\
  r9 = String.concat "/" (fst <$> filter (fun c => snd c = code) icd9_codes) /\
  r10 = String.concat "/" (fst <$> filter (fun c => snd c = code) icd10_codes).
Proof.
  unfold get_phewas_info. destruct (phewas_codes !! index) as [[c n]|]; [|done].
  by intros [= <- <- <- <-].
Qed.

Lemma get_phewas_info_in_range index :
  (index < length phewas_codes)%nat ->
  exists info, get_phewas_info phewas_codes icd9_codes icd10_codes index = Ok info.
Proof.
  intros Hlt. unfold get_phewas_info.
  destruct (lookup_lt_is_Some_2 phewas_codes index Hlt) as [[c n] ->]. eauto.
Qed.

Lemma get_phewas_info_out_of_range index :
  (length phewas_codes <= index)%nat ->
  get_phewas_info phewas_codes icd9_codes icd10_codes index
    = Raise (KeyError (pretty index)).
Proof.
  intros Hge. unfold get_phewas_info. by rewrite lookup_ge_None_2.
Qed.

Lemma regression_at_skipped genotypes index out data res :
  regression_at smf_logit_fit sm_Logit_fit_regularized log10 fm genotypes inds
    covariates response index = (out, Ok (data, res)) ->
  (count_positive (column (fm0 fm) index) <= 5)%nat ->
  res = sentinel_res.
Proof.
  unfold regression_at. intros Hat Hle.
  destruct (Nat.ltb_spec 5 (count_positive (column (fm0 fm) index))); [lia|].
  by injection Hat as _ _ <-.
Qed.

Lemma regression_at_returns genotypes index :
  length (fm0 fm) = length (df_rows genotypes) ->
  length (fm1 fm) = length (df_rows genotypes) ->
  length (fm2 fm) = length (df_rows genotypes) ->
  exists out data res,
    regression_at smf_logit_fit sm_Logit_fit_regularized log10 fm genotypes inds
      covariates response index = (out, Ok (data, res)) /\
    df_rows data = df_rows genotypes.
Proof.
  intros H0 H1 H2. unfold regression_at.
  destruct (5 <? _)%nat; [|by eauto 6].
  destruct (decide (index ∈ inds));
    apply calculate_odds_ratio_returns; by rewrite length_column.
Qed.

Lemma step_raised st index : ps_raised st ≠ None -> step st index = st.
Proof.
  intros Hr. unfold step, regress_index. by destruct (ps_raised st).
Qed.

Lemma loop_raised idxs st :
  ps_raised st ≠ None -> fold_left step idxs st = st.
Proof.
  induction idxs as [|i idxs IH]; intros Hr; [done|].
  simpl. rewrite step_raised by done. by apply IH.
Qed.

(** A turn of the loop adds at most one row: the row of the table for this
    index, and one with a p-value only if the column passed the count. *)
Lemma step_rows st index :
  regressions (step st index) = regressions st \/
  exists r, regressions (step st index) = regressions st ++ [r] /\
    row_of_index phewas_codes icd9_codes icd10_codes r index /\
    (isna (od_p (reg_od r)) = false ->
     (5 < count_positive (column (fm0 fm) index))%nat).
Proof.
  unfold step, regress_index. destruct (ps_raised st); [by left|].
  destruct (regression_at _ _ _ _ _ _ _ _ _) as [out [[data res]|e]] eqn:Hat;
    [|by left].
  destruct (get_phewas_info _ _ _ _) as [[[[c n] r9] r10]|e] eqn:Hinfo; [|by left].
  right. eexists. split; [done|].
  apply get_phewas_info_Ok in Hinfo as (Hc & -> & ->). split; [done|].
  simpl. intros Hp.
  destruct (decide (5 < count_positive (column (fm0 fm) index))%nat) as [|Hle]; [done|].
  rewrite (regression_at_skipped _ _ _ _ _ Hat) in Hp by lia. done.
Qed.

Lemma loop_rows idxs : forall st r,
  r ∈ regressions (fold_left step idxs st) ->
  r ∈ regressions st \/
  exists index, index ∈ idxs /\
    row_of_index phewas_codes icd9_codes icd10_codes r index /\
    (isna (od_p (reg_od r)) = false ->
     (5 < count_positive (column (fm0 fm) index))%nat).
Proof.
  induction idxs as [|i idxs IH]; intros st r Hr; [by left|].
  simpl in Hr. apply IH in Hr as [Hr|(index & Hin & Hrow)].
  - destruct (step_rows st i) as [Heq|(r' & Heq & Hrow)]; rewrite Heq in Hr.
    + by left.
    + apply elem_of_app in Hr as [Hr|Hr]; [by left|].
      apply list_elem_of_singleton in Hr as ->.
      right. exists i. split; [apply elem_of_cons; by left|done].
  - right. exists index. split; [apply elem_of_cons; by right|done].
Qed.

(** With layers as long as the frame and indices inside the code table, a
    turn of the loop does not raise. *)
Lemma step_returns st index :
  ps_raised st = None ->
  length (fm0 fm) = length (df_rows (ps_data st)) ->
  length (fm1 fm) = length (df_rows (ps_data st)) ->
  length (fm2 fm) = length (df_rows (ps_data st)) ->
  (index < length phewas_codes)%nat ->
  ps_raised (step st index) = None /\
  df_rows (ps_data (step st index)) = df_rows (ps_data st) /\
  length (regressions (step st index)) = S (length (regressions st)).
Proof.
  intros Hr H0 H1 H2 Hlt. unfold step, regress_index. rewrite Hr.
  destruct (regression_at_returns (ps_data st) index H0 H1 H2)
    as (out & data & res & -> & Hrows).
  destruct (get_phewas_info_in_range index Hlt) as [[[[c n] r9] r10] ->].
  simpl. rewrite length_app. simpl. split; [done|]. split; [done|lia].
Qed.

Lemma loop_returns idxs : forall st,
  ps_raised st = None ->
  length (fm0 fm) = length (df_rows (ps_data st)) ->
  length (fm1 fm) = length (df_rows (ps_data st)) ->
  length (fm2 fm) = length (df_rows (ps_data st)) ->
  (forall i, i ∈ idxs -> (i < length phewas_codes)%nat) ->
  ps_raised (fold_left step idxs st) = None /\
  df_rows (ps_data (fold_left step idxs st)) = df_rows (ps_data st) /\
  length (regressions (fold_left step idxs st)) =
    (length (regressions st) + length idxs)%nat.
Proof.
  induction idxs as [|i idxs IH]; intros st Hr H0 H1 H2 Hin.
  - simpl. split; [done|]. split; [done|lia].
  - destruct (step_returns st i Hr H0 H1 H2) as (Hr' & Hrows & Hlen).
    { apply Hin, elem_of_cons. by left. }
    simpl. destruct (IH (step st i)) as (? & ? & ?); try congruence.
    { intros j Hj. apply Hin, elem_of_cons. by right. }
    split; [done|]. split; [congruence|]. simpl. lia.
Qed.

(** The turn for an index past the end of the code table raises KeyError. *)
Lemma step_key_error st index :
  ps_raised st = None ->
  length (fm0 fm) = length (df_rows (ps_data st)) ->
  length (fm1 fm) = length (df_rows (ps_data st)) ->
  length (fm2 fm) = length (df_rows (ps_data st)) ->
  (length phewas_codes <= index)%nat ->
  ps_raised (step st index) = Some (KeyError (pretty index)).
Proof.
  intros Hr H0 H1 H2 Hge. unfold step, regress_index. rewrite Hr.
  destruct (regression_at_returns (ps_data st) index H0 H1 H2)
    as (out & data & res & -> & Hrows).
  by rewrite get_phewas_info_out_of_range.
Qed.
End RunPhewasFacts.

Lemma dropna_sorted_elem_of r regs :
  r ∈ dropna_sorted regs <-> r ∈ regs /\ isna (od_p (reg_od r)) = false.
Proof.
  unfold dropna_sorted. rewrite sort_by_elem_of, list_elem_of_filter. tauto.
Qed.

Lemma dropna_sorted_length regs : (length (dropna_sorted regs) <= length regs)%nat.
Proof.
  unfold dropna_sorted. rewrite sort_by_Permutation. apply length_filter.
Qed.

Lemma dropna_sorted_StronglySorted regs :
  StronglySorted (fun a b => String.leb (reg_code a) (reg_code b) = true)
    (dropna_sorted regs).
Proof.
  apply (sort_by_StronglySorted (fun a b => String.leb (reg_code a) (reg_code b))).
  - intros x y. apply String_leb_total.
  - intros x y z. apply String_leb_trans.
Qed.

(** The start of [run_phewas] on a matrix whose rows match the frame. *)
Lemma run_phewas_start fm genotypes P :
  (0 < length genotypes)%nat ->
  shape (length genotypes) P (fm0 fm) ->
  exists inds,
    (num_phecodes ← match fm0 fm with
                    | row :: _ => Ok (length row)
                    | [] => Raise (IndexError "index 0 is out of bounds for axis 0 with size 0")
                    end;
     inds ← separated_indices fm (sort_subjects genotypes) num_phecodes;
     Ok (num_phecodes, inds)) = Ok (P, inds).
Proof.
  intros HN Hshape. pose proof Hshape as [Hlen Hrows].
  destruct (fm0 fm) as [|row m0] eqn:H0; [simpl in Hlen; lia|].
  assert (length row = P) as ->. { by apply Forall_inv in Hrows. }
  destruct (separated_indices_spec fm (sort_subjects genotypes) P)
    as (inds & Hinds & _).
  { rewrite length_sort_subjects, H0. done. }
  exists inds. simpl. by rewrite Hinds.
Qed.

(** X15: on a matrix whose three layers have one row per subject of a
    group file that is not empty, and no more columns than the code table
    has rows, [run_phewas] returns a table whatever the fits do: a fit that
    fails costs its row, never the run.  The table has at most one row per
    column. *)
Theorem run_phewas_returns
    (smf_logit_fit : option string -> string -> DataFrame -> result fit_result)
    (sm_Logit_fit_regularized : list Q -> list (string * list Q) -> Q -> result fit_result)
    (log10 : Q -> Q) (phewas_codes icd9_codes icd10_codes : list (string * string))
    (fm : feature_matrix) (genotypes : list subject) (covariates : string)
    (reg_type : Z) (response phewas_cov : string) (P : nat) :
  (0 < length genotypes)%nat ->
  shape (length genotypes) P (fm0 fm) ->
  length (fm1 fm) = length genotypes ->
  length (fm2 fm) = length genotypes ->
  (P <= length phewas_codes)%nat ->
  exists rows,
    snd (run_phewas smf_logit_fit sm_Logit_fit_regularized log10 phewas_codes
           icd9_codes icd10_codes fm genotypes covariates reg_type response phewas_cov)
      = Ok rows /\
    (length rows <= P)%nat.
Proof.
  intros HN Hshape H1 H2 HP. unfold run_phewas.
  destruct (run_phewas_start fm genotypes P HN Hshape) as [inds ->].
  destruct (loop_returns smf_logit_fit sm_Logit_fit_regularized log10 phewas_codes
              icd9_codes icd10_codes fm inds covariates response (seq 0 P)
              {| ps_data := {| df_rows := sort_subjects genotypes; df_assigned := [] |};
                 regressions := []; ps_stdout := ["Sorting group data..."];
                 ps_raised := None |}) as (Hr & _ & Hlen);
    simpl; rewrite ?length_sort_subjects; try done.
  { by destruct Hshape. }
  { intros i [_ Hi]%elem_of_seq. lia. }
  simpl. rewrite Hr. eexists. split; [done|].
  etrans; [apply dropna_sorted_length|]. rewrite Hlen, length_seq. simpl. lia.
Qed.

Lemma run_phewas_returns_witness :
  exists rows,
    snd (run_phewas Sample.smf_separation Sample.regularized_fits Sample.log10
           [("008", "Intestinal infection")] [] []
           {| fm0 := [[1]; [0]]%Q; fm1 := [[50]; [60]]%Q; fm2 := [[0]; [0]]%Q |}
           (df_rows Sample.frame) "" 0 "" "")
      = Ok rows /\
    (length rows <= 1)%nat.
Proof.
  apply (run_phewas_returns Sample.smf_separation Sample.regularized_fits Sample.log10
           [("008", "Intestinal infection")] [] []
           {| fm0 := [[1]; [0]]%Q; fm1 := [[50]; [60]]%Q; fm2 := [[0]; [0]]%Q |}
           (df_rows Sample.frame) "" 0 "" "" 1%nat); simpl; try lia; try reflexivity.
  split; [reflexivity|]. repeat constructor.
Defined.

(** X16: every row of the table [run_phewas] returns has a p-value that is
    not NaN and stems from a column of the matrix with at least 6 positive
    entries; it carries the code, the name and the ICD rollups of the row
    of the code table at the position of the column; and the rows are in
    the order of their codes. *)
Theorem run_phewas_rows
    (smf_logit_fit : option string -> string -> DataFrame -> result fit_result)
    (sm_Logit_fit_regularized : list Q -> list (string * list Q) -> Q -> result fit_result)
    (log10 : Q -> Q) (phewas_codes icd9_codes icd10_codes : list (string * string))
    (fm : feature_matrix) (genotypes : list subject) (covariates : string)
    (reg_type : Z) (response phewas_cov : string) (rows : list regression_row) :
  snd (run_phewas smf_logit_fit sm_Logit_fit_regularized log10 phewas_codes
         icd9_codes icd10_codes fm genotypes covariates reg_type response phewas_cov)
    = Ok rows ->
  StronglySorted (fun a b => String.leb (reg_code a) (reg_code b) = true) rows /\
  forall r, r ∈ rows ->
    isna (od_p (reg_od r)) = false /\
    exists index,
      row_of_index phewas_codes icd9_codes icd10_codes r index /\
      (6 <= count_positive (column (fm0 fm) index))%nat.
Proof.
  unfold run_phewas.
  destruct (_ ≫= _) as [[num_phecodes inds]|e]; [|done].
  simpl. destruct (ps_raised _); [done|]. intros [= <-].
  split; [apply dropna_sorted_StronglySorted|].
  intros r [Hr Hp]%dropna_sorted_elem_of. split; [done|].
  apply loop_rows in Hr as [Hr|(index & _ & Hrow & Hcount)].
  - by apply elem_of_nil in Hr.
  - exists index. split; [done|]. specialize (Hcount Hp). lia.
Qed.

Lemma run_phewas_rows_witness :
  exists rows,
    snd (run_phewas Sample.smf_fits Sample.regularized_fits Sample.log10
           [("008", "Intestinal infection")] [("008.5", "008")] []
           {| fm0 := [[1]; [1]; [1]; [1]; [1]; [1]]%Q;
              fm1 := [[50]; [60]; [50]; [60]; [50]; [60]]%Q;
              fm2 := [[0]; [0]; [0]; [0]; [0]; [0]]%Q |}
           (df_rows Sample.frame ++ df_rows Sample.frame ++ df_rows Sample.frame)
           "" 0 "" "")
      = Ok rows /\
    forall r, r ∈ rows -> isna (od_p (reg_od r)) = false.
Proof.
  eexists. split; [vm_compute; reflexivity|].
  intros r Hr.
  apply (proj2 (run_phewas_rows Sample.smf_fits Sample.regularized_fits Sample.log10
           [("008", "Intestinal infection")] [("008.5", "008")] []
           {| fm0 := [[1]; [1]; [1]; [1]; [1]; [1]]%Q;
              fm1 := [[50]; [60]; [50]; [60]; [50]; [60]]%Q;
              fm2 := [[0]; [0]; [0]; [0]; [0]; [0]]%Q |}
           (df_rows Sample.frame ++ df_rows Sample.frame ++ df_rows Sample.frame)
           "" 0 "" "" _ eq_refl) r Hr).
Defined.

Lemma mask_rows_Raise (m : matrix) mask :
  length mask ≠ length m ->
  mask_rows m mask =
    Raise (IndexError "boolean index did not match indexed array along dimension 0").
Proof. intros Hlen. unfold mask_rows. by case_decide. Qed.

(** X17: [run_phewas] needs a matrix with one row per subject: on an empty
    matrix, and on one whose number of rows differs from the number of
    subjects, it raises IndexError after the first line of output, before
    any regression. *)
Theorem run_phewas_row_mismatch
    (smf_logit_fit : option string -> string -> DataFrame -> result fit_result)
    (sm_Logit_fit_regularized : list Q -> list (string * list Q) -> Q -> result fit_result)
    (log10 : Q -> Q) (phewas_codes icd9_codes icd10_codes : list (string * string))
    (fm : feature_matrix) (genotypes : list subject) (covariates : string)
    (reg_type : Z) (response phewas_cov : string) :
  length (fm0 fm) = 0%nat \/ length (fm0 fm) ≠ length genotypes ->
  exists msg,
    run_phewas smf_logit_fit sm_Logit_fit_regularized log10 phewas_codes
      icd9_codes icd10_codes fm genotypes covariates reg_type response phewas_cov
    = (["Sorting group data..."], Raise (IndexError msg)).
Proof.
  intros Hlen. unfold run_phewas.
  destruct (fm0 fm) as [|row m0] eqn:H0; [simpl; eauto|].
  destruct Hlen as [Hlen|Hlen]; [done|].
  simpl. unfold separated_indices.
  rewrite !mask_rows_Raise
    by (rewrite length_fmap, length_sort_subjects, H0; congruence).
  simpl. eauto.
Qed.

Lemma run_phewas_row_mismatch_witness :
  exists msg,
    run_phewas Sample.smf_fits Sample.regularized_fits Sample.log10
      [("008", "Intestinal infection")] [] []
      {| fm0 := [[1]]%Q; fm1 := [[50]]%Q; fm2 := [[0]]%Q |}
      (df_rows Sample.frame) "" 0 "" ""
    = (["Sorting group data..."], Raise (IndexError msg)).
Proof.
  apply (run_phewas_row_mismatch Sample.smf_fits Sample.regularized_fits Sample.log10
           [("008", "Intestinal infection")] [] []
           {| fm0 := [[1]]%Q; fm1 := [[50]]%Q; fm2 := [[0]]%Q |}
           (df_rows Sample.frame) "" 0 "" "").
  right. simpl. lia.
Defined.

(** X18: a matrix with more columns than the code table has rows cannot be
    labelled: the turn of the loop for the first column past the table
    raises KeyError in [get_phewas_info], and the rows recorded up to then
    are lost with the run. *)
Theorem run_phewas_code_table_too_short
    (smf_logit_fit : option string -> string -> DataFrame -> result fit_result)
    (sm_Logit_fit_regularized : list Q -> list (string * list Q) -> Q -> result fit_result)
    (log10 : Q -> Q) (phewas_codes icd9_codes icd10_codes : list (string * string))
    (fm : feature_matrix) (genotypes : list subject) (covariates : string)
    (reg_type : Z) (response phewas_cov : string) (P : nat) :
  (0 < length genotypes)%nat ->
  shape (length genotypes) P (fm0 fm) ->
  length (fm1 fm) = length genotypes ->
  length (fm2 fm) = length genotypes ->
  (length phewas_codes < P)%nat ->
  snd (run_phewas smf_logit_fit sm_Logit_fit_regularized log10 phewas_codes
         icd9_codes icd10_codes fm genotypes covariates reg_type response phewas_cov)
    = Raise (KeyError (pretty (length phewas_codes))).
Proof.
  intros HN Hshape H1 H2 HP. unfold run_phewas.
  destruct (run_phewas_start fm genotypes P HN Hshape) as [inds ->].
  set (L := length phewas_codes) in *.
  replace P with (L + S (P - L - 1))%nat by lia.
  rewrite seq_app, fold_left_app. simpl seq. simpl fold_left.
  set (st0 := {| ps_data := {| df_rows := sort_subjects genotypes; df_assigned := [] |};
                 regressions := []; ps_stdout := ["Sorting group data..."];
                 ps_raised := None |}).
  destruct (loop_returns smf_logit_fit sm_Logit_fit_regularized log10 phewas_codes
              icd9_codes icd10_codes fm inds covariates response (seq 0 L) st0)
    as (Hr & Hrows & _);
    simpl; rewrite ?length_sort_subjects; try done.
  { by destruct Hshape. }
  { intros i [_ Hi]%elem_of_seq. unfold L in Hi. lia. }
  set (stL := fold_left _ (seq 0 L) st0) in *.
  pose proof (step_key_error smf_logit_fit sm_Logit_fit_regularized log10 phewas_codes
                icd9_codes icd10_codes fm inds covariates response stL L Hr) as Hkey.
  rewrite Hrows in Hkey. simpl in Hkey. rewrite length_sort_subjects in Hkey.
  specialize (Hkey (proj1 Hshape) H1 H2 ltac:(unfold L; lia)).
  rewrite loop_raised by (rewrite Hkey; done).
  by rewrite Hkey.
Qed.

Lemma run_phewas_code_table_too_short_witness :
  snd (run_phewas Sample.smf_fits Sample.regularized_fits Sample.log10
         [("008", "Intestinal infection")] [] []
         {| fm0 := [[1; 0]; [0; 0]]%Q; fm1 := [[50; 50]; [60; 60]]%Q;
            fm2 := [[0; 0]; [0; 0]]%Q |}
         (df_rows Sample.frame) "" 0 "" "")
    = Raise (KeyError "1").
Proof.
  apply (run_phewas_code_table_too_short Sample.smf_fits Sample.regularized_fits
           Sample.log10 [("008", "Intestinal infection")] [] []
           {| fm0 := [[1; 0]; [0; 0]]%Q; fm1 := [[50; 50]; [60; 60]]%Q;
              fm2 := [[0; 0]; [0; 0]]%Q |}
           (df_rows Sample.frame) "" 0 "" "" 2%nat); simpl; try lia; try reflexivity.
  split; [reflexivity|]. repeat constructor.
Defined.

(** X19: [run_phewas] labels column [j] of the matrix with row [j] of the
    code table as loaded, [generate_feature_matrix] lays the columns out
    in the sorted order of the codes: for a code table that is sorted by
    code the two agree, the label of a column is the code of the header
    at that column. *)
Theorem labels_match_header (phewas_codes prowas_codes icd9_codes icd10_codes
    : list (string * string)) (index : nat) (code name r9 r10 : string) :
  StronglySorted (fun a b => String.leb a b = true) (fst <$> phewas_codes) ->
  get_phewas_info phewas_codes icd9_codes icd10_codes index = Ok (code, name, r9, r10) ->
  header_of phewas_codes prowas_codes ICD !! index = Some code.
Proof.
  intros Hsorted Hinfo. apply get_phewas_info_Ok in Hinfo as (Hc & _).
  unfold header_of. rewrite sort_by_sorted by done.
  by rewrite list_lookup_fmap, Hc.
Qed.

Lemma labels_match_header_witness :
  header_of [("008", "Intestinal infection"); ("010", "Tuberculosis")] [] ICD !! 1%nat
    = Some "010".
Proof.
  apply (labels_match_header [("008", "Intestinal infection"); ("010", "Tuberculosis")]
           [] [] [] 1%nat "010" "Tuberculosis" "" "").
  - repeat constructor.
  - reflexivity.
Defined.

(** ** The shape of the matrix *)

Lemma skip_subjects_shape genotypes N P rows : forall curr count m1 c m1',
  shape N P m1 ->
  skip_subjects genotypes P rows curr count m1 = Ok (c, m1') -> shape N P m1'.
Proof.
  induction rows as [|row rows IH]; intros curr count m1 c m1' Hsh; simpl; [done|].
  destruct (decide (curr ≠ subj_id row)); [|by intros [= <- <-]].
  destruct (genotypes !! subj_id row); [|done].
  apply IH. by apply shape_set_row.
Qed.

Lemma new_subject_shape rs genotypes N P st curr g c m1 l :
  shape N P (fm1 (st_fm st)) ->
  new_subject rs genotypes P st curr g = Ok (c, m1, l) -> shape N P m1.
Proof.
  intros Hsh. unfold new_subject.
  destruct (decide (last_id st ≠ Some curr)); [|by intros [= <- <- <-]].
  destruct (skip_subjects _ _ _ _ _ _) as [[c' m1']|] eqn:Hskip; [|done].
  simpl. intros [= <- <- <-]. apply shape_set_row.
  by eapply skip_subjects_shape.
Qed.

Lemma aggregate_shape reg_type N P m0 p c e m0' :
  shape N P m0 -> aggregate reg_type m0 p c e = Ok m0' -> shape N P m0'.
Proof.
  intros Hsh. unfold aggregate.
  destruct (decide (reg_type = 0)); [intros [= <-]; by apply shape_set_cell|].
  destruct (decide (reg_type = 1)); [intros [= <-]; by apply shape_add_cell|].
  destruct (duration e); [|done]. intros [= <-]. by apply shape_set_cell.
Qed.

Lemma process_event_shape rs genotypes np_index reg_type pheno_cov N P st e :
  shape3 N P (st_fm st) ->
  shape3 N P (st_fm (process_event rs genotypes np_index reg_type pheno_cov P st e)).
Proof.
  intros (H0 & H1 & H2). unfold process_event.
  destruct (raised st); [done|].
  destruct (genotypes !! ev_id e) as [g|]; [|by destruct (decide _)].
  destruct (new_subject _ _ _ _ _ _) as [[[c m1] l]|] eqn:Hnew; [|done].
  simpl. destruct (np_index !! ev_code e) as [ix|]; [|done].
  simpl. destruct (aggregate _ _ _ _ _) as [m0|] eqn:Hagg; [|done].
  unfold mbind, result_bind, shape3. simpl.
  split; [exact (aggregate_shape _ _ _ _ _ _ _ _ H0 Hagg)|].
  split; [exact (shape_set_cell _ _ _ _ _ _
                   (new_subject_shape _ _ _ _ _ _ _ _ _ _ H1 Hnew))|].
  destruct (decide _); [by apply shape_set_row|done].
Qed.

Lemma process_events_shape rs genotypes np_index reg_type pheno_cov N P evs : forall st,
  shape3 N P (st_fm st) ->
  shape3 N P
    (st_fm (fold_left (process_event rs genotypes np_index reg_type pheno_cov P) evs st)).
Proof.
  induction evs as [|e evs IH]; intros st Hsh; [done|].
  simpl. by apply IH, process_event_shape.
Qed.

(** X20: whenever [generate_feature_matrix] returns, each of the three
    layers has one row per subject of the group file and one column per
    code of the table, and the header lists the codes of the table in
    sorted order, the order of the columns. *)
Theorem feature_matrix_shape (phewas_codes prowas_codes : list (string * string))
    (genotypes_df : list subject) (phenotype : list event) (reg_type : Z)
    (code_type : code_kind) (pheno_cov : option string)
    (out : list string) (fm : feature_matrix) (header : list string) :
  generate_feature_matrix phewas_codes prowas_codes genotypes_df phenotype reg_type
    code_type pheno_cov = (out, Ok (fm, header)) ->
  let table := match code_type with CPT => prowas_codes | ICD => phewas_codes end in
  shape3 (length genotypes_df) (length table) fm /\
  length header = length table /\
  Permutation header table.*1 /\
  StronglySorted (fun a b => String.leb a b = true) header.
Proof.
  intros Hrun table. unfold generate_feature_matrix in Hrun. cbv zeta in Hrun.
  destruct (to_dict_index _) as [genotypes|]; [|done].
  destruct (raised _) eqn:Hraised; [done|].
  injection Hrun as _ <- <-. fold table.
  assert (Hlen : length (sort_by String.leb table.*1) = length table).
  { by rewrite sort_by_Permutation, length_fmap. }
  split; [|split; [done|split]].
  - rewrite <- Hlen, <- (length_sort_subjects genotypes_df).
    apply process_events_shape. repeat split; apply shape_zeros.
  - apply sort_by_Permutation.
  - apply sort_by_StronglySorted.
    + apply String_leb_total.
    + apply String_leb_trans.
Qed.

Lemma feature_matrix_shape_witness :
  shape3 2 2 {| fm0 := [[1; 0]; [0; 0]]; fm1 := [[40; 50]; [0; 0]];
                fm2 := [[0; 0]; [0; 0]] |}%Q.
Proof.
  apply (feature_matrix_shape
           [("010", "Tuberculosis"); ("008", "Intestinal infection")] []
           [ {| subj_id := 2; genotype := 0; MaxAgeAtVisit := 60; covariate_fields := [] |};
             {| subj_id := 1; genotype := 1; MaxAgeAtVisit := 50; covariate_fields := [] |} ]
           (get_icd_codes [ {| row_id := 1; PheCode := "008"; AgeAtICD := 40 |} ] 0)
           0 ICD None
           ["Sorting phenotype data..."; "Sorting group data..."] _ ["008"; "010"]).
  vm_compute. reflexivity.
Defined.

(** ** Cells the events do not write, and the aggregates *)

Lemma cell_add_cell_eq m i j v x :
  cell m i j = Some x -> cell (add_cell m i j v) i j = Some (x + v)%Q.
Proof.
  unfold cell, add_cell. intros Hc. rewrite list_lookup_alter_eq.
  destruct (m !! i) as [row|]; [|done]. simpl in *.
  by rewrite list_lookup_alter_eq, Hc.
Qed.

Lemma cell_add_cell_ne m i j v i' j' :
  i ≠ i' \/ j ≠ j' -> cell (add_cell m i j v) i' j' = cell m i' j'.
Proof.
  intros Hne. unfold cell, add_cell.
  destruct (decide (i = i')) as [<-|Hi]; [|by rewrite list_lookup_alter_ne].
  rewrite list_lookup_alter_eq. destruct (m !! i) as [row|]; [|done]. simpl.
  apply list_lookup_alter_ne. destruct Hne; congruence.
Qed.

Lemma filter_snoc {A} (Q : A -> Prop) `{!forall x, Decision (Q x)} l x :
  filter Q (l ++ [x]) = filter Q l ++ (if decide (Q x) then [x] else []).
Proof. rewrite filter_app, filter_cons, filter_nil. by destruct (decide (Q x)). Qed.

Lemma inject_Z_succ (n : nat) :
  (inject_Z (Z.of_nat n) + 1)%Q = inject_Z (Z.of_nat (n + 1)).
Proof. unfold Qplus, inject_Z. simpl. f_equal. lia. Qed.

Section FillLoop.
Variables (rs : list subject) (genotypes : gmap Z subject).
Variable header : list string.
Variables (reg_type : Z) (pheno_cov : option string).
Let P := length header.
Let N := length rs.
Let np_index : gmap string nat := to_dict (zip header (seq 0 P)).
Let step := process_event rs genotypes np_index reg_type pheno_cov P.

Hypothesis Hdict : to_dict_index rs = Ok genotypes.
Hypothesis Hsorted : StronglySorted (fun a b => (subj_id a <=? subj_id b)%Z = true) rs.

Lemma row_of_id r p g i :
  rs !! p = Some g -> (subj_id <$> rs) !! r = Some i -> subj_id g = i -> r = p.
Proof.
  intros Hp Hr Hg.
  eapply (NoDup_lookup (subj_id <$> rs) r p i); [|done|].
  - by eapply genotypes_NoDup.
  - by rewrite list_lookup_fmap, Hp, <- Hg.
Qed.

Lemma at_cell_position r j e p g c :
  rs !! p = Some g -> subj_id g = ev_id e -> np_index !! ev_code e = Some c ->
  at_cell rs np_index r j e <-> r = p /\ j = c.
Proof.
  intros Hp Hg Hc. unfold at_cell. split.
  - intros [Hr Hj]. split; [by eapply row_of_id|congruence].
  - intros [-> ->]. split; [|done]. by rewrite list_lookup_fmap, Hp, <- Hg.
Qed.

Lemma covariate_hit_position r e p g :
  rs !! p = Some g -> subj_id g = ev_id e ->
  covariate_hit rs pheno_cov r e <-> r = p /\ pheno_cov = Some (ev_code e).
Proof.
  intros Hp Hg. unfold covariate_hit. split.
  - intros [Hr Hj]. split; [by eapply row_of_id|done].
  - intros [-> ->]. split; [|done]. by rewrite list_lookup_fmap, Hp, <- Hg.
Qed.

Lemma no_row_of_excluded r e :
  genotypes !! ev_id e = None -> (subj_id <$> rs) !! r ≠ Some (ev_id e).
Proof.
  intros Hg Hr. apply (genotypes_lookup_None rs genotypes Hdict) in Hg.
  apply Hg. by eapply list_elem_of_lookup_2.
Qed.

(** The first row a new subject can take. *)
Lemma new_subject_start done st e' g p :
  Inv rs header reg_type done st -> rs !! p = Some g -> subj_id g = ev_id e' ->
  (forall e, e ∈ done -> ev_id e <= ev_id e') ->
  last_id st ≠ Some (ev_id e') ->
  exists start, count st + 1 = Z.of_nat start /\ (start <= p)%nat.
Proof.
  intros HI Hp Hg Hle Hnew.
  pose proof (inv_pos HI) as Hpos.
  destruct (last_id st) as [l|] eqn:Hlast.
  - destruct Hpos as (c & s & e & Hc & Hs & Hl & He & Hel).
    exists (S c). split; [lia|].
    assert (l < ev_id e') as Hlt.
    { specialize (Hle e He). assert (l ≠ ev_id e') by congruence. lia. }
    destruct (decide (p <= c)%nat) as [Hpc|]; [|lia].
    assert (subj_id g <= subj_id s); [|lia].
    destruct (decide (p = c)) as [->|]; [simplify_eq; lia|].
    apply Z.leb_le.
    apply (StronglySorted_lookup_lt _ rs p c g s Hsorted Hp Hs). lia.
  - exists 0%nat. split; lia.
Qed.

(** The rows up to the new subject's hold [MaxAgeAtVisit] wherever no
    event has been recorded. *)
Lemma new_subject_fill done st e' g p c m1n l :
  Inv rs header reg_type done st -> Fill rs header reg_type pheno_cov done st ->
  rs !! p = Some g -> subj_id g = ev_id e' ->
  (forall e, e ∈ done -> ev_id e <= ev_id e') ->
  new_subject rs genotypes P st (ev_id e') g = Ok (c, m1n, l) ->
  forall r s j, rs !! r = Some s -> (r <= p)%nat -> (j < P)%nat ->
    filter (at_cell rs np_index r j) done = [] ->
    cell m1n r j = Some (MaxAgeAtVisit s).
Proof.
  intros HI HF Hp Hg Hle. unfold new_subject.
  destruct (decide (last_id st ≠ Some (ev_id e'))) as [Hnew|Hsame].
  - destruct (new_subject_start done st e' g p HI Hp Hg Hle Hnew)
      as (start & Hstart & Hsp).
    rewrite Hstart, Nat2Z.id.
    destruct (skip_subjects_spec rs genotypes header Hdict (p - start) start
                (fm1 (st_fm st)) p g)
      as (m1' & Hrun & Hsh & Hout & Hin); [lia|done|apply (inv_shape1 HI)|].
    fold P in Hrun. rewrite <- Hg, Hrun. simpl. rewrite Nat2Z.id.
    intros [= <- <- <-] r s j Hr Hrp Hj Hnone.
    destruct (decide (r = p)) as [->|Hne].
    + assert (s = g) as -> by congruence.
      eapply cell_set_row_eq; [exact Hsh| |done].
      by eapply lookup_lt_Some.
    + rewrite cell_set_row_ne by lia.
      destruct (decide (r < start)%nat) as [Hlt|Hge].
      * rewrite Hout by lia. apply (fill_age HF r s j Hr); [lia|done|done].
      * apply Hin; [lia|done|done].
  - apply dec_stable in Hsame.
    pose proof (inv_pos HI) as Hpos. rewrite Hsame in Hpos.
    destruct Hpos as (c0 & s0 & e & Hc & Hs & Hl & He & Hel).
    assert (c0 = p) as ->.
    { eapply (position_unique rs genotypes Hdict); eauto. congruence. }
    intros [= <- <- <-] r s j Hr Hrp Hj Hnone.
    apply (fill_age HF r s j Hr); [lia|done|done].
Qed.

Lemma aggregate_cases m0 p c' e' :
  (reg_type ≠ 0 -> reg_type ≠ 1 -> is_Some (duration e')) ->
  exists m0', aggregate reg_type m0 p c' e' = Ok m0' /\
    (reg_type = 0 -> m0' = set_cell m0 p c' 1%Q) /\
    (reg_type = 1 -> m0' = add_cell m0 p c' 1%Q) /\
    (forall r j, p ≠ r \/ c' ≠ j -> cell m0' r j = cell m0 r j).
Proof.
  intros Hdur. unfold aggregate.
  destruct (decide (reg_type = 0)) as [H0|H0].
  { eexists. split; [done|]. split; [done|]. split; [lia|].
    intros r j Hne. by apply cell_set_cell_ne. }
  destruct (decide (reg_type = 1)) as [H1|H1].
  { eexists. split; [done|]. split; [lia|]. split; [done|].
    intros r j Hne. by apply cell_add_cell_ne. }
  destruct (Hdur H0 H1) as [d Hd]. rewrite Hd.
  eexists. split; [done|]. split; [done|]. split; [done|].
  intros r j Hne. by apply cell_set_cell_ne.
Qed.

Lemma process_event_fill done st e' :
  Inv rs header reg_type done st -> Fill rs header reg_type pheno_cov done st ->
  (forall e, e ∈ done -> ev_id e <= ev_id e') ->
  (is_Some (genotypes !! ev_id e') -> ev_code e' ∈ header) ->
  (is_Some (genotypes !! ev_id e') -> reg_type ≠ 0 -> reg_type ≠ 1 ->
   is_Some (duration e')) ->
  Fill rs header reg_type pheno_cov (done ++ [e']) (step st e').
Proof.
  intros HI HF Hle Hcode Hdur. unfold step, process_event.
  rewrite (inv_raised HI).
  destruct (genotypes !! ev_id e') as [g|] eqn:Hg.
  - destruct (genotypes_lookup_Some rs genotypes Hdict _ _ Hg) as [Hgin Hgid].
    apply list_elem_of_lookup_1 in Hgin as [p Hp].
    destruct (new_subject_spec rs genotypes header reg_type Hdict Hsorted
                done st e' g p HI Hp Hgid Hle) as (m1n & Hnew & Hsh1 & _).
    fold P in Hnew.
    pose proof (new_subject_fill done st e' g p _ _ _ HI HF Hp Hgid Hle Hnew) as Hfill.
    rewrite Hnew. simpl.
    destruct (np_index_is_Some header (ev_code e')) as [c' Hc']; [by apply Hcode|].
    fold P in Hc'. fold np_index in Hc'. rewrite Hc'. simpl.
    assert (Hc'P : (c' < P)%nat).
    { apply np_index_lookup in Hc'. by eapply lookup_lt_Some. }
    assert (HpN : (p < N)%nat) by by eapply lookup_lt_Some.
    rewrite Nat2Z.id.
    destruct (aggregate_cases (fm0 (st_fm st)) p c' e')
      as (m0' & Hagg & Hm0 & Hm1 & Hother); [by apply Hdur|].
    rewrite Hagg. simpl.
    pose proof (fun r j => at_cell_position r j e' p g c' Hp Hgid Hc') as Hat.
    pose proof (fun r => covariate_hit_position r e' p g Hp Hgid) as Hhit.
    assert (Hne : forall r j, ¬ at_cell rs np_index r j e' -> p ≠ r \/ c' ≠ j).
    { intros r j Hn. destruct (decide (p = r)) as [<-|]; [|by left].
      destruct (decide (c' = j)) as [<-|]; [|by right].
      destruct Hn. by apply Hat. }
    split; simpl.
    + destruct (decide _); [apply shape_set_row|]; apply (fill_shape2 HF).
    + intros r s j Hr Hrc Hj Hnone. fold P in Hj. fold P np_index in Hnone.
      rewrite filter_snoc in Hnone. apply app_eq_nil in Hnone as [Hnone Hnot].
      destruct (decide (at_cell rs np_index r j e')) as [|Hd]; [done|].
      rewrite cell_set_cell_ne by by apply Hne.
      apply Hfill; [done|lia|done|done].
    + intros H0 r j Hr Hj Hsome. fold P in Hj. fold P np_index in Hsome.
      rewrite (Hm0 H0). rewrite filter_snoc in Hsome.
      destruct (decide (at_cell rs np_index r j e')) as [Hd|Hd].
      * apply Hat in Hd as [-> ->].
        eapply cell_set_cell_eq; [apply (inv_shape0 HI)|done..].
      * rewrite app_nil_r in Hsome. rewrite cell_set_cell_ne by by apply Hne.
        by apply (fill_binary HF H0).
    + intros H1 r j Hr Hj. fold P in Hj. fold P np_index.
      rewrite (Hm1 H1), filter_snoc, length_app.
      destruct (decide (at_cell rs np_index r j e')) as [Hd|Hd].
      * apply Hat in Hd as [-> ->].
        rewrite (cell_add_cell_eq _ _ _ _ _ (fill_count HF H1 p c' HpN Hc'P)).
        fold P np_index. simpl length. by rewrite inject_Z_succ.
      * simpl length. rewrite Nat.add_0_r. rewrite cell_add_cell_ne by by apply Hne.
        by apply (fill_count HF H1).
    + intros r j Hr Hj Hnone. fold P in Hj. fold P np_index in Hnone.
      rewrite filter_snoc in Hnone. apply app_eq_nil in Hnone as [Hnone Hnot].
      destruct (decide (at_cell rs np_index r j e')) as [|Hd]; [done|].
      rewrite Hother by by apply Hne. by apply (fill_empty HF).
    + intros r j Hr Hj. fold P in Hj. rewrite filter_snoc.
      destruct (decide (covariate_hit rs pheno_cov r e')) as [Hd|Hd].
      * apply Hhit in Hd as [-> Hcov].
        destruct (decide (pheno_cov = Some (ev_code e'))); [|done].
        destruct (decide (_ ++ [e'] = [])) as [Hnil|_];
          [by apply app_eq_nil in Hnil as [_ ?]|].
        eapply cell_set_row_eq; [apply (fill_shape2 HF)|done..].
      * rewrite app_nil_r. rewrite <- (fill_cov HF r j Hr Hj).
        destruct (decide (pheno_cov = Some (ev_code e'))) as [Hcov|]; [|done].
        apply cell_set_row_ne. intros <-. apply Hd. by apply Hhit.
  - assert (Hnoat : forall r j, ¬ at_cell rs np_index r j e').
    { intros r j [Hr _]. by eapply no_row_of_excluded. }
    assert (Hnohit : forall r, ¬ covariate_hit rs pheno_cov r e').
    { intros r [Hr _]. by eapply no_row_of_excluded. }
    assert (Hflt : forall r j, filter (at_cell rs np_index r j) (done ++ [e'])
                               = filter (at_cell rs np_index r j) done).
    { intros r j. rewrite filter_snoc.
      destruct (decide (at_cell rs np_index r j e')) as [Hd|_];
        [by apply Hnoat in Hd|by rewrite app_nil_r]. }
    assert (Hflt' : forall r, filter (covariate_hit rs pheno_cov r) (done ++ [e'])
                              = filter (covariate_hit rs pheno_cov r) done).
    { intros r. rewrite filter_snoc.
      destruct (decide (covariate_hit rs pheno_cov r e')) as [Hd|_];
        [by apply Hnohit in Hd|by rewrite app_nil_r]. }
    assert (Fill rs header reg_type pheno_cov (done ++ [e']) st) as HF'.
    { split.
      - apply (fill_shape2 HF).
      - intros r s j Hr Hrc Hj. fold P np_index. rewrite Hflt. by apply (fill_age HF).
      - intros H0 r j Hr Hj. fold P np_index. rewrite Hflt. by apply (fill_binary HF).
      - intros H1 r j Hr Hj. fold P np_index. rewrite Hflt. by apply (fill_count HF).
      - intros r j Hr Hj. fold P np_index. rewrite Hflt. by apply (fill_empty HF).
      - intros r j Hr Hj. rewrite Hflt'. by apply (fill_cov HF). }
    destruct (decide (ev_id e' ∈ exclude st)); [done|].
    destruct HF' as [? ? ? ? ? ?]. split; done.
Qed.

Lemma process_events_fill todo : forall done st,
  Inv rs header reg_type done st -> Fill rs header reg_type pheno_cov done st ->
  StronglySorted (fun a b => (ev_id a <=? ev_id b)%Z = true) (done ++ todo) ->
  (forall e, e ∈ todo -> is_Some (genotypes !! ev_id e) -> ev_code e ∈ header) ->
  (forall e, e ∈ todo -> is_Some (genotypes !! ev_id e) ->
     reg_type ≠ 0 -> reg_type ≠ 1 -> is_Some (duration e)) ->
  (forall e e', e ∈ done ++ todo -> e' ∈ done ++ todo -> consistent e e') ->
  Fill rs header reg_type pheno_cov (done ++ todo) (fold_left step todo st).
Proof.
  induction todo as [|e' todo IH]; intros done st HI HF Hs Hcode Hdur Hcons.
  - by rewrite app_nil_r.
  - simpl. replace (done ++ e' :: todo) with ((done ++ [e']) ++ todo) in *
      by by rewrite <- app_assoc.
    assert (Hin : e' ∈ e' :: todo) by (apply elem_of_cons; by left).
    assert (Hle : forall e, e ∈ done -> ev_id e <= ev_id e').
    { intros e He. apply Z.leb_le.
      apply (StronglySorted_app_1_elem_of _ _ _ e e'
               (StronglySorted_app_1_l _ _ _ Hs)); [done|].
      by apply list_elem_of_singleton. }
    apply IH; [| |done| |  |done].
    + apply (process_event_inv rs genotypes header reg_type pheno_cov Hdict Hsorted);
        [done|done|by apply Hcode|by apply Hdur|].
      intros e He. apply Hcons; apply elem_of_app; left; apply elem_of_app.
      * by left.
      * right. by apply list_elem_of_singleton.
    + apply process_event_fill; [done|done|done|by apply Hcode|by apply Hdur].
    + intros e He. apply Hcode, elem_of_cons. by right.
    + intros e He. apply Hdur, elem_of_cons. by right.
Qed.
End FillLoop.

Lemma init_state_Fill rs header reg_type pheno_cov :
  Fill rs header reg_type pheno_cov [] (init_state (length rs) (length header)).
Proof.
  split; simpl.
  - apply shape_zeros.
  - intros; lia.
  - by intros _ r j _ _ Hne.
  - intros _ r j Hr Hj. by apply cell_zeros.
  - intros r j Hr Hj _. by apply cell_zeros.
  - intros r j Hr Hj. by apply cell_zeros.
Qed.

(** With unique ids, known codes and a regression type of the three, the
    call returns the matrix of the final state, and both invariants hold
    there. *)
Lemma generate_feature_matrix_final (phewas_codes prowas_codes : list (string * string))
    (genotypes_df : list subject) (phenotypes : list icd_row)
    (reg_type : Z) (pheno_cov : option string) :
  NoDup (subj_id <$> genotypes_df) ->
  (forall r, r ∈ phenotypes -> PheCode r ∈ phewas_codes.*1) ->
  reg_type = 0 \/ reg_type = 1 \/ reg_type = 2 ->
  let st := final_state phewas_codes prowas_codes genotypes_df
              (get_icd_codes phenotypes reg_type) reg_type ICD pheno_cov in
  let rs := sort_subjects genotypes_df in
  let header := header_of phewas_codes prowas_codes ICD in
  let done := sort_events (get_icd_codes phenotypes reg_type) in
  generate_feature_matrix phewas_codes prowas_codes genotypes_df
    (get_icd_codes phenotypes reg_type) reg_type ICD pheno_cov
    = (stdout st, Ok (st_fm st, header)) /\
  Inv rs header reg_type done st /\
  Fill rs header reg_type pheno_cov done st /\
  to_dict_index rs = Ok (to_dict ((fun s => (subj_id s, s)) <$> rs)).
Proof.
  intros Hnd Hcodes Hreg st rs header done.
  pose proof (final_state_Inv phewas_codes prowas_codes genotypes_df phenotypes reg_type
                pheno_cov Hnd Hcodes Hreg) as HI.
  fold st rs header done in HI.
  assert (Hdict : to_dict_index rs = Ok (to_dict ((fun s => (subj_id s, s)) <$> rs))).
  { apply to_dict_index_NoDup. by apply sort_subjects_ids_NoDup. }
  split; [|split; [done|split; [|done]]].
  - rewrite generate_feature_matrix_NoDup by done. cbv zeta. fold st.
    by rewrite (inv_raised HI).
  - unfold st, final_state. fold rs. fold header.
    apply (process_events_fill rs _ header reg_type pheno_cov Hdict
             (sort_subjects_StronglySorted _) done []).
    + apply init_state_Inv.
    + apply init_state_Fill.
    + apply sort_events_StronglySorted.
    + intros e He%sort_by_elem_of _.
      apply elem_of_get_icd_codes in He as (r & Hr & _ & -> & _).
      unfold header, header_of. apply sort_by_elem_of. by apply Hcodes.
    + intros e He%sort_by_elem_of _ H0 H1.
      apply elem_of_get_icd_codes in He as (r & Hr & _ & _ & _ & ->).
      destruct (decide (reg_type = 2)); [done|lia].
    + intros e e' He%sort_by_elem_of He'%sort_by_elem_of.
      by eapply get_icd_codes_consistent.
Qed.

(** The events of a cell and the rows of the phenotype file. *)
Lemma filter_events_of_rows (Q : event -> Prop) `{!forall e, Decision (Q e)}
    (Q' : icd_row -> Prop) `{!forall r, Decision (Q' r)} (f : icd_row -> event) rows :
  (forall r, r ∈ rows -> Q (f r) <-> Q' r) ->
  length (filter Q (sort_events (f <$> rows))) = length (filter Q' rows).
Proof.
  intros HQ. unfold sort_events. rewrite sort_by_Permutation.
  induction rows as [|r rows IH]; [done|].
  rewrite fmap_cons, !filter_cons.
  assert (Hr : Q (f r) <-> Q' r) by (apply HQ, elem_of_cons; by left).
  assert (IH' : length (filter Q (f <$> rows)) = length (filter Q' rows)).
  { apply IH. intros r' Hr'. apply HQ, elem_of_cons. by right. }
  destruct (decide (Q (f r))), (decide (Q' r)); simpl; try tauto; by rewrite IH'.
Qed.

Lemma at_cell_of_row rs (header : list string) i j s rows reg_type e :
  rs !! i = Some s ->
  e ∈ sort_events (get_icd_codes rows reg_type) ->
  at_cell rs (to_dict (zip header (seq 0 (length header)))) i j e ->
  exists r, r ∈ rows /\ row_id r = subj_id s /\ header !! j = Some (PheCode r).
Proof.
  intros Hi He%sort_by_elem_of [Hrow Hcol].
  apply elem_of_get_icd_codes in He as (r & Hr & Hid & Hcode & _).
  exists r. split; [done|]. split.
  - rewrite list_lookup_fmap, Hi in Hrow. simpl in Hrow. congruence.
  - apply np_index_lookup in Hcol. congruence.
Qed.

(** X21: for every subject up to the last one with events (in the order
    of the ids), layer 1 holds the subject's [MaxAgeAtVisit] in the column
    of each phenotype absent from the subject's record. *)
Theorem absent_phenotypes_hold_max_age_at_visit
    (phewas_codes prowas_codes : list (string * string))
    (genotypes_df : list subject) (phenotypes : list icd_row)
    (reg_type : Z) (pheno_cov : option string) :
  NoDup (subj_id <$> genotypes_df) ->
  (forall r, r ∈ phenotypes -> PheCode r ∈ phewas_codes.*1) ->
  reg_type = 0 \/ reg_type = 1 \/ reg_type = 2 ->
  exists out fm header,
    generate_feature_matrix phewas_codes prowas_codes genotypes_df
      (get_icd_codes phenotypes reg_type) reg_type ICD pheno_cov
      = (out, Ok (fm, header)) /\
    forall s i j s' r',
      sort_subjects genotypes_df !! i = Some s ->
      s' ∈ genotypes_df -> r' ∈ phenotypes -> row_id r' = subj_id s' ->
      subj_id s <= subj_id s' ->
      (j < length header)%nat ->
      (forall r, r ∈ phenotypes -> row_id r = subj_id s ->
         header !! j ≠ Some (PheCode r)) ->
      cell (fm1 fm) i j = Some (MaxAgeAtVisit s).
Proof.
  intros Hnd Hcodes Hreg.
  destruct (generate_feature_matrix_final phewas_codes prowas_codes genotypes_df
              phenotypes reg_type pheno_cov Hnd Hcodes Hreg) as (Hrun & HI & HF & Hdict).
  eexists _, _, _. split; [exact Hrun|].
  intros s i j s' r' Hi Hs' Hr' Hid Hle Hj Habsent.
  apply (fill_age HF i s j Hi); [|done|].
  - assert (Hs'rs : s' ∈ sort_subjects genotypes_df) by by apply sort_by_elem_of.
    apply list_elem_of_lookup_1 in Hs'rs as [p Hp].
    set (e := {| ev_id := row_id r'; ev_code := PheCode r'; ev_age := AgeAtICD r';
                 duration :=
                   if decide (reg_type = 2)
                   then Some (transform_max phenotypes r' - transform_min phenotypes r' + 1)%Q
                   else None;
                 MaxAgeAtICD := transform_max phenotypes r' |}).
    assert (He : e ∈ sort_events (get_icd_codes phenotypes reg_type)).
    { apply sort_by_elem_of. unfold get_icd_codes.
      apply list_elem_of_fmap. exists r'. done. }
    destruct (inv_placed HI e p He) as (c & Hc & Hpc).
    { exists s'. split; [done|]. simpl. done. }
    pose proof (sorted_positions _ _ [] Hdict (sort_subjects_StronglySorted _)
                  i p s s' Hi Hp Hle). lia.
  - apply elem_of_nil_inv. intros e [Hat He]%list_elem_of_filter.
    destruct (at_cell_of_row _ _ _ _ _ _ _ _ Hi He Hat) as (r & Hr & Hrid & Hcol).
    by eapply Habsent.
Qed.

Lemma absent_phenotypes_hold_max_age_at_visit_witness :
  exists out fm header,
    generate_feature_matrix [("008", "Intestinal infection"); ("010", "Tuberculosis")] []
      [ {| subj_id := 1; genotype := 1; MaxAgeAtVisit := 50; covariate_fields := [] |};
        {| subj_id := 2; genotype := 0; MaxAgeAtVisit := 60; covariate_fields := [] |} ]
      (get_icd_codes [ {| row_id := 2; PheCode := "008"; AgeAtICD := 40 |} ] 0) 0 ICD None
      = (out, Ok (fm, header)).
Proof.
  destruct (absent_phenotypes_hold_max_age_at_visit
    [("008", "Intestinal infection"); ("010", "Tuberculosis")] []
    [ {| subj_id := 1; genotype := 1; MaxAgeAtVisit := 50; covariate_fields := [] |};
      {| subj_id := 2; genotype := 0; MaxAgeAtVisit := 60; covariate_fields := [] |} ]
    [ {| row_id := 2; PheCode := "008"; AgeAtICD := 40 |} ] 0 None)
    as (out & fm & header & Hrun & _).
  - simpl. apply NoDup_cons. split; [|apply NoDup_singleton].
    intros Hin. apply list_elem_of_singleton in Hin. discriminate Hin.
  - intros r Hr. apply list_elem_of_singleton in Hr as ->.
    apply elem_of_cons. by left.
  - by left.
  - by exists out, fm, header.
Defined.

(** X22: in the aggregate layer the cell of a subject and a phenotype with
    at least one event of the subject holds 1 in binary mode and the number
    of events of the pair in count mode. *)
Theorem aggregate_binary_and_count
    (phewas_codes prowas_codes : list (string * string))
    (genotypes_df : list subject) (phenotypes : list icd_row)
    (reg_type : Z) (pheno_cov : option string) :
  NoDup (subj_id <$> genotypes_df) ->
  (forall r, r ∈ phenotypes -> PheCode r ∈ phewas_codes.*1) ->
  reg_type = 0 \/ reg_type = 1 \/ reg_type = 2 ->
  exists out fm header,
    generate_feature_matrix phewas_codes prowas_codes genotypes_df
      (get_icd_codes phenotypes reg_type) reg_type ICD pheno_cov
      = (out, Ok (fm, header)) /\
    forall s r, s ∈ genotypes_df -> r ∈ phenotypes -> row_id r = subj_id s ->
      exists i j,
        sort_subjects genotypes_df !! i = Some s /\
        header !! j = Some (PheCode r) /\
        (reg_type = 0 -> cell (fm0 fm) i j = Some 1%Q) /\
        (reg_type = 1 ->
         cell (fm0 fm) i j =
           Some (inject_Z (Z.of_nat (length
             (filter (fun r' => row_id r' = subj_id s /\ PheCode r' = PheCode r)
                phenotypes))))).
Proof.
  intros Hnd Hcodes Hreg.
  destruct (generate_feature_matrix_final phewas_codes prowas_codes genotypes_df
              phenotypes reg_type pheno_cov Hnd Hcodes Hreg) as (Hrun & HI & HF & Hdict).
  eexists _, _, _. split; [exact Hrun|].
  intros s r Hs Hr Hid.
  set (rs := sort_subjects genotypes_df) in *.
  set (header := header_of phewas_codes prowas_codes ICD) in *.
  assert (Hsrs : s ∈ rs) by by apply sort_by_elem_of.
  apply list_elem_of_lookup_1 in Hsrs as [i Hi].
  destruct (np_index_is_Some header (PheCode r)) as [j Hj].
  { unfold header, header_of. apply sort_by_elem_of. by apply Hcodes. }
  pose proof (np_index_lookup _ _ _ Hj) as Hhj.
  assert (HiN : (i < length rs)%nat) by by eapply lookup_lt_Some.
  assert (HjP : (j < length header)%nat) by by eapply lookup_lt_Some.
  assert (Hlen :
    length (filter (at_cell rs (to_dict (zip header (seq 0 (length header)))) i j)
              (sort_events (get_icd_codes phenotypes reg_type))) =
    length (filter (fun r' => row_id r' = subj_id s /\ PheCode r' = PheCode r)
              phenotypes)).
  { apply filter_events_of_rows. intros r' _. unfold at_cell. simpl.
    rewrite list_lookup_fmap, Hi. simpl. split.
    - intros [[= Hrid] Hcol]. split; [done|].
      apply np_index_lookup in Hcol. congruence.
    - intros [-> ->]. done. }
  exists i, j. split; [done|]. split; [done|]. split.
  - intros H0. apply (fill_binary HF H0 i j HiN HjP).
    intros Hnil. rewrite Hnil in Hlen. simpl in Hlen. symmetry in Hlen.
    apply length_zero_iff_nil in Hlen.
    assert (r ∈ filter (fun r' => row_id r' = subj_id s /\ PheCode r' = PheCode r)
                  phenotypes) as Hin by by apply list_elem_of_filter.
    rewrite Hlen in Hin. by apply elem_of_nil in Hin.
  - intros H1. rewrite (fill_count HF H1 i j HiN HjP). by rewrite Hlen.
Qed.

Lemma aggregate_binary_and_count_witness :
  exists out fm header,
    generate_feature_matrix [("008", "Intestinal infection"); ("010", "Tuberculosis")] []
      [ {| subj_id := 1; genotype := 1; MaxAgeAtVisit := 50; covariate_fields := [] |};
        {| subj_id := 2; genotype := 0; MaxAgeAtVisit := 60; covariate_fields := [] |} ]
      (get_icd_codes [ {| row_id := 2; PheCode := "008"; AgeAtICD := 40 |};
                       {| row_id := 2; PheCode := "008"; AgeAtICD := 44 |} ] 1) 1 ICD None
      = (out, Ok (fm, header)).
Proof.
  destruct (aggregate_binary_and_count
    [("008", "Intestinal infection"); ("010", "Tuberculosis")] []
    [ {| subj_id := 1; genotype := 1; MaxAgeAtVisit := 50; covariate_fields := [] |};
      {| subj_id := 2; genotype := 0; MaxAgeAtVisit := 60; covariate_fields := [] |} ]
    [ {| row_id := 2; PheCode := "008"; AgeAtICD := 40 |};
      {| row_id := 2; PheCode := "008"; AgeAtICD := 44 |} ] 1 None)
    as (out & fm & header & Hrun & _).
  - simpl. apply NoDup_cons. split; [|apply NoDup_singleton].
    intros Hin. apply list_elem_of_singleton in Hin. discriminate Hin.
  - intros r Hr.
    apply elem_of_cons in Hr as [->|Hr]; [apply elem_of_cons; by left|].
    apply list_elem_of_singleton in Hr as ->. apply elem_of_cons. by left.
  - right. by left.
  - by exists out, fm, header.
Defined.

(** X23: in the aggregate layer the cell of a subject and a phenotype
    without an event of the subject is 0, in every mode and for every
    subject of the group file. *)
Theorem aggregate_zero_without_events
    (phewas_codes prowas_codes : list (string * string))
    (genotypes_df : list subject) (phenotypes : list icd_row)
    (reg_type : Z) (pheno_cov : option string) :
  NoDup (subj_id <$> genotypes_df) ->
  (forall r, r ∈ phenotypes -> PheCode r ∈ phewas_codes.*1) ->
  reg_type = 0 \/ reg_type = 1 \/ reg_type = 2 ->
  exists out fm header,
    generate_feature_matrix phewas_codes prowas_codes genotypes_df
      (get_icd_codes phenotypes reg_type) reg_type ICD pheno_cov
      = (out, Ok (fm, header)) /\
    forall s i j,
      sort_subjects genotypes_df !! i = Some s ->
      (j < length header)%nat ->
      (forall r, r ∈ phenotypes -> row_id r = subj_id s ->
         header !! j ≠ Some (PheCode r)) ->
      cell (fm0 fm) i j = Some 0%Q.
Proof.
  intros Hnd Hcodes Hreg.
  destruct (generate_feature_matrix_final phewas_codes prowas_codes genotypes_df
              phenotypes reg_type pheno_cov Hnd Hcodes Hreg) as (Hrun & HI & HF & Hdict).
  eexists _, _, _. split; [exact Hrun|].
  intros s i j Hi Hj Habsent.
  apply (fill_empty HF i j); [by eapply lookup_lt_Some|done|].
  apply elem_of_nil_inv. intros e [Hat He]%list_elem_of_filter.
  destruct (at_cell_of_row _ _ _ _ _ _ _ _ Hi He Hat) as (r & Hr & Hrid & Hcol).
  by eapply Habsent.
Qed.

Lemma aggregate_zero_without_events_witness :
  exists out fm header,
    generate_feature_matrix [("008", "Intestinal infection"); ("010", "Tuberculosis")] []
      [ {| subj_id := 1; genotype := 1; MaxAgeAtVisit := 50; covariate_fields := [] |};
        {| subj_id := 2; genotype := 0; MaxAgeAtVisit := 60; covariate_fields := [] |} ]
      (get_icd_codes [ {| row_id := 2; PheCode := "008"; AgeAtICD := 40 |} ] 2) 2 ICD None
      = (out, Ok (fm, header)).
Proof.
  destruct (aggregate_zero_without_events
    [("008", "Intestinal infection"); ("010", "Tuberculosis")] []
    [ {| subj_id := 1; genotype := 1; MaxAgeAtVisit := 50; covariate_fields := [] |};
      {| subj_id := 2; genotype := 0; MaxAgeAtVisit := 60; covariate_fields := [] |} ]
    [ {| row_id := 2; PheCode := "008"; AgeAtICD := 40 |} ] 2 None)
    as (out & fm & header & Hrun & _).
  - simpl. apply NoDup_cons. split; [|apply NoDup_singleton].
    intros Hin. apply list_elem_of_singleton in Hin. discriminate Hin.
  - intros r Hr. apply list_elem_of_singleton in Hr as ->.
    apply elem_of_cons. by left.
  - right. by right.
  - by exists out, fm, header.
Defined.

(** X24: layer 2 is the indicator of the covariate phenotype: the row of a
    subject holds 1 in every column when the subject has an event with the
    code [pheno_cov], and 0 in every column otherwise (and when no
    covariate is given). *)
Theorem covariate_layer_is_indicator
    (phewas_codes prowas_codes : list (string * string))
    (genotypes_df : list subject) (phenotypes : list icd_row)
    (reg_type : Z) (pheno_cov : option string) :
  NoDup (subj_id <$> genotypes_df) ->
  (forall r, r ∈ phenotypes -> PheCode r ∈ phewas_codes.*1) ->
  reg_type = 0 \/ reg_type = 1 \/ reg_type = 2 ->
  exists out fm header,
    generate_feature_matrix phewas_codes prowas_codes genotypes_df
      (get_icd_codes phenotypes reg_type) reg_type ICD pheno_cov
      = (out, Ok (fm, header)) /\
    forall s i j,
      sort_subjects genotypes_df !! i = Some s ->
      (j < length header)%nat ->
      ((exists r, r ∈ phenotypes /\ row_id r = subj_id s /\
                  pheno_cov = Some (PheCode r)) ->
       cell (fm2 fm) i j = Some 1%Q) /\
      ((forall r, r ∈ phenotypes -> row_id r = subj_id s ->
                  pheno_cov ≠ Some (PheCode r)) ->
       cell (fm2 fm) i j = Some 0%Q).
Proof.
  intros Hnd Hcodes Hreg.
  destruct (generate_feature_matrix_final phewas_codes prowas_codes genotypes_df
              phenotypes reg_type pheno_cov Hnd Hcodes Hreg) as (Hrun & HI & HF & Hdict).
  eexists _, _, _. split; [exact Hrun|].
  intros s i j Hi Hj.
  assert (HiN : (i < length (sort_subjects genotypes_df))%nat)
    by by eapply lookup_lt_Some.
  rewrite (fill_cov HF i j HiN Hj).
  split.
  - intros (r & Hr & Hrid & Hcov).
    destruct (decide (_ = [])) as [Hnil|]; [|done]. exfalso.
    set (e := {| ev_id := row_id r; ev_code := PheCode r; ev_age := AgeAtICD r;
                 duration :=
                   if decide (reg_type = 2)
                   then Some (transform_max phenotypes r - transform_min phenotypes r + 1)%Q
                   else None;
                 MaxAgeAtICD := transform_max phenotypes r |}).
    assert (e ∈ filter (covariate_hit (sort_subjects genotypes_df) pheno_cov i)
                  (sort_events (get_icd_codes phenotypes reg_type))) as Hin.
    { apply list_elem_of_filter. split.
      - split; [|done]. rewrite list_lookup_fmap, Hi. simpl. by rewrite Hrid.
      - apply sort_by_elem_of. unfold get_icd_codes.
        apply list_elem_of_fmap. exists r. done. }
    rewrite Hnil in Hin. by apply elem_of_nil in Hin.
  - intros Hnone.
    destruct (decide (_ = [])) as [|Hne]; [done|]. exfalso. apply Hne.
    apply elem_of_nil_inv. intros e [[Hrow Hcov] He%sort_by_elem_of]%list_elem_of_filter.
    apply elem_of_get_icd_codes in He as (r & Hr & Hid & Hcode & _).
    apply (Hnone r Hr).
    + rewrite list_lookup_fmap, Hi in Hrow. simpl in Hrow. congruence.
    + congruence.
Qed.

Lemma covariate_layer_is_indicator_witness :
  exists out fm header,
    generate_feature_matrix [("008", "Intestinal infection"); ("010", "Tuberculosis")] []
      [ {| subj_id := 1; genotype := 1; MaxAgeAtVisit := 50; covariate_fields := [] |};
        {| subj_id := 2; genotype := 0; MaxAgeAtVisit := 60; covariate_fields := [] |} ]
      (get_icd_codes [ {| row_id := 2; PheCode := "008"; AgeAtICD := 40 |} ] 0) 0 ICD
      (Some "008")
      = (out, Ok (fm, header)).
Proof.
  destruct (covariate_layer_is_indicator
    [("008", "Intestinal infection"); ("010", "Tuberculosis")] []
    [ {| subj_id := 1; genotype := 1; MaxAgeAtVisit := 50; covariate_fields := [] |};
      {| subj_id := 2; genotype := 0; MaxAgeAtVisit := 60; covariate_fields := [] |} ]
    [ {| row_id := 2; PheCode := "008"; AgeAtICD := 40 |} ] 0 (Some "008"))
    as (out & fm & header & Hrun & _).
  - simpl. apply NoDup_cons. split; [|apply NoDup_singleton].
    intros Hin. apply list_elem_of_singleton in Hin. discriminate Hin.
  - intros r Hr. apply list_elem_of_singleton in Hr as ->.
    apply elem_of_cons. by left.
  - by left.
  - by exists out, fm, header.
Defined.

(** ** Runs that end in an exception *)

(** X25: a group file in which an id occurs twice is rejected: the
    conversion of the frame to a dictionary raises ValueError after the
    two sorting lines, before any event is looked at. *)
Theorem duplicate_ids_rejected (phewas_codes prowas_codes : list (string * string))
    (genotypes_df : list subject) (phenotype : list event) (reg_type : Z)
    (code_type : code_kind) (pheno_cov : option string) :
  ¬ NoDup (subj_id <$> genotypes_df) ->
  exists msg,
    generate_feature_matrix phewas_codes prowas_codes genotypes_df phenotype reg_type
      code_type pheno_cov
    = (["Sorting phenotype data..."; "Sorting group data..."], Raise (ValueError msg)).
Proof.
  intros Hdup. eexists. by apply generate_feature_matrix_dup.
Qed.

Lemma duplicate_ids_rejected_witness :
  exists msg,
    generate_feature_matrix [("008", "Intestinal infection")] []
      [ {| subj_id := 1; genotype := 1; MaxAgeAtVisit := 50; covariate_fields := [] |};
        {| subj_id := 1; genotype := 0; MaxAgeAtVisit := 60; covariate_fields := [] |} ]
      [] 0 ICD None
    = (["Sorting phenotype data..."; "Sorting group data..."], Raise (ValueError msg)).
Proof.
  apply duplicate_ids_rejected. simpl. intros Hnd.
  apply NoDup_cons in Hnd as [Hnot _]. apply Hnot. apply elem_of_cons. by left.
Defined.

Lemma first_such {A} (Q : A -> Prop) `{!forall x, Decision (Q x)} l :
  (exists x, x ∈ l /\ Q x) ->
  exists l1 x l2, l = l1 ++ x :: l2 /\ Q x /\ forall y, y ∈ l1 -> ¬ Q y.
Proof.
  induction l as [|a l IH]; intros (x & Hx & HQ); [by apply elem_of_nil in Hx|].
  destruct (decide (Q a)) as [Ha|Ha].
  - exists [], a, l. split; [done|]. split; [done|].
    intros y Hy. by apply elem_of_nil in Hy.
  - apply elem_of_cons in Hx as [->|Hx]; [done|].
    destruct IH as (l1 & z & l2 & -> & Hz & Hl1); [by eauto|].
    exists (a :: l1), z, l2. split; [done|]. split; [done|].
    intros y [->|Hy]%elem_of_cons; [done|by apply Hl1].
Qed.

Lemma process_events_raised rs genotypes np_index reg_type pheno_cov P evs : forall st,
  raised st ≠ None ->
  fold_left (process_event rs genotypes np_index reg_type pheno_cov P) evs st = st.
Proof.
  induction evs as [|e evs IH]; intros st Hr; [done|].
  simpl. assert (process_event rs genotypes np_index reg_type pheno_cov P st e = st) as ->.
  { unfold process_event. by destruct (raised st). }
  by apply IH.
Qed.

(** X26: an event of a subject of the group file whose code is not in the
    code table ends the build: the lookup of the column raises KeyError
    with that code, and no matrix is returned.  (Events of ids outside the
    group file are passed over before their code is looked up.) *)
Theorem unknown_code_raises_key_error
    (phewas_codes prowas_codes : list (string * string))
    (genotypes_df : list subject) (phenotypes : list icd_row)
    (reg_type : Z) (pheno_cov : option string) :
  NoDup (subj_id <$> genotypes_df) ->
  reg_type = 0 \/ reg_type = 1 \/ reg_type = 2 ->
  (exists r, r ∈ phenotypes /\ row_id r ∈ (subj_id <$> genotypes_df) /\
             PheCode r ∉ phewas_codes.*1) ->
  exists r, r ∈ phenotypes /\ row_id r ∈ (subj_id <$> genotypes_df) /\
    (PheCode r ∉ phewas_codes.*1) /\
    snd (generate_feature_matrix phewas_codes prowas_codes genotypes_df
           (get_icd_codes phenotypes reg_type) reg_type ICD pheno_cov)
      = Raise (KeyError (PheCode r)).
Proof.
  intros Hnd Hreg (r0 & Hr0 & Hid0 & Hcode0).
  set (rs := sort_subjects genotypes_df).
  set (header := header_of phewas_codes prowas_codes ICD).
  set (evs := get_icd_codes phenotypes reg_type).
  set (genotypes := to_dict ((fun s => (subj_id s, s)) <$> rs)).
  set (np_index := to_dict (zip header (seq 0 (length header)))).
  assert (Hdict : to_dict_index rs = Ok genotypes).
  { apply to_dict_index_NoDup. by apply sort_subjects_ids_NoDup. }
  set (bad := fun e : event =>
         ev_id e ∈ (subj_id <$> genotypes_df) /\ ev_code e ∉ phewas_codes.*1).
  destruct (first_such bad (sort_events evs)) as (l1 & x & l2 & Hsplit & [Hxid Hxcode] & Hl1).
  { exists {| ev_id := row_id r0; ev_code := PheCode r0; ev_age := AgeAtICD r0;
              duration :=
                if decide (reg_type = 2)
                then Some (transform_max phenotypes r0 - transform_min phenotypes r0 + 1)%Q
                else None;
              MaxAgeAtICD := transform_max phenotypes r0 |}.
    split; [|done]. apply sort_by_elem_of. unfold evs, get_icd_codes.
    apply list_elem_of_fmap. exists r0. done. }
  assert (Hxin : x ∈ sort_events evs).
  { rewrite Hsplit. apply elem_of_app. right. apply elem_of_cons. by left. }
  pose proof Hxin as Hx%sort_by_elem_of.
  apply elem_of_get_icd_codes in Hx as (r & Hr & Hrid & Hrcode & _).
  exists r. split; [done|]. split; [congruence|]. split; [congruence|].
  rewrite generate_feature_matrix_NoDup by done. cbv zeta.
  assert (Hroster : forall e, is_Some (genotypes !! ev_id e) <->
                              ev_id e ∈ subj_id <$> genotypes_df).
  { intros e. rewrite <- not_eq_None_Some.
    rewrite (genotypes_lookup_None rs genotypes Hdict).
    unfold rs, sort_subjects. rewrite sort_by_Permutation.
    split; [apply dec_stable|by intros ? ?]. }
  assert (Hsorted : StronglySorted (fun a b => (ev_id a <=? ev_id b)%Z = true)
                      (l1 ++ x :: l2)).
  { rewrite <- Hsplit. apply sort_events_StronglySorted. }
  (* the events before the first one with an unknown code *)
  assert (HI : Inv rs header reg_type l1
                 (fold_left (process_event rs genotypes np_index reg_type pheno_cov
                               (length header)) l1
                    (init_state (length rs) (length header)))).
  { apply (process_events_inv rs genotypes header reg_type pheno_cov Hdict
             (sort_subjects_StronglySorted _) l1 []).
    - apply init_state_Inv.
    - by apply StronglySorted_app_1_l in Hsorted.
    - intros e He Hsome%Hroster.
      destruct (decide (ev_code e ∈ phewas_codes.*1)) as [Hin|Hout].
      + unfold header, header_of. by apply sort_by_elem_of.
      + by destruct (Hl1 e He).
    - intros e He _ H0 H1.
      assert (e ∈ sort_events evs) as He'%sort_by_elem_of.
      { rewrite Hsplit. apply elem_of_app. by left. }
      apply elem_of_get_icd_codes in He' as (r' & _ & _ & _ & _ & ->).
      destruct (decide (reg_type = 2)); [done|lia].
    - intros e e' He He'.
      assert (e ∈ sort_events evs) as He1%sort_by_elem_of.
      { rewrite Hsplit. apply elem_of_app. by left. }
      assert (e' ∈ sort_events evs) as He2%sort_by_elem_of.
      { rewrite Hsplit. apply elem_of_app. by left. }
      by eapply get_icd_codes_consistent. }
  unfold final_state. fold rs header genotypes np_index. rewrite Hsplit.
  rewrite fold_left_app. simpl fold_left.
  set (st1 := fold_left _ l1 _) in *.
  (* the turn of the loop for that event *)
  assert (Hstep : process_event rs genotypes np_index reg_type pheno_cov (length header)
                    st1 x = raise_in st1 (KeyError (ev_code x))).
  { unfold process_event. rewrite (inv_raised HI).
    destruct (proj2 (Hroster x) Hxid) as [g Hg]. rewrite Hg.
    destruct (genotypes_lookup_Some rs genotypes Hdict _ _ Hg) as [Hgin Hgid].
    apply list_elem_of_lookup_1 in Hgin as [p Hp].
    destruct (new_subject_spec rs genotypes header reg_type Hdict
                (sort_subjects_StronglySorted _) l1 st1 x g p HI Hp Hgid)
      as (m1n & Hnew & _).
    { intros e He. apply Z.leb_le.
      apply (StronglySorted_app_1_elem_of _ _ _ e x Hsorted); [done|].
      apply elem_of_cons. by left. }
    rewrite Hnew. simpl.
    assert (np_index !! ev_code x = None) as ->; [|done].
    apply to_dict_lookup_None. rewrite fst_zip by (rewrite length_seq; lia).
    unfold header, header_of. by rewrite sort_by_elem_of. }
  rewrite Hstep, process_events_raised by done. simpl. by rewrite Hrcode.
Qed.

Lemma unknown_code_raises_key_error_witness :
  exists r,
    r ∈ [ {| row_id := 7; PheCode := "999"; AgeAtICD := 30 |};
          {| row_id := 2; PheCode := "250"; AgeAtICD := 40 |} ] /\
    snd (generate_feature_matrix [("008", "Intestinal infection")] []
           [ {| subj_id := 1; genotype := 1; MaxAgeAtVisit := 50; covariate_fields := [] |};
             {| subj_id := 2; genotype := 0; MaxAgeAtVisit := 60; covariate_fields := [] |} ]
           (get_icd_codes
              [ {| row_id := 7; PheCode := "999"; AgeAtICD := 30 |};
                {| row_id := 2; PheCode := "250"; AgeAtICD := 40 |} ] 0) 0 ICD None)
      = Raise (KeyError (PheCode r)).
Proof.
  destruct (unknown_code_raises_key_error [("008", "Intestinal infection")] []
    [ {| subj_id := 1; genotype := 1; MaxAgeAtVisit := 50; covariate_fields := [] |};
      {| subj_id := 2; genotype := 0; MaxAgeAtVisit := 60; covariate_fields := [] |} ]
    [ {| row_id := 7; PheCode := "999"; AgeAtICD := 30 |};
      {| row_id := 2; PheCode := "250"; AgeAtICD := 40 |} ] 0 None)
    as (r & Hr & _ & _ & Hrun).
  - simpl. apply NoDup_cons. split; [|apply NoDup_singleton].
    intros Hin. apply list_elem_of_singleton in Hin. discriminate Hin.
  - by left.
  - exists {| row_id := 2; PheCode := "250"; AgeAtICD := 40 |}.
    split; [apply elem_of_cons; right; by apply list_elem_of_singleton|].
    split.
    + simpl. apply elem_of_cons. right. by apply list_elem_of_singleton.
    + simpl. intros Hin. apply list_elem_of_singleton in Hin. discriminate Hin.
  - by exists r.
Defined.

(** ** The loaders *)

Lemma elem_of_merge {A} (key : A -> string) (row : A -> string -> icd_row) left codes r :
  r ∈ merge key row left codes <->
  exists rec code, rec ∈ left /\ (key rec, code) ∈ codes /\ r = row rec code.
Proof.
  unfold merge. rewrite list_elem_of_bind. split.
  - intros (rec & Hr & Hrec).
    apply list_elem_of_fmap in Hr as ([k code] & -> & [Hk Hin]%list_elem_of_filter).
    simpl in *. subst k. by exists rec, code.
  - intros (rec & code & Hrec & Hin & ->). exists rec. split; [|done].
    apply list_elem_of_fmap. exists (key rec, code). split; [done|].
    by apply list_elem_of_filter.
Qed.

Lemma elem_of_np_unique x a : x ∈ np_unique a <-> x ∈ a.
Proof. unfold np_unique. by rewrite sort_by_elem_of, elem_of_remove_dups. Qed.




Lemma forallb_elem_of {A} (f : A -> bool) l :
  forallb f l = true <-> forall x, x ∈ l -> f x = true.
Proof.
  rewrite forallb_forall. split; intros H x Hx; apply H; by apply list_elem_of_In.
Qed.

(** X27: [get_icd_codes] does not get through a phenotype file without
    records, nor one with an [ICD_TYPE] other than 9 and 10: on the first
    the lookup of the first type raises IndexError (no line is printed), on
    the second the function prints its complaint and exits. *)
Theorem phenotype_file_rejected (icd9_codes icd10_codes : list (string * string))
    (icdfile : list icd_record) (reg_type : Z) :
  (icdfile = [] ->
   exists msg, get_icd_codes_file icd9_codes icd10_codes icdfile reg_type
     = ([], Raise (IndexError msg))) /\
  ((exists rec, rec ∈ icdfile /\ ICD_TYPE rec ≠ 9 /\ ICD_TYPE rec ≠ 10) ->
   get_icd_codes_file icd9_codes icd10_codes icdfile reg_type
     = (["Found an ICD_TYPE that was not 9 or 10 - Please check phenotype file.";
         "Exiting pyPheWAS"], Raise SystemExit)).
Proof.
  split.
  - intros ->. eexists. reflexivity.
  - intros (rec & Hrec & H9 & H10).
    unfold get_icd_codes_file, get_icd_codes_merge.
    destruct (forallb _ _) eqn:Hall; [exfalso|done].
    rewrite forallb_elem_of in Hall.
    specialize (Hall (ICD_TYPE rec)).
    rewrite elem_of_np_unique in Hall.
    apply orb_prop in Hall as [Hall|Hall]; [by apply Z.eqb_eq in Hall..|].
    apply list_elem_of_fmap. eexists. split; [|apply list_elem_of_fmap_2, Hrec]. done.
Qed.

Lemma phenotype_file_rejected_witness :
  get_icd_codes_file [("008.5", "008")] []
    [ {| rec_id := 1; ICD_CODE := "008.5"; ICD_TYPE := 9; rec_AgeAtICD := 40 |};
      {| rec_id := 1; ICD_CODE := "A04"; ICD_TYPE := 11; rec_AgeAtICD := 41 |} ] 0
  = (["Found an ICD_TYPE that was not 9 or 10 - Please check phenotype file.";
      "Exiting pyPheWAS"], Raise SystemExit).
Proof.
  apply (proj2 (phenotype_file_rejected [("008.5", "008")] []
    [ {| rec_id := 1; ICD_CODE := "008.5"; ICD_TYPE := 9; rec_AgeAtICD := 40 |};
      {| rec_id := 1; ICD_CODE := "A04"; ICD_TYPE := 11; rec_AgeAtICD := 41 |} ] 0)).
  exists {| rec_id := 1; ICD_CODE := "A04"; ICD_TYPE := 11; rec_AgeAtICD := 41 |}.
  split; [|split; discriminate].
  apply elem_of_cons; right. apply elem_of_cons; by left.
Defined.



(** ** The procedure codes *)

Lemma final_state_Inv_CPT (phewas_codes prowas_codes : list (string * string))
    (genotypes_df : list subject) (phenotypes : list icd_row)
    (reg_type : Z) (pheno_cov : option string) :
  NoDup (subj_id <$> genotypes_df) ->
  (forall r, r ∈ phenotypes -> PheCode r ∈ prowas_codes.*1) ->
  reg_type = 0 \/ reg_type = 1 \/ reg_type = 2 ->
  Inv (sort_subjects genotypes_df) (header_of phewas_codes prowas_codes CPT) reg_type
    (sort_events (get_icd_codes phenotypes reg_type))
    (final_state phewas_codes prowas_codes genotypes_df
       (get_icd_codes phenotypes reg_type) reg_type CPT pheno_cov).
Proof.
  intros Hnd Hcodes Hreg.
  set (rs := sort_subjects genotypes_df).
  set (header := header_of phewas_codes prowas_codes CPT).
  set (evs := get_icd_codes phenotypes reg_type).
  assert (Hdict : to_dict_index rs = Ok (to_dict ((fun s => (subj_id s, s)) <$> rs))).
  { apply to_dict_index_NoDup. by apply sort_subjects_ids_NoDup. }
  unfold final_state. fold rs. fold header.
  apply (process_events_inv rs _ header reg_type pheno_cov Hdict
           (sort_subjects_StronglySorted _) (sort_events evs) []).
  - apply init_state_Inv.
  - apply sort_events_StronglySorted.
  - intros e He%sort_by_elem_of _.
    apply elem_of_get_icd_codes in He as (r & Hr & _ & -> & _).
    unfold header, header_of. apply sort_by_elem_of. by apply Hcodes.
  - intros e He%sort_by_elem_of _ H0 H1.
    apply elem_of_get_icd_codes in He as (r & Hr & _ & _ & _ & ->).
    destruct (decide (reg_type = 2)); [done|lia].
  - intros e e' He%sort_by_elem_of He'%sort_by_elem_of.
    by eapply get_icd_codes_consistent.
Qed.

(** X29: the procedure path.  With [code_type] CPT the columns are those
    of the ProWAS table: for a record of a subject of the group file whose
    CPT code (blanks removed) the map sends to a ProWAS code of the table,
    the cell of layer 1 in the row of the subject and the column of that
    ProWAS code holds the maximum age over the subject's records of the
    code. *)
Theorem cpt_feature_matrix_max_age
    (phewas_codes prowas_codes cpt_codes : list (string * string))
    (genotypes_df : list subject) (cptfile : list cpt_record)
    (reg_type : Z) (pheno_cov : option string) :
  NoDup (subj_id <$> genotypes_df) ->
  (forall c, c ∈ cpt_codes -> snd c ∈ prowas_codes.*1) ->
  reg_type = 0 \/ reg_type = 1 \/ reg_type = 2 ->
  exists out fm header,
    generate_feature_matrix phewas_codes prowas_codes genotypes_df
      (get_cpt_codes cpt_codes cptfile reg_type) reg_type CPT pheno_cov
      = (out, Ok (fm, header)) /\
    forall s rec prowas_code,
      s ∈ genotypes_df -> rec ∈ cptfile -> cpt_id rec = subj_id s ->
      (py_strip (CPT_CODE rec), prowas_code) ∈ cpt_codes ->
      let ages :=
        AgeAtCPT <$>
          filter (fun rec' => cpt_id rec' = subj_id s /\
                              (py_strip (CPT_CODE rec'), prowas_code) ∈ cpt_codes)
            cptfile in
      exists i j mx,
        sort_subjects genotypes_df !! i = Some s /\
        header !! j = Some prowas_code /\
        mx ∈ ages /\ (forall a, a ∈ ages -> (a <= mx)%Q) /\
        (AgeAtCPT rec <= mx)%Q /\
        cell (fm1 fm) i j = Some mx.
Proof.
  intros Hnd Hcodes Hreg. unfold get_cpt_codes.
  set (strip := fun rec => {| cpt_id := cpt_id rec; CPT_CODE := py_strip (CPT_CODE rec);
                             AgeAtCPT := AgeAtCPT rec |}).
  set (phenotypes := merge CPT_CODE cpt_row_of (strip <$> cptfile) cpt_codes).
  assert (Hphen : forall r, r ∈ phenotypes <->
            exists rec code, rec ∈ cptfile /\ (py_strip (CPT_CODE rec), code) ∈ cpt_codes /\
              r = cpt_row_of rec code).
  { intros r. unfold phenotypes. rewrite elem_of_merge. split.
    - intros (rec' & code & (rec & -> & Hrec)%list_elem_of_fmap & Hcode & ->).
      by exists rec, code.
    - intros (rec & code & Hrec & Hcode & ->). exists (strip rec), code.
      split; [by apply list_elem_of_fmap_2|done]. }
  assert (Hvalid : forall r, r ∈ phenotypes -> PheCode r ∈ prowas_codes.*1).
  { intros r (rec & code & _ & Hcode & ->)%Hphen. simpl. by apply (Hcodes _ Hcode). }
  rewrite generate_feature_matrix_NoDup by done. cbv zeta.
  set (rs := sort_subjects genotypes_df).
  set (header := header_of phewas_codes prowas_codes CPT).
  pose proof (final_state_Inv_CPT phewas_codes prowas_codes genotypes_df phenotypes
                reg_type pheno_cov Hnd Hvalid Hreg) as HI.
  fold rs header in HI. rewrite (inv_raised HI).
  eexists _, _, _. split; [reflexivity|].
  intros s rec prowas_code Hs Hrec Hid Hcode.
  set (ages := AgeAtCPT <$> filter _ cptfile).
  set (r := cpt_row_of rec prowas_code).
  assert (Hr : r ∈ phenotypes) by (apply Hphen; by exists rec, prowas_code).
  assert (Hsrs : s ∈ rs) by by apply sort_by_elem_of.
  apply list_elem_of_lookup_1 in Hsrs as [i Hi].
  destruct (np_index_is_Some header prowas_code) as [j Hj].
  { unfold header, header_of. apply sort_by_elem_of. by apply (Hvalid r). }
  set (e := {| ev_id := row_id r; ev_code := PheCode r; ev_age := AgeAtICD r;
               duration :=
                 if decide (reg_type = 2)
                 then Some (transform_max phenotypes r - transform_min phenotypes r + 1)%Q
                 else None;
               MaxAgeAtICD := transform_max phenotypes r |}).
  assert (He : e ∈ sort_events (get_icd_codes phenotypes reg_type)).
  { apply sort_by_elem_of. unfold get_icd_codes.
    apply list_elem_of_fmap. exists r. done. }
  destruct (inv_cells HI e i j He) as [Hc1 _].
  { exists s. done. }
  { exact Hj. }
  assert (Hsame : forall a, a ∈ group_ages phenotypes r <-> a ∈ ages).
  { intros a. unfold group_ages, ages. rewrite !list_elem_of_fmap. split.
    - intros (r' & -> & [[Hrid Hrcode] Hr']%list_elem_of_filter).
      apply Hphen in Hr' as (rec' & code & Hrec' & Hcode' & ->).
      simpl in *. subst code. exists rec'. split; [done|].
      apply list_elem_of_filter. split; [|done]. split; [congruence|done].
    - intros (rec' & -> & [[Hrid Hrcode] Hrec']%list_elem_of_filter).
      exists (cpt_row_of rec' prowas_code). split; [done|].
      apply list_elem_of_filter. split.
      + split; simpl; congruence.
      + apply Hphen. by exists rec', prowas_code. }
  destruct (reduce_Qmax' (group_ages phenotypes r)) as [Hmax_in Hmax_ge];
    [by apply group_ages_nonempty|].
  exists i, j, (transform_max phenotypes r).
  split; [done|]. split; [by apply np_index_lookup|].
  split; [by apply Hsame|]. split; [intros a Ha; by apply Hmax_ge, Hsame|].
  split; [|exact Hc1].
  apply Hmax_ge, Hsame. unfold ages. apply list_elem_of_fmap. exists rec.
  split; [done|]. by apply list_elem_of_filter.
Qed.

Lemma cpt_feature_matrix_max_age_witness :
  exists out fm header,
    generate_feature_matrix [] [("1.1", "Incision of skin")] 
      [ {| subj_id := 1; genotype := 1; MaxAgeAtVisit := 50; covariate_fields := [] |} ]
      (get_cpt_codes [("10060", "1.1")]
         [ {| cpt_id := 1; CPT_CODE := "10060 "; AgeAtCPT := 30 |};
           {| cpt_id := 1; CPT_CODE := "10060"; AgeAtCPT := 35 |} ] 0) 0 CPT None
      = (out, Ok (fm, header)).
Proof.
  destruct (cpt_feature_matrix_max_age [] [("1.1", "Incision of skin")] [("10060", "1.1")]
    [ {| subj_id := 1; genotype := 1; MaxAgeAtVisit := 50; covariate_fields := [] |} ]
    [ {| cpt_id := 1; CPT_CODE := "10060 "; AgeAtCPT := 30 |};
      {| cpt_id := 1; CPT_CODE := "10060"; AgeAtCPT := 35 |} ] 0 None)
    as (out & fm & header & Hrun & _).
  - simpl. apply NoDup_singleton.
  - intros c Hc. apply list_elem_of_singleton in Hc as ->. simpl.
    by apply list_elem_of_singleton.
  - by left.
  - by exists out, fm, header.
Defined.
